(** * Tunnel lifecycle manager: [skills/subcode-tunnel/scripts/tunnel.sh]

    A shallow embedding of the shell script.  Shell functions become
    functions in a small state-and-exit monad over an explicit [World]
    (the state directory, the background processes, the clock, the
    external commands that were run and the lines that were printed).
    Everything the script learns from programs it does not contain
    (tailscale, cloudflared, jq, yq, ss, lsof, grep, pgrep, the file
    system, the locale) is read from an [Env] of answers, so that the
    theorems hold for every behaviour of those programs. *)

From Stdlib Require Import ZArith Lia Ascii.
From stdpp Require Import gmap strings list fin_maps pretty sorting.

Open Scope Z_scope.

(** ** Strings *)

Definition nl : string := String "010"%char "".
Definition dq : string := String "034"%char "".

(** [-z "$s"] *)
Definition is_empty (s : string) : bool :=
  match s with "" => true | _ => false end.

(** ["${v:-d}"]: [d] when [v] is unset or empty. *)
Definition or_default (v d : string) : string :=
  if is_empty v then d else v.

Fixpoint has_suffix (suf s : string) : bool :=
  if String.eqb s suf then true
  else match s with
       | "" => false
       | String _ s' => has_suffix suf s'
       end.

Fixpoint has_slash (s : string) : bool :=
  match s with
  | "" => false
  | String c s' => if Ascii.eqb c "/"%char then true else has_slash s'
  end.

Fixpoint last_char (s : string) : option ascii :=
  match s with
  | "" => None
  | String c "" => Some c
  | String _ s' => last_char s'
  end.

(** Does the text hold a line break. *)
Fixpoint has_nl (s : string) : bool :=
  match s with
  | "" => false
  | String c s' => if Ascii.eqb c "010" then true else has_nl s'
  end.

(** ** What [echo] prints and what [$(...)] keeps *)

(** The letters of the options of [echo]. *)
Fixpoint echo_flags (s : string) : bool :=
  match s with
  | "" => true
  | String c s' =>
      (Ascii.eqb c "n" || Ascii.eqb c "e" || Ascii.eqb c "E") && echo_flags s'
  end.

(** A word that [echo] takes for its options and does not print: a dash
    followed by one or more of [n], [e] and [E]. *)
Definition is_echo_option (s : string) : bool :=
  match s with
  | String "-" (String c s') => echo_flags (String c s')
  | _ => false
  end.

(** [$(...)] drops the line breaks that end the output. *)
Fixpoint strip_nl (s : string) : string :=
  match s with
  | "" => ""
  | String c s' =>
      let t := strip_nl s' in
      if Ascii.eqb c "010" && is_empty t then "" else String c t
  end.

(** [$(echo "$s")]: nothing for an option word (with or without the line
    break that [echo] adds), else the word without its final line breaks. *)
Definition echoed (s : string) : string :=
  if is_echo_option s then "" else strip_nl s.

(** What [echo "$s"] writes into a pipe: nothing for an option word that
    holds the letter [n], a line break for another option word, else the
    word and a line break. *)
Fixpoint has_n_flag (s : string) : bool :=
  match s with
  | "" => false
  | String c s' => Ascii.eqb c "n" || has_n_flag s'
  end.

Definition echo_text (s : string) : string :=
  if is_echo_option s then (if has_n_flag s then "" else nl)
  else s +:+ nl.

(** ** The words given to [kill] *)

Definition is_digit (c : ascii) : bool :=
  ((48 <=? nat_of_ascii c) && (nat_of_ascii c <=? 57))%nat.

Fixpoint only_digits (s : string) : bool :=
  match s with
  | "" => true
  | String c s' => is_digit c && only_digits s'
  end.

(** A process id as [$!] and [pgrep] write it: a decimal number without
    sign, blank or leading zero. *)
Definition is_pid (s : string) : bool :=
  match s with
  | String c _ => negb (Ascii.eqb c "0") && only_digits s
  | "" => false
  end.

Definition is_blank (c : ascii) : bool := Ascii.eqb c " " || Ascii.eqb c "009".

Fixpoint skip_blanks (s : string) : string :=
  match s with
  | String c s' => if is_blank c then skip_blanks s' else s
  | "" => ""
  end.

Fixpoint only_blanks (s : string) : bool :=
  match s with
  | "" => true
  | String c s' => is_blank c && only_blanks s'
  end.

(** One or more [0], then blanks only. *)
Fixpoint zeros (s : string) : bool :=
  match s with
  | String c s' => Ascii.eqb c "0" && (zeros s' || only_blanks s')
  | "" => false
  end.

(** A word that [kill] reads as the number 0, which stands for the process
    group of the script itself: [0], [00], [+0], also between blanks. *)
Definition own_group (word : string) : bool :=
  let s := skip_blanks word in
  zeros s
  || match s with
     | String c s' => Ascii.eqb c "+" && zeros s'
     | "" => false
     end.

(** ** The state directory and the world around the script *)

(** One ingress rule of a routing configuration; the catch-all rule has no
    hostname. *)
Record Rule := {
  hostname : option string;
  service : string;
}.

Global Instance Rule_eq_dec : EqDecision Rule.
Proof. solve_decision. Defined.

(** A routing configuration file, as the YAML document it holds. *)
Record Config := {
  tunnel : string;
  credentials_file : string;
  ingress : list Rule;
}.

Global Instance Config_eq_dec : EqDecision Config.
Proof. solve_decision. Defined.

(** Lines the script prints, by the helper that prints them ([error] writes
    to standard error, the others to standard output). *)
Inductive line :=
| Log (s : string)
| Success (s : string)
| Warning (s : string)
| Error (s : string)
| Echo (s : string).

(** External commands with an effect outside the state directory. *)
Inductive event :=
| FunnelOn (funnel_port local_port : string)
| FunnelOff (funnel_port : string)
| FunnelReset
| TunnelCreate (tunnel_name : string)
| RouteDns (tunnel_name host : string)
| Spawn (pid cmdline : string)
| Kill (pid : string)
| Pkill (pattern : string).

(** [files] and [configs] are the two kinds of file in [$STATE_DIR], keyed
    by file name: text files (the records [NAME.json] and the logs
    [NAME.log]) and routing configurations ([TUNNEL-config.yml]).  Their
    names never coincide, see [config_file_not_record].  [procs] are the
    running processes that the user may signal, the script itself apart,
    keyed by process id. *)
Record World := {
  files : gmap string string;
  configs : gmap string Config;
  procs : gmap string string;
  next_pid : nat;
  clock : nat;
  trace : list event;
  out : list line;
}.

(** What the programs and the system outside the script answer.  An answer
    is a function of the arguments of the command; a command's output is
    its standard output as [$(...)] captures it. *)
Record Env := {
  (** environment variables, empty when unset *)
  TUNNEL_MACHINE_NAME : string;
  CLOUDFLARE_TUNNEL_DOMAIN : string;
  CLOUDFLARE_TUNNEL_NAME : string;
  HOME : string;
  (** [command -v tailscale], [command -v cloudflared], [command -v yq] *)
  has_tailscale : bool;
  has_cloudflared : bool;
  has_yq : bool;
  (** [jq FILTER] on a text: exit status and output *)
  jq : string → string → nat * string;
  (** [yq eval PROGRAM] on a routing configuration: exit status and the
      document it prints *)
  yq : string → Config → nat * Config;
  (** [grep -o 'https://[^[:space:]]*\.trycloudflare\.com' | head -1] on a
      text *)
  grep_url : string → string;
  (** does the regular expression of [pgrep -f] and [pkill -f] match the
      command line *)
  regex_match : string → string → bool;
  (** [tail -N] on a text *)
  tail_n : nat → string → string;
  (** what the three assignments [ts_name=$(...)], [status=$(...)] and
      [ts_host=$(...)] capture: the output of the pipelines
      [tailscale status --json | jq -r '.Self.HostName // empty'],
      ['.BackendState // "unknown"'] and ['.Self.DNSName // empty' | sed
      's/\.$//'], each with its fallback ([|| true], [|| echo "error"]) *)
  ts_HostName : string;
  ts_BackendState : string;
  ts_DNSName : string;
  (** [hostname -s], [None] when it fails *)
  hostname_s : option string;
  (** [ss -tlnp | grep -q ":PORT "]: does [grep] find the port in what [ss]
      prints, and the exit status of [ss] in that pipeline (not 0 when there
      is no [ss], and 141 when [grep -q] has stopped reading at its match
      and [ss] is ended by SIGPIPE while it still writes) *)
  ss_listening : string → bool;
  ss_status : string → nat;
  (** [lsof -i ":PORT"]: [true] when it exits with status 0, which it does
      when it shows an open file on the port *)
  lsof_open : string → bool;
  (** did [sudo tailscale funnel --bg --https=FUNNEL_PORT LOCAL_PORT],
      [... --https=FUNNEL_PORT off] and [... reset] succeed *)
  funnel_on : string → string → bool;
  funnel_off : string → bool;
  funnel_reset : bool;
  (** did [cloudflared tunnel list] succeed; did the pipeline
      [cloudflared tunnel list | grep -q "^[^ ]* *TUNNEL "] succeed; did
      [cloudflared tunnel create] succeed; the id the list gives for the
      name, empty when there is none; did [cloudflared tunnel route dns
      TUNNEL HOST] succeed *)
  cf_list_ok : bool;
  cf_tunnel_listed : string → bool;
  cf_tunnel_create : string → bool;
  cf_tunnel_id : string → string;
  cf_route_dns : string → string → bool;
  (** [-f] on a credentials file *)
  creds_exists : string → bool;
  (** can the shell open the file NAME of the state directory for writing
      ([> "$STATE_DIR/NAME"]): not when NAME holds a slash and there is no
      such sub-directory, nor when NAME is too long for a file name *)
  writable : string → bool;
  (** the order in which the shell sorts the names that a pattern matches
      (the collation of the locale) *)
  collate : string → string → bool;
  (** the log of the quick tunnel, so many seconds after it was spawned;
      [None] while the file does not exist *)
  quick_log_at : nat → option string;
  (** is [cloudflared tunnel run TUNNEL] still alive after the settle time,
      given the configuration it was started on, and what it has logged by
      then *)
  cf_run_alive : string → option Config → bool;
  cf_run_log : string;
}.

Definition STATE_DIR (E : Env) : string := HOME E +:+ "/.subcode/tunnels".
Definition CLOUDFLARED_CONFIG_DIR (E : Env) : string := HOME E +:+ "/.cloudflared".

(** ** The shell monad: state, exit and [set -e] *)

Inductive outcome (A : Type) :=
| Ret (a : A)
| Exit (status : nat)
| OutOfFuel.
Arguments Ret {A} a.
Arguments Exit {A} status.
Arguments OutOfFuel {A}.

Definition sh (A : Type) : Type := World → outcome A * World.

Definition ret {A} (a : A) : sh A := fun w => (Ret a, w).

Definition bind {A B} (m : sh A) (k : A → sh B) : sh B :=
  fun w => match m w with
           | (Ret a, w') => k a w'
           | (Exit n, w') => (Exit n, w')
           | (OutOfFuel, w') => (OutOfFuel, w')
           end.

Declare Scope sh_scope.
Delimit Scope sh_scope with sh.
Notation "x <- m ;; k" := (bind m (fun x => k))
  (at level 100, m at next level, right associativity) : sh_scope.
Notation "m ;; k" := (bind m (fun _ => k))
  (at level 100, right associativity) : sh_scope.
Open Scope sh_scope.

Definition exit {A} (n : nat) : sh A := fun w => (Exit n, w).
Definition out_of_fuel {A} : sh A := fun w => (OutOfFuel, w).

(** A simple command under [set -e]: a non-zero status ends the script with
    that status. *)
Definition errexit (m : sh nat) : sh unit :=
  st <- m ;; match st with O => ret tt | S _ => exit st end.

(** [cmd || true] *)
Definition or_true (m : sh nat) : sh unit := m ;; ret tt.

Definition say (l : line) : sh unit := fun w =>
  (Ret tt, {| files := files w; configs := configs w; procs := procs w;
              next_pid := next_pid w; clock := clock w; trace := trace w;
              out := out w ++ [l] |}).

Definition emit (e : event) : sh unit := fun w =>
  (Ret tt, {| files := files w; configs := configs w; procs := procs w;
              next_pid := next_pid w; clock := clock w;
              trace := trace w ++ [e]; out := out w |}).

Definition sleep (n : nat) : sh unit := fun w =>
  (Ret tt, {| files := files w; configs := configs w; procs := procs w;
              next_pid := next_pid w; clock := clock w + n;
              trace := trace w; out := out w |}).

Definition set_files (f : gmap string string → gmap string string) : sh unit :=
  fun w =>
  (Ret tt, {| files := f (files w); configs := configs w; procs := procs w;
              next_pid := next_pid w; clock := clock w; trace := trace w;
              out := out w |}).

Definition set_configs (f : gmap string Config → gmap string Config) : sh unit :=
  fun w =>
  (Ret tt, {| files := files w; configs := f (configs w); procs := procs w;
              next_pid := next_pid w; clock := clock w; trace := trace w;
              out := out w |}).

Definition set_procs (f : gmap string string → gmap string string) : sh unit :=
  fun w =>
  (Ret tt, {| files := files w; configs := configs w; procs := f (procs w);
              next_pid := next_pid w; clock := clock w; trace := trace w;
              out := out w |}).

Definition get_file (f : string) : sh (option string) :=
  fun w => (Ret (files w !! f), w).
Definition get_config (f : string) : sh (option Config) :=
  fun w => (Ret (configs w !! f), w).
Definition get_procs : sh (gmap string string) :=
  fun w => (Ret (procs w), w).

(** [echo TEXT > "$STATE_DIR/F"], a simple command under [set -e]: when the
    file cannot be opened nothing is written and the script ends with
    status 1. *)
Definition write_file (E : Env) (f text : string) : sh unit :=
  if writable E f then set_files (insert f text) else exit 1.
(** [rm -f "$STATE_DIR/F"] *)
Definition rm_f (f : string) : sh unit := set_files (delete f).

(** [cmd > "$STATE_DIR/LOG" 2>&1 &] followed by [pid=$!]: when the log
    cannot be opened the command is not run, and [$!] is the id of a
    process that has ended already. *)
Definition spawn (E : Env) (log_file cmdline : string) : sh string := fun w =>
  let pid := pretty (next_pid w) in
  if writable E log_file then
    (Ret pid, {| files := files w; configs := configs w;
                 procs := <[pid := cmdline]> (procs w);
                 next_pid := S (next_pid w); clock := clock w;
                 trace := trace w ++ [Spawn pid cmdline]; out := out w |})
  else
    (Ret pid, {| files := files w; configs := configs w; procs := procs w;
                 next_pid := S (next_pid w); clock := clock w;
                 trace := trace w; out := out w |}).

(** [kill "$pid" 2>/dev/null].  A running process of the user is ended by
    the signal.  A word that names none is an error, status 1, unless it
    reads as 0: then the signal goes to the process group of the script,
    which ends there, killed by SIGTERM (status 143).  The theorems that
    say which processes are left speak of process ids ([is_pid]) and of
    the words of several lines that [pgrep] gives; a word that reads as a
    negative number, which names a whole process group, is taken here for
    a word that names no process. *)
Definition kill (pid : string) : sh nat :=
  emit (Kill pid) ;;
  ps <- get_procs ;;
  match ps !! pid with
  | Some _ => set_procs (delete pid) ;; ret 0%nat
  | None => if own_group pid then exit 143 else ret 1%nat
  end.

Definition log (s : string) : sh unit := say (Log s).
Definition success (s : string) : sh unit := say (Success s).
Definition warning (s : string) : sh unit := say (Warning s).
Definition error (s : string) : sh unit := say (Error s).
Definition echo (s : string) : sh unit := say (Echo s).

(** ** Detection functions *)

(** The value of [$(get_machine_name)]: the function prints the name with
    [echo], or lets [hostname -s] print it. *)
Definition get_machine_name (E : Env) : string :=
  if negb (is_empty (TUNNEL_MACHINE_NAME E)) then echoed (TUNNEL_MACHINE_NAME E)
  else if has_tailscale E && negb (is_empty (ts_HostName E))
       then echoed (ts_HostName E)
  else default "dev" (hostname_s E).

Definition check_tailscale (E : Env) : string :=
  if negb (has_tailscale E) then "not_installed"
  else if String.eqb (ts_BackendState E) "Running" then "ready"
  else if String.eqb (ts_BackendState E) "NeedsLogin" then "needs_login"
  else "not_connected".

Definition check_cloudflare (E : Env) : string :=
  if negb (has_cloudflared E) then "not_installed"
  else if cf_list_ok E then "authenticated"
  else "not_authenticated".

(** The value of [$(get_cloudflare_domain)]. *)
Definition get_cloudflare_domain (E : Env) : string :=
  echoed (CLOUDFLARE_TUNNEL_DOMAIN E).

(** ** Port allocation *)

(** Shell arithmetic is on 64-bit signed integers.  The base port is the
    integer the argument denotes; the probes get its decimal writing, and
    the comparison and the sum read it as shell arithmetic does. *)
Definition wrap64 (z : Z) : Z := (z + 2 ^ 63) mod 2 ^ 64 - 2 ^ 63.

(** [ss -tlnp 2>/dev/null | grep -q ":PORT "] under [set -o pipefail]: the
    pipeline succeeds when [grep] finds the port and [ss] exits with 0. *)
Definition ss_grep (E : Env) (port : string) : bool :=
  ss_listening E port && Nat.eqb (ss_status E port) 0.

(** The condition of the [if]: both tests fail, the pipeline and [lsof]. *)
Definition port_free (E : Env) (port : Z) : bool :=
  negb (ss_grep E (pretty port)) && negb (lsof_open E (pretty port)).

(** The [while [[ $port -lt $max_port ]]] loop; [Some st] when the function
    returned [st] from inside the loop, [None] when the loop ended. *)
Fixpoint scan_ports (E : Env) (fuel : nat) (port max_port : Z)
  : sh (option nat) :=
  if wrap64 port <? max_port then
    if port_free E port then
      echo (pretty port) ;; ret (Some 0%nat)
    else
      match fuel with
      | O => out_of_fuel
      | S fuel' => scan_ports E fuel' (wrap64 (port + 1)) max_port
      end
  else ret None.

Definition find_available_port (E : Env) (base_port : Z) : sh nat :=
  let port := base_port in
  let max_port := wrap64 (base_port + 100) in
  r <- scan_ports E 100 port max_port ;;
  match r with
  | Some st => ret st
  | None =>
      error ("No available port found in range " +:+ pretty base_port
             +:+ "-" +:+ pretty max_port) ;;
      ret 1%nat
  end.

(** ** Tunnel records *)

Definition record_file (name : string) : string := name +:+ ".json".

(** A word between double quotes. *)
Definition q (s : string) : string := dq +:+ s +:+ dq.

(** The three record texts, character for character what [echo] writes. *)
Definition tailscale_record (name local_port funnel_port url ts_host : string)
  : string :=
  "{" +:+ q "method" +:+ ":" +:+ q "tailscale" +:+ ","
  +:+ q "name" +:+ ":" +:+ q name +:+ ","
  +:+ q "local_port" +:+ ":" +:+ local_port +:+ ","
  +:+ q "funnel_port" +:+ ":" +:+ funnel_port +:+ ","
  +:+ q "url" +:+ ":" +:+ q url +:+ ","
  +:+ q "ts_host" +:+ ":" +:+ q ts_host +:+ "}".

Definition quick_record (name local_port url pid : string) : string :=
  "{" +:+ q "method" +:+ ":" +:+ q "cloudflare_quick" +:+ ","
  +:+ q "name" +:+ ":" +:+ q name +:+ ","
  +:+ q "local_port" +:+ ":" +:+ local_port +:+ ","
  +:+ q "url" +:+ ":" +:+ q url +:+ ","
  +:+ q "pid" +:+ ":" +:+ pid +:+ "}".

Definition named_record (name local_port url host tunnel_name pid : string)
  : string :=
  "{" +:+ q "method" +:+ ":" +:+ q "cloudflare_named" +:+ ","
  +:+ q "name" +:+ ":" +:+ q name +:+ ","
  +:+ q "local_port" +:+ ":" +:+ local_port +:+ ","
  +:+ q "url" +:+ ":" +:+ q url +:+ ","
  +:+ q "hostname" +:+ ":" +:+ q host +:+ ","
  +:+ q "tunnel_name" +:+ ":" +:+ q tunnel_name +:+ ","
  +:+ q "pid" +:+ ":" +:+ pid +:+ "}".

(** [x=$(cmd)] and [cmd > file] under [set -e]: the output, or the end of
    the script with the status of [cmd]. *)
Definition capture {A} (r : nat * A) : sh A :=
  match r.1 with
  | O => ret r.2
  | S _ => exit r.1
  end.

(** [cat "$STATE_DIR/F" 2>/dev/null || true] *)
Definition cat_or_true (f : string) : sh unit :=
  text <- get_file f ;;
  match text with
  | Some t => echo t
  | None => ret tt
  end.

(** ** Overlay funnel launcher *)

(** [arg3] is the optional third argument, empty when it is not given. *)
Definition start_tailscale_funnel (E : Env) (local_port name arg3 : string)
  : sh nat :=
  let funnel_port := or_default arg3 "443" in
  log ("Starting Tailscale funnel for port " +:+ local_port +:+ "...") ;;
  let ts_host := ts_DNSName E in
  if is_empty ts_host then
    error "Could not determine Tailscale hostname" ;;
    ret 1%nat
  else
    emit (FunnelOn funnel_port local_port) ;;
    if funnel_on E funnel_port local_port then
      let url := "https://" +:+ ts_host in
      let url := if negb (String.eqb funnel_port "443")
                 then url +:+ ":" +:+ funnel_port else url in
      write_file E (record_file name)
                 (tailscale_record name local_port funnel_port url ts_host) ;;
      success "Tailscale funnel created!" ;;
      echo url ;;
      ret 0%nat
    else
      error "Failed to start Tailscale funnel (may need sudo)" ;;
      ret 1%nat.

(** ** Quick tunnel launcher *)

(** The spawned process writes the log while the launcher waits: before
    each look at the file, the file is what [quick_log_at] says it is by
    then.  When the log could not be opened there is no such process, and
    the file stays what it was. *)
Definition sync_log (E : Env) (log_file : string) (waited : nat) : sh unit :=
  if writable E log_file then
    match quick_log_at E waited with
    | Some text => set_files (insert log_file text)
    | None => set_files (delete log_file)
    end
  else ret tt.

(** The [while [[ $waited -lt $max_wait ]]] loop; the value is [$url] when
    the loop is left. *)
Fixpoint wait_for_url (E : Env) (fuel : nat) (log_file : string)
    (waited max_wait : nat) : sh string :=
  if (waited <? max_wait)%nat then
    sync_log E log_file waited ;;
    present <- get_file log_file ;;
    let url := match present with
               | Some text => grep_url E text
               | None => ""
               end in
    if negb (is_empty url) then ret url
    else
      sleep 1 ;;
      match fuel with
      | O => out_of_fuel
      | S fuel' => wait_for_url E fuel' log_file (S waited) max_wait
      end
  else ret "".

Definition start_cloudflare_quick (E : Env) (local_port name : string) : sh nat :=
  log ("Starting Cloudflare quick tunnel for port " +:+ local_port +:+ "...") ;;
  let log_file := name +:+ ".log" in
  pid <- spawn E log_file
               ("cloudflared tunnel --url http://localhost:" +:+ local_port) ;;
  let max_wait := 30%nat in
  url <- wait_for_url E 30 log_file 0 max_wait ;;
  if is_empty url then
    or_true (kill pid) ;;
    error "Failed to get tunnel URL" ;;
    cat_or_true log_file ;;
    ret 1%nat
  else
    write_file E (record_file name) (quick_record name local_port url pid) ;;
    success "Cloudflare quick tunnel created!" ;;
    echo url ;;
    ret 0%nat.

(** ** Routed (named) tunnel launcher *)

Definition catch_all : Rule :=
  {| hostname := None; service := "http_status:404" |}.

Definition rule_for (host local_port : string) : Rule :=
  {| hostname := Some host; service := "http://localhost:" +:+ local_port |}.

(** A file without content: no tunnel, no credentials, no rule. *)
Definition empty_config : Config :=
  {| tunnel := ""; credentials_file := ""; ingress := [] |}.

(** The two programs given to [yq eval], with the host and the port pasted
    between double quotes as the script pastes them. *)
Definition yq_del_program (host : string) : string :=
  "del(.ingress[] | select(.hostname == " +:+ q host +:+ "))".

Definition yq_add_program (host local_port : string) : string :=
  ".ingress = [{" +:+ q "hostname" +:+ ": " +:+ q host +:+ ", "
  +:+ q "service" +:+ ": " +:+ q ("http://localhost:" +:+ local_port)
  +:+ "}] + .ingress".

(** What the first program means for a host that is a plain word:
    [yq eval 'del(.ingress[] | select(.hostname == "HOST"))'] *)
Definition yq_del_hostname (host : string) (c : Config) : Config :=
  {| tunnel := tunnel c; credentials_file := credentials_file c;
     ingress := filter (λ r, hostname r ≠ Some host) (ingress c) |}.

(** What the second program means: [yq eval '.ingress = [RULE] + .ingress'] *)
Definition yq_prepend_rule (r : Rule) (c : Config) : Config :=
  {| tunnel := tunnel c; credentials_file := credentials_file c;
     ingress := [r] ++ ingress c |}.

(** "Check if tunnel exists, create if not"; [false] when the function has
    to return 1. *)
Definition ensure_tunnel (E : Env) (tunnel_name : string) : sh bool :=
  if negb (cf_tunnel_listed E tunnel_name) then
    log ("Creating tunnel '" +:+ tunnel_name +:+ "'...") ;;
    emit (TunnelCreate tunnel_name) ;;
    if cf_tunnel_create E tunnel_name then ret true
    else error "Failed to create tunnel" ;; ret false
  else ret true.

(** "Create DNS route if it doesn't exist" *)
Definition ensure_dns_route (E : Env) (tunnel_name host : string) : sh unit :=
  emit (RouteDns tunnel_name host) ;;
  if negb (cf_route_dns E tunnel_name host) then
    log "DNS route may already exist, continuing..."
  else ret tt.

(** [cat > "$STATE_DIR/F" << EOF], a simple command under [set -e]. *)
Definition write_config (E : Env) (f : string) (c : Config) : sh unit :=
  if writable E f then set_configs (insert f c) else exit 1.

(** "Create/update config file".  The two [yq] commands are simple commands
    under [set -e]; the first writes to a temporary file outside the state
    directory; the redirection of the second empties the configuration
    file before [yq] runs. *)
Definition update_config (E : Env)
    (config_file tunnel_name creds_file host local_port : string) : sh unit :=
  existing <- get_config config_file ;;
  match existing with
  | Some c =>
      if has_yq E then
        temp_config <- capture (yq E (yq_del_program host) c) ;;
        write_config E config_file empty_config ;;
        edited <- capture (yq E (yq_add_program host local_port) temp_config) ;;
        set_configs (insert config_file edited)
      else
        write_config E config_file
          {| tunnel := tunnel_name; credentials_file := creds_file;
             ingress := [rule_for host local_port] |}
  | None =>
      write_config E config_file
        {| tunnel := tunnel_name; credentials_file := creds_file;
           ingress := [rule_for host local_port; catch_all] |}
  end.

Fixpoint join_lines (l : list string) : string :=
  match l with
  | [] => ""
  | [x] => x
  | x :: rest => x +:+ nl +:+ join_lines rest
  end.

Definition matching (E : Env) (pattern : string) (ps : gmap string string)
  : gmap string string :=
  filter (λ kv, regex_match E pattern kv.2 = true) ps.

(** [pgrep -f PATTERN 2>/dev/null || true]: the matching pids, one a line. *)
Definition pgrep_f (E : Env) (pattern : string) : sh string :=
  ps <- get_procs ;;
  ret (join_lines (map_to_list (matching E pattern ps)).*1).

(** [pkill -f PATTERN 2>/dev/null]: status 1 when nothing matched. *)
Definition pkill_f (E : Env) (pattern : string) : sh nat :=
  emit (Pkill pattern) ;;
  ps <- get_procs ;;
  if decide (matching E pattern ps = ∅) then ret 1%nat
  else
    set_procs (filter (λ kv, regex_match E pattern kv.2 ≠ true)) ;;
    ret 0%nat.

(** "Check if tunnel is already running" *)
Definition restart_running (E : Env) (tunnel_name : string) : sh unit :=
  existing_pid <- pgrep_f E ("cloudflared.*tunnel.*run.*" +:+ tunnel_name) ;;
  if negb (is_empty existing_pid) then
    log "Restarting tunnel to apply new configuration..." ;;
    or_true (kill existing_pid) ;;
    sleep 2
  else ret tt.

(** "Wait for connection": after the settle time the process is alive, or it
    has died by itself ([kill -0] fails); it has written its log by then.
    When the log could not be opened there is no process. *)
Definition settle (E : Env) (tunnel_name config_file log_file pid : string)
  : sh bool :=
  sleep 5 ;;
  if writable E log_file then
    set_files (insert log_file (cf_run_log E)) ;;
    c <- get_config config_file ;;
    if cf_run_alive E tunnel_name c then ret true
    else set_procs (delete pid) ;; ret false
  else ret false.

Definition start_cloudflare_named (E : Env) (local_port name : string) : sh nat :=
  let machine_name := get_machine_name E in
  let domain := CLOUDFLARE_TUNNEL_DOMAIN E in
  if is_empty domain then
    error "CLOUDFLARE_TUNNEL_DOMAIN environment variable is required for named tunnels" ;;
    error "Set it to your Cloudflare domain, e.g.: export CLOUDFLARE_TUNNEL_DOMAIN=yourdomain.com" ;;
    ret 1%nat
  else
  let tunnel_name := or_default (CLOUDFLARE_TUNNEL_NAME E) machine_name in
  let host := name +:+ "-" +:+ machine_name +:+ "." +:+ domain in
  log ("Starting Cloudflare named tunnel for port " +:+ local_port
       +:+ " -> " +:+ host +:+ "...") ;;
  exists_now <- ensure_tunnel E tunnel_name ;;
  if negb exists_now then ret 1%nat else
  let tunnel_id := cf_tunnel_id E tunnel_name in
  if is_empty tunnel_id then
    error ("Could not find tunnel ID for '" +:+ tunnel_name +:+ "'") ;;
    ret 1%nat
  else
  ensure_dns_route E tunnel_name host ;;
  let creds_file := CLOUDFLARED_CONFIG_DIR E +:+ "/" +:+ tunnel_id +:+ ".json" in
  if negb (creds_exists E creds_file) then
    error ("Credentials file not found: " +:+ creds_file) ;;
    ret 1%nat
  else
  let config_file := tunnel_name +:+ "-config.yml" in
  update_config E config_file tunnel_name creds_file host local_port ;;
  restart_running E tunnel_name ;;
  let log_file := tunnel_name +:+ ".log" in
  pid <- spawn E log_file
               ("cloudflared tunnel --config " +:+ STATE_DIR E +:+ "/"
                +:+ config_file +:+ " run " +:+ tunnel_name) ;;
  alive <- settle E tunnel_name config_file log_file pid ;;
  if negb alive then
    error ("Tunnel process died. Check log: " +:+ STATE_DIR E +:+ "/" +:+ log_file) ;;
    text <- get_file log_file ;;
    match text with
    | Some t => echo (tail_n E 20 t) ;; ret 1%nat
    | None => exit 1
    end
  else
  let url := "https://" +:+ host in
  write_file E (record_file name)
             (named_record name local_port url host tunnel_name pid) ;;
  success "Cloudflare named tunnel created!" ;;
  echo url ;;
  ret 0%nat.

(** ** Stopping *)

Definition tailscale_funnel_off (E : Env) (funnel_port : string) : sh nat :=
  emit (FunnelOff funnel_port) ;;
  ret (if funnel_off E funnel_port then 0%nat else 1%nat).

Definition tailscale_funnel_reset (E : Env) : sh nat :=
  emit FunnelReset ;;
  ret (if funnel_reset E then 0%nat else 1%nat).

Definition stop_tunnel (E : Env) (name : string) : sh nat :=
  let state_file := record_file name in
  present <- get_file state_file ;;
  match present with
  | None =>
      warning ("No tunnel found with name: " +:+ name) ;;
      ret 0%nat
  | Some text =>
      method <- capture (jq E ".method" text) ;;
      (if String.eqb method "tailscale" then
         funnel_port <- capture (jq E ".funnel_port" text) ;;
         log ("Stopping Tailscale funnel on port " +:+ funnel_port +:+ "...") ;;
         or_true (tailscale_funnel_off E funnel_port)
       else if String.eqb method "cloudflare_quick" then
         pid <- capture (jq E ".pid" text) ;;
         log ("Stopping Cloudflare quick tunnel (PID: " +:+ pid +:+ ")...") ;;
         or_true (kill pid)
       else if String.eqb method "cloudflare_named" then
         tunnel_name <- capture (jq E ".tunnel_name" text) ;;
         host <- capture (jq E ".hostname" text) ;;
         log ("Removing " +:+ host +:+ " from tunnel " +:+ tunnel_name +:+ "...")
       else ret tt) ;;
      rm_f state_file ;;
      success ("Tunnel '" +:+ name +:+ "' stopped") ;;
      ret 0%nat
  end.

(** The shell pattern ["$STATE_DIR"/*.json]: a name in the directory itself
    that ends in [.json] and does not begin with a dot. *)
Definition starts_with_dot (f : string) : bool :=
  match f with
  | String c _ => Ascii.eqb c "."
  | "" => false
  end.

Definition glob_json (f : string) : bool :=
  negb (starts_with_dot f) && negb (has_slash f) && has_suffix ".json" f.

Definition stop_all_tunnels (E : Env) : sh nat :=
  log "Stopping all tunnels..." ;;
  or_true (tailscale_funnel_reset E) ;;
  or_true (pkill_f E "cloudflared tunnel") ;;
  set_files (filter (λ kv, glob_json kv.1 = false)) ;;
  success "All tunnels stopped" ;;
  ret 0%nat.

(** ** Commands *)

Definition json_bool (b : bool) : string := if b then "true" else "false".

Definition recommended (E : Env) : string :=
  if String.eqb (check_cloudflare E) "authenticated"
     && negb (is_empty (get_cloudflare_domain E))
  then "cloudflare_named"
  else if String.eqb (check_tailscale E) "ready" then "tailscale"
  else "cloudflare_quick".

(** The report that [cmd_detect] hands to [jq .]. *)
Definition detect_json (E : Env) : string :=
  let tailscale_status := check_tailscale E in
  let cloudflare_status := check_cloudflare E in
  let machine_name := get_machine_name E in
  "{" +:+ nl
  +:+ "  " +:+ q "machine_name" +:+ ": " +:+ q machine_name +:+ "," +:+ nl
  +:+ "  " +:+ q "tailscale" +:+ ": {" +:+ nl
  +:+ "    " +:+ q "status" +:+ ": " +:+ q tailscale_status +:+ "," +:+ nl
  +:+ "    " +:+ q "ready" +:+ ": "
  +:+ json_bool (String.eqb tailscale_status "ready") +:+ nl
  +:+ "  }," +:+ nl
  +:+ "  " +:+ q "cloudflare" +:+ ": {" +:+ nl
  +:+ "    " +:+ q "status" +:+ ": " +:+ q cloudflare_status +:+ "," +:+ nl
  +:+ "    " +:+ q "authenticated" +:+ ": "
  +:+ json_bool (String.eqb cloudflare_status "authenticated") +:+ "," +:+ nl
  +:+ "    " +:+ q "domain" +:+ ": " +:+ q (get_cloudflare_domain E) +:+ nl
  +:+ "  }," +:+ nl
  +:+ "  " +:+ q "recommended" +:+ ": " +:+ q (recommended E) +:+ nl
  +:+ "}".

(** Status and standard output of [cmd_detect]: the report begins with a
    brace, so [echo] writes it as it is. *)
Definition cmd_detect (E : Env) : nat * string :=
  jq E "." (detect_json E +:+ nl).

(** ["${1#*=}"]: the text after the first [=]. *)
Fixpoint after_first_eq (s : string) : string :=
  match s with
  | "" => ""
  | String c s' => if Ascii.eqb c "="%char then s' else after_first_eq s'
  end.

(** The option loop of [cmd_start], over the remaining arguments. *)
Fixpoint parse_options (args : list string) (port name method : string)
  : string * string * string :=
  match args with
  | [] => (port, name, method)
  | a :: rest =>
      if String.prefix "--method=" a then
        parse_options rest port name (after_first_eq a)
      else if is_empty port then parse_options rest a name method
      else if is_empty name then parse_options rest port a method
      else parse_options rest port name method
  end.

(** The [case "$method"] of [cmd_start]: the launcher of a method name. *)
Definition launcher (E : Env) (method : string)
  : option (string → string → sh nat) :=
  if String.eqb method "tailscale" then
    Some (fun port name => start_tailscale_funnel E port name "")
  else if String.eqb method "cloudflare" || String.eqb method "cloudflare_named" then
    Some (start_cloudflare_named E)
  else if String.eqb method "cloudflare_quick" || String.eqb method "quick" then
    Some (start_cloudflare_quick E)
  else None.

(** What [cmd_start] does before it dispatches: the arguments, the default
    name, the method and the warning. *)
Definition cmd_start_prepare (E : Env) (args : list string)
  : sh (string * string * string) :=
  let port := nth 0 args "" in
  let name := nth 1 args "" in
  let '(port, name, method) := parse_options args port name "" in
  if is_empty port then
    error "Usage: tunnel.sh start <port> [name] [--method=tailscale|cloudflare|cloudflare_quick]" ;;
    exit 1
  else
  let name := or_default name ("app-" +:+ port) in
  method <- (if is_empty method then
               detection <- capture (cmd_detect E) ;;
               method <- capture (jq E ".recommended" (echo_text detection)) ;;
               log ("Auto-selected method: " +:+ method) ;;
               ret method
             else ret method) ;;
  (if negb (ss_grep E port) then
     warning ("Nothing is listening on port " +:+ port) ;;
     echo "Make sure your dev server is running first"
   else ret tt) ;;
  ret (port, name, method).

Definition cmd_start (E : Env) (args : list string) : sh nat :=
  prepared <- cmd_start_prepare E args ;;
  let '(port, name, method) := prepared in
  match launcher E method with
  | Some start => errexit (start port name) ;; ret 0%nat
  | None =>
      error ("Unknown method: " +:+ method) ;;
      echo "Available methods: tailscale, cloudflare, cloudflare_quick" ;;
      exit 1
  end.

Definition cmd_stop (E : Env) (args : list string) : sh nat :=
  let name := nth 0 args "" in
  if is_empty name then
    error "Usage: tunnel.sh stop <name>" ;;
    exit 1
  else
    errexit (stop_tunnel E name) ;; ret 0%nat.

Definition cmd_stop_all (E : Env) : sh nat :=
  errexit (stop_all_tunnels E) ;; ret 0%nat.

(** [arg1] is the base port when one is given. *)
Definition cmd_find_port (E : Env) (arg1 : option Z) : sh nat :=
  let base_port := default 3000 arg1 in
  errexit (find_available_port E base_port) ;; ret 0%nat.

(** ** Listing *)

(** The colour codes, as the words [echo -e] is given. *)
Definition CYAN : string := "\033[0;36m".
Definition NC : string := "\033[0m".

(** The words that ["$STATE_DIR"/*.json] expands to: the names it matches,
    sorted in the order of the locale, or the pattern itself when it
    matches none. *)
Definition glob_expand (E : Env) (fs : gmap string string) : list string :=
  match merge_sort (λ a b, collate E a b)
          (filter (λ f, glob_json f = true) (map_to_list fs).*1) with
  | [] => ["*.json"]
  | matches => matches
  end.

(** The [for state_file in ...] loop of [list_tunnels]; [found] is the
    variable of that name. *)
Fixpoint list_records (E : Env) (state_files : list string) (found : bool)
  : sh bool :=
  match state_files with
  | [] => ret found
  | state_file :: rest =>
      present <- get_file state_file ;;
      match present with
      | None => list_records E rest found
      | Some text =>
          name <- capture (jq E ".name" text) ;;
          method <- capture (jq E ".method" text) ;;
          url <- capture (jq E ".url" text) ;;
          local_port <- capture (jq E ".local_port" text) ;;
          echo "" ;;
          echo (CYAN +:+ name +:+ NC) ;;
          echo ("  Method: " +:+ method) ;;
          echo ("  Local:  http://localhost:" +:+ local_port) ;;
          echo ("  Public: " +:+ url) ;;
          list_records E rest true
      end
  end.

Definition list_tunnels (E : Env) : sh nat :=
  echo "" ;;
  echo "Active Tunnels" ;;
  echo "==============" ;;
  state_files <- (fun w => (Ret (glob_expand E (files w)), w)) ;;
  found <- list_records E state_files false ;;
  (if negb found then
     echo "" ;;
     echo "No active tunnels"
   else ret tt) ;;
  echo "" ;;
  ret 0%nat.

Definition cmd_list (E : Env) : sh nat :=
  errexit (list_tunnels E) ;; ret 0%nat.

(** ** Funnel ports *)

Section FunnelPorts.
(** does the pipeline [echo "$funnel_config" | jq -e FILTER] succeed, as
    it does when [jq] finds the host and port (or the host) in the output
    of [tailscale funnel status --json] *)
Variable funnel_configured : string → string → bool.
(** [printf '%s\n' WORDS | jq -R . | jq -s .] *)
Variable json_array : list string → string.

Definition get_available_tailscale_ports (E : Env) : string :=
  let ts_host := ts_DNSName E in
  if is_empty ts_host then "[]"
  else
    let available :=
      filter (λ port, funnel_configured ts_host port = false)
             ["443"; "8443"; "10000"] in
    let available :=
      match available with
      | [] => ["443"; "8443"; "10000"]
      | _ => available
      end in
    json_array available.
End FunnelPorts.

(** ** The entry point *)

Definition usage : list string :=
  [ "Subcode Tunnel - Create public URLs for local dev servers";
    "";
    "Usage: tunnel.sh <command> [args]";
    "";
    "Commands:";
    "  detect              Check available tunneling methods";
    "  start <port> [name] Create a tunnel to a local port";
    "  stop <name>         Stop a tunnel";
    "  stop-all            Stop all tunnels";
    "  list                List active tunnels";
    "  find-port <base>    Find next available port";
    "";
    "Options for 'start':";
    "  --method=<method>   Force a specific method:";
    "                      tailscale, cloudflare, cloudflare_quick";
    "";
    "Environment variables:";
    "  TUNNEL_MACHINE_NAME       Override machine name for URLs";
    "  CLOUDFLARE_TUNNEL_DOMAIN  Domain for Cloudflare tunnels (required for named tunnels)";
    "  CLOUDFLARE_TUNNEL_NAME    Tunnel name (default: machine name)" ].

Fixpoint echo_all (lines : list string) : sh unit :=
  match lines with
  | [] => ret tt
  | l :: rest => echo l ;; echo_all rest
  end.

(** [cmd_detect] run for its output: what [jq .] prints, and its status. *)
Definition print_detect (E : Env) : sh nat :=
  let r := cmd_detect E in
  (if is_empty r.2 then ret tt else echo r.2) ;;
  ret r.1.

Section Main.
(** [cmd_find_port "$@"] on the words of the command line; [cmd_find_port]
    above is its reading once the base port is an integer. *)
Variable find_port_words : list string → sh nat.

Definition main (E : Env) (args : list string) : sh nat :=
  let cmd := nth 0 args "" in
  let args := tail args in
  if String.eqb cmd "detect" then errexit (print_detect E) ;; ret 0%nat
  else if String.eqb cmd "start" then errexit (cmd_start E args) ;; ret 0%nat
  else if String.eqb cmd "stop" then errexit (cmd_stop E args) ;; ret 0%nat
  else if String.eqb cmd "stop-all" then errexit (cmd_stop_all E) ;; ret 0%nat
  else if String.eqb cmd "list" then errexit (cmd_list E) ;; ret 0%nat
  else if String.eqb cmd "find-port" then
    errexit (find_port_words args) ;; ret 0%nat
  else echo_all usage ;; ret 0%nat.
End Main.

(** ** A concrete environment, for running the script on examples

    The theorems are about every [Env].  To run the embedding on concrete
    inputs the external text tools get executable stand-ins: [jq_flat] for
    [jq -r '.KEY'] on a one-level JSON object of strings, integers and
    literals (which is all a record file holds), [yq_rules] for the two
    programs that the routed launcher gives to [yq], [grep_trycloudflare]
    for the URL search of the quick launcher, [match_pieces] for the two
    process patterns, and [fits_dir] for a state directory that has no
    sub-directory. *)

Fixpoint skip_ws (s : string) : string :=
  match s with
  | String c s' => if Ascii.is_space c then skip_ws s' else s
  | "" => ""
  end.

Definition unescape (c : ascii) : option ascii :=
  if Ascii.eqb c "034" then Some "034"%char
  else if Ascii.eqb c "\" then Some "\"%char
  else if Ascii.eqb c "/" then Some "/"%char
  else if Ascii.eqb c "n" then Some "010"%char
  else if Ascii.eqb c "t" then Some "009"%char
  else if Ascii.eqb c "r" then Some "013"%char
  else None.

(** The body of a JSON string, after its opening quote: the characters up
    to the closing quote, and what follows it. *)
Fixpoint json_string (s : string) : option (string * string) :=
  match s with
  | "" => None
  | String c s' =>
      if Ascii.eqb c "034" then Some ("", s')
      else if Ascii.eqb c "\" then
        match s' with
        | String e s'' =>
            match unescape e, json_string s'' with
            | Some c', Some (body, rest) => Some (String c' body, rest)
            | _, _ => None
            end
        | "" => None
        end
      else if (nat_of_ascii c <? 32)%nat then None
      else match json_string s' with
           | Some (body, rest) => Some (String c body, rest)
           | None => None
           end
  end.

Definition is_bare (c : ascii) : bool :=
  let n := nat_of_ascii c in
  ((48 <=? n) && (n <=? 57) || (97 <=? n) && (n <=? 122)
   || Ascii.eqb c "-")%nat.

Fixpoint bare_token (s : string) : string * string :=
  match s with
  | String c s' =>
      if is_bare c then let '(tok, rest) := bare_token s' in (String c tok, rest)
      else ("", s)
  | "" => ("", "")
  end.

Fixpoint all_digits (s : string) : bool :=
  match s with
  | "" => true
  | String c s' => bool_decide (is_Some (Ascii.is_nat c)) && all_digits s'
  end.

Definition is_integer (tok : string) : bool :=
  match tok with
  | String "-" d => negb (is_empty d) && all_digits d
  | _ => negb (is_empty tok) && all_digits tok
  end.

Definition json_value (s : string) : option (string * string) :=
  match s with
  | String "034" s' => json_string s'
  | _ =>
      let '(tok, rest) := bare_token s in
      if is_integer tok || String.eqb tok "true" || String.eqb tok "false"
         || String.eqb tok "null"
      then Some (tok, rest) else None
  end.

(** The members of an object, after its opening brace or a comma; the last
    member read comes first in the result. *)
Fixpoint json_members (fuel : nat) (s : string) (acc : list (string * string))
  : option (list (string * string)) :=
  match fuel with
  | O => None
  | S fuel' =>
      match skip_ws s with
      | String "034" s1 =>
          '(k, s2) ← json_string s1;
          match skip_ws s2 with
          | String ":" s3 =>
              '(v, s4) ← json_value (skip_ws s3);
              match skip_ws s4 with
              | String "," s5 => json_members fuel' s5 ((k, v) :: acc)
              | String "}" s5 =>
                  if is_empty (skip_ws s5) then Some ((k, v) :: acc) else None
              | _ => None
              end
          | _ => None
          end
      | _ => None
      end
  end.

Definition json_object (s : string) : option (list (string * string)) :=
  match skip_ws s with
  | String "{" s1 =>
      match skip_ws s1 with
      | String "}" s2 => if is_empty (skip_ws s2) then Some [] else None
      | _ => json_members (String.length s) s1 []
      end
  | _ => None
  end.

Fixpoint assoc (k : string) (l : list (string * string)) : option string :=
  match l with
  | [] => None
  | (k', v) :: l' => if String.eqb k k' then Some v else assoc k l'
  end.

(** [jq -r '.KEY']: the member's value, [null] when there is none, status 2
    and no output when the text is not an object this model reads. *)
Definition jq_flat (filter text : string) : nat * string :=
  match filter with
  | String "." (String c key) =>
      match json_object text with
      | Some members => (0%nat, default "null" (assoc (String c key) members))
      | None => (2%nat, "")
      end
  | _ => (2%nat, "")
  end.

Fixpoint non_space_run (s : string) : string :=
  match s with
  | "" => ""
  | String c s' => if Ascii.is_space c then "" else String c (non_space_run s')
  end.

(** The longest prefix of [run] that ends in [suf]. *)
Fixpoint longest_ending (suf run : string) : option string :=
  match run with
  | "" => if is_empty suf then Some "" else None
  | String c run' =>
      match longest_ending suf run' with
      | Some p => Some (String c p)
      | None => if String.prefix suf run then Some suf else None
      end
  end.

Fixpoint drop_chars (n : nat) (s : string) : string :=
  match n, s with
  | S n', String _ s' => drop_chars n' s'
  | _, _ => s
  end.

(** The leftmost, longest match of
    [https://[^[:space:]]*\.trycloudflare\.com]; empty when there is none. *)
Fixpoint grep_trycloudflare (s : string) : string :=
  match s with
  | "" => ""
  | String _ s' =>
      if String.prefix "https://" s then
        match longest_ending ".trycloudflare.com" (non_space_run (drop_chars 8 s)) with
        | Some p => "https://" +:+ p
        | None => grep_trycloudflare s'
        end
      else grep_trycloudflare s'
  end.

(** Is [piece] a substring of [s]; if so, what follows its first occurrence. *)
Fixpoint after_piece (piece s : string) : option string :=
  if String.prefix piece s then Some (drop_chars (String.length piece) s)
  else match s with
       | "" => None
       | String _ s' => after_piece piece s'
       end.

(** Do the pieces occur in [s] in this order ([P1.*P2.*P3]). *)
Fixpoint match_pieces (pieces : list string) (s : string) : bool :=
  match pieces with
  | [] => true
  | p :: rest =>
      match after_piece p s with
      | Some s' => match_pieces rest s'
      | None => false
      end
  end.

(** The two patterns of the script, each as its literal pieces. *)
Definition match_process (pattern cmdline : string) : bool :=
  if String.eqb pattern "cloudflared tunnel" then
    match_pieces ["cloudflared tunnel"] cmdline
  else
    match_pieces ["cloudflared"; "tunnel"; "run";
                  drop_chars 26 pattern] cmdline.

(** What follows the prefix [pre] in [s]. *)
Definition after_prefix (pre s : string) : option string :=
  if String.prefix pre s then Some (drop_chars (String.length pre) s) else None.

(** A string between double quotes at the head of [s], and what follows. *)
Definition quoted (s : string) : option (string * string) :=
  match s with
  | String "034" s' => json_string s'
  | _ => None
  end.

(** [yq eval] on the two programs of the script; status 1, as for a program
    that [yq] cannot read, on any other text. *)
Definition yq_rules (program : string) (c : Config) : nat * Config :=
  match after_prefix "del(.ingress[] | select(.hostname == " program
          ≫= quoted with
  | Some (host, "))") => (0%nat, yq_del_hostname host c)
  | _ =>
      match after_prefix (".ingress = [{" +:+ q "hostname" +:+ ": ") program
              ≫= quoted with
      | Some (host, rest) =>
          match after_prefix (", " +:+ q "service" +:+ ": ") rest ≫= quoted with
          | Some (service, "}] + .ingress") =>
              (0%nat, yq_prepend_rule {| hostname := Some host;
                                         service := service |} c)
          | _ => (1%nat, c)
          end
      | None => (1%nat, c)
      end
  end.

(** A state directory without sub-directories, on a file system whose file
    names hold at most 255 characters. *)
Definition fits_dir (f : string) : bool :=
  negb (has_slash f) && (String.length f <=? 255)%nat.

(** A machine where nothing is installed and nothing answers; the examples
    change the fields they need. *)
Definition bare_env : Env :=
  {| TUNNEL_MACHINE_NAME := ""; CLOUDFLARE_TUNNEL_DOMAIN := "";
     CLOUDFLARE_TUNNEL_NAME := ""; HOME := "/home/dev";
     has_tailscale := false; has_cloudflared := false; has_yq := false;
     jq := jq_flat; yq := yq_rules; grep_url := grep_trycloudflare;
     regex_match := match_process; tail_n := fun _ text => text;
     ts_HostName := ""; ts_BackendState := ""; ts_DNSName := "";
     hostname_s := Some "devbox";
     ss_listening := fun _ => false; ss_status := fun _ => 0%nat;
     lsof_open := fun _ => false;
     funnel_on := fun _ _ => false; funnel_off := fun _ => false;
     funnel_reset := false; cf_list_ok := false;
     cf_tunnel_listed := fun _ => false; cf_tunnel_create := fun _ => false;
     cf_tunnel_id := fun _ => ""; cf_route_dns := fun _ _ => false;
     creds_exists := fun _ => false; writable := fits_dir;
     collate := String.leb; quick_log_at := fun _ => None;
     cf_run_alive := fun _ _ => false; cf_run_log := "" |}.

Definition empty_world : World :=
  {| files := ∅; configs := ∅; procs := ∅; next_pid := 4000; clock := 0;
     trace := []; out := [] |}.

Definition with_ports (ss lsof : string → bool) (E : Env) : Env :=
  {| TUNNEL_MACHINE_NAME := TUNNEL_MACHINE_NAME E;
     CLOUDFLARE_TUNNEL_DOMAIN := CLOUDFLARE_TUNNEL_DOMAIN E;
     CLOUDFLARE_TUNNEL_NAME := CLOUDFLARE_TUNNEL_NAME E; HOME := HOME E;
     has_tailscale := has_tailscale E; has_cloudflared := has_cloudflared E;
     has_yq := has_yq E; jq := jq E; yq := yq E; grep_url := grep_url E;
     regex_match := regex_match E; tail_n := tail_n E;
     ts_HostName := ts_HostName E; ts_BackendState := ts_BackendState E;
     ts_DNSName := ts_DNSName E; hostname_s := hostname_s E;
     ss_listening := ss; ss_status := ss_status E; lsof_open := lsof;
     funnel_on := funnel_on E; funnel_off := funnel_off E;
     funnel_reset := funnel_reset E; cf_list_ok := cf_list_ok E;
     cf_tunnel_listed := cf_tunnel_listed E;
     cf_tunnel_create := cf_tunnel_create E; cf_tunnel_id := cf_tunnel_id E;
     cf_route_dns := cf_route_dns E; creds_exists := creds_exists E;
     writable := writable E; collate := collate E;
     quick_log_at := quick_log_at E; cf_run_alive := cf_run_alive E;
     cf_run_log := cf_run_log E |}.

(** Port 3000 is seen by [ss], port 3001 only by [lsof]. *)
Definition busy_env : Env :=
  with_ports (fun p => String.eqb p "3000") (fun p => String.eqb p "3001")
             bare_env.

Definition ngrok_record : string :=
  "{" +:+ q "method" +:+ ":" +:+ q "ngrok" +:+ "," +:+ q "name" +:+ ":"
  +:+ q "web" +:+ "}".

Definition world_with_file (f text : string) : World :=
  {| files := {[ f := text ]}; configs := ∅; procs := ∅; next_pid := 4000;
     clock := 0; trace := []; out := [] |}.

Definition with_quick_log (f : nat → option string) (E : Env) : Env :=
  {| TUNNEL_MACHINE_NAME := TUNNEL_MACHINE_NAME E;
     CLOUDFLARE_TUNNEL_DOMAIN := CLOUDFLARE_TUNNEL_DOMAIN E;
     CLOUDFLARE_TUNNEL_NAME := CLOUDFLARE_TUNNEL_NAME E; HOME := HOME E;
     has_tailscale := has_tailscale E; has_cloudflared := has_cloudflared E;
     has_yq := has_yq E; jq := jq E; yq := yq E; grep_url := grep_url E;
     regex_match := regex_match E; tail_n := tail_n E;
     ts_HostName := ts_HostName E; ts_BackendState := ts_BackendState E;
     ts_DNSName := ts_DNSName E; hostname_s := hostname_s E;
     ss_listening := ss_listening E; ss_status := ss_status E;
     lsof_open := lsof_open E;
     funnel_on := funnel_on E; funnel_off := funnel_off E;
     funnel_reset := funnel_reset E; cf_list_ok := cf_list_ok E;
     cf_tunnel_listed := cf_tunnel_listed E;
     cf_tunnel_create := cf_tunnel_create E; cf_tunnel_id := cf_tunnel_id E;
     cf_route_dns := cf_route_dns E; creds_exists := creds_exists E;
     writable := writable E; collate := collate E;
     quick_log_at := f; cf_run_alive := cf_run_alive E;
     cf_run_log := cf_run_log E |}.

(** The quick tunnel prints its address in the fourth second. *)
Definition slow_env : Env :=
  with_quick_log
    (fun t => if (t <? 3)%nat then Some "Requesting new quick Tunnel..."
              else Some ("INF |  https://calm-river.trycloudflare.com  |" +:+ nl))
    bare_env.

(** A machine with an authenticated cloudflared, the domain [example.com]
    and the tunnel [devbox]. *)
Definition named_env (yq creds alive : bool) : Env :=
  {| TUNNEL_MACHINE_NAME := ""; CLOUDFLARE_TUNNEL_DOMAIN := "example.com";
     CLOUDFLARE_TUNNEL_NAME := ""; HOME := "/home/dev";
     has_tailscale := false; has_cloudflared := true; has_yq := yq;
     jq := jq_flat; yq := yq_rules; grep_url := grep_trycloudflare;
     regex_match := match_process; tail_n := fun _ text => text;
     ts_HostName := ""; ts_BackendState := ""; ts_DNSName := "";
     hostname_s := Some "devbox";
     ss_listening := fun _ => true; ss_status := fun _ => 0%nat;
     lsof_open := fun _ => true;
     funnel_on := fun _ _ => false; funnel_off := fun _ => false;
     funnel_reset := false; cf_list_ok := true;
     cf_tunnel_listed := fun _ => true; cf_tunnel_create := fun _ => true;
     cf_tunnel_id := fun _ => "7f3a"; cf_route_dns := fun _ _ => true;
     creds_exists := fun _ => creds; writable := fits_dir;
     collate := String.leb; quick_log_at := fun _ => None;
     cf_run_alive := fun _ _ => alive;
     cf_run_log := "ERR failed to connect" |}.

(** ** What the theorems speak of *)

(** The world after one more printed line. *)
Definition printed (l : line) (w : World) : World := (say l w).2.

(** No record file differs between the two worlds. *)
Definition records_unchanged (w w' : World) : Prop :=
  ∀ name, files w' !! record_file name = files w !! record_file name.

(** The world after [stop_tunnel] has deleted the record of [name] and
    reported it. *)
Definition stopped (name : string) (w : World) : World :=
  {| files := delete (record_file name) (files w); configs := configs w;
     procs := procs w; next_pid := next_pid w; clock := clock w;
     trace := trace w;
     out := out w ++ [Success ("Tunnel '" +:+ name +:+ "' stopped")] |}.

(** What the URL search finds in the log [t] seconds after the spawn. *)
Definition found (E : Env) (t : nat) : string :=
  match quick_log_at E t with
  | Some text => grep_url E text
  | None => ""
  end.

(** [w'] is [w] after [n] seconds in which only the file [log_file] was
    written. *)
Definition polled (log_file : string) (n : nat) (w w' : World) : Prop :=
  configs w' = configs w ∧ procs w' = procs w ∧ next_pid w' = next_pid w
  ∧ trace w' = trace w ∧ out w' = out w ∧ clock w' = (clock w + n)%nat
  ∧ ∀ f, f ≠ log_file → files w' !! f = files w !! f.

(** The rules of a configuration that name [host]. *)
Definition rules_for (host : string) (c : Config) : list Rule :=
  filter (λ r, hostname r = Some host) (ingress c).

(** ** More environments and vocabulary *)

Definition with_jq (j : string → string → nat * string) (E : Env) : Env :=
  {| TUNNEL_MACHINE_NAME := TUNNEL_MACHINE_NAME E;
     CLOUDFLARE_TUNNEL_DOMAIN := CLOUDFLARE_TUNNEL_DOMAIN E;
     CLOUDFLARE_TUNNEL_NAME := CLOUDFLARE_TUNNEL_NAME E; HOME := HOME E;
     has_tailscale := has_tailscale E; has_cloudflared := has_cloudflared E;
     has_yq := has_yq E; jq := j; yq := yq E; grep_url := grep_url E;
     regex_match := regex_match E; tail_n := tail_n E;
     ts_HostName := ts_HostName E; ts_BackendState := ts_BackendState E;
     ts_DNSName := ts_DNSName E; hostname_s := hostname_s E;
     ss_listening := ss_listening E; ss_status := ss_status E;
     lsof_open := lsof_open E;
     funnel_on := funnel_on E; funnel_off := funnel_off E;
     funnel_reset := funnel_reset E; cf_list_ok := cf_list_ok E;
     cf_tunnel_listed := cf_tunnel_listed E;
     cf_tunnel_create := cf_tunnel_create E; cf_tunnel_id := cf_tunnel_id E;
     cf_route_dns := cf_route_dns E; creds_exists := creds_exists E;
     writable := writable E; collate := collate E;
     quick_log_at := quick_log_at E; cf_run_alive := cf_run_alive E;
     cf_run_log := cf_run_log E |}.

(** A [jq] that passes a report through and reads its recommendation as
    [cloudflare_quick]. *)
Definition report_jq (filter text : string) : nat * string :=
  if String.eqb filter ".recommended" then (0%nat, "cloudflare_quick")
  else (0%nat, text).

Definition report_env : Env := with_jq report_jq bare_env.

Definition with_tailscale (dns : string) (on : bool) (E : Env) : Env :=
  {| TUNNEL_MACHINE_NAME := TUNNEL_MACHINE_NAME E;
     CLOUDFLARE_TUNNEL_DOMAIN := CLOUDFLARE_TUNNEL_DOMAIN E;
     CLOUDFLARE_TUNNEL_NAME := CLOUDFLARE_TUNNEL_NAME E; HOME := HOME E;
     has_tailscale := true; has_cloudflared := has_cloudflared E;
     has_yq := has_yq E; jq := jq E; yq := yq E; grep_url := grep_url E;
     regex_match := regex_match E; tail_n := tail_n E;
     ts_HostName := ts_HostName E; ts_BackendState := "Running";
     ts_DNSName := dns; hostname_s := hostname_s E;
     ss_listening := ss_listening E; ss_status := ss_status E;
     lsof_open := lsof_open E;
     funnel_on := fun _ _ => on; funnel_off := funnel_off E;
     funnel_reset := funnel_reset E; cf_list_ok := cf_list_ok E;
     cf_tunnel_listed := cf_tunnel_listed E;
     cf_tunnel_create := cf_tunnel_create E; cf_tunnel_id := cf_tunnel_id E;
     cf_route_dns := cf_route_dns E; creds_exists := creds_exists E;
     writable := writable E; collate := collate E;
     quick_log_at := quick_log_at E; cf_run_alive := cf_run_alive E;
     cf_run_log := cf_run_log E |}.

Definition funnel_env : Env := with_tailscale "devbox.tail1234.ts.net" true bare_env.

Definition world_with_proc (pid cmdline : string) : World :=
  {| files := ∅; configs := ∅; procs := {[ pid := cmdline ]}; next_pid := 4000;
     clock := 0; trace := []; out := [] |}.

(** The value of the last [--method=] option among the arguments. *)
Definition last_method (args : list string) : string :=
  foldl (λ method a, if String.prefix "--method=" a then after_first_eq a
                     else method) "" args.

Fixpoint only_nl (s : string) : bool :=
  match s with
  | "" => true
  | String c s' => Ascii.eqb c "010" && only_nl s'
  end.

(** [echo "$s"] prints the word, and [$(...)] keeps some of it: the word is
    no option of [echo] and holds more than line breaks. *)
Definition prints (s : string) : bool :=
  negb (is_echo_option s) && negb (only_nl s).

(** The conditions of the two better methods. *)
Definition named_ready (E : Env) : bool :=
  has_cloudflared E && cf_list_ok E && prints (CLOUDFLARE_TUNNEL_DOMAIN E).

Definition funnel_ready (E : Env) : bool :=
  has_tailscale E && String.eqb (ts_BackendState E) "Running".

(** The world after more printed lines. *)
Definition with_out (ls : list line) (w : World) : World :=
  {| files := files w; configs := configs w; procs := procs w;
     next_pid := next_pid w; clock := clock w; trace := trace w;
     out := out w ++ ls |}.

(** The two worlds hold the same files, configurations and processes, and
    the next process gets the same id. *)
Definition same_store (w w' : World) : Prop :=
  files w' = files w ∧ configs w' = configs w ∧ procs w' = procs w
  ∧ next_pid w' = next_pid w.

(** [yq] does on the document [c] what the two programs of the launcher
    mean for a host that is a plain word. *)
Definition yq_works (E : Env) (host local_port : string) (c : Config) : Prop :=
  yq E (yq_del_program host) c = (0%nat, yq_del_hostname host c)
  ∧ yq E (yq_add_program host local_port) (yq_del_hostname host c)
    = (0%nat, yq_prepend_rule (rule_for host local_port)
                (yq_del_hostname host c)).

(** The routed launcher can rewrite the configuration [config_file] for
    [host]: the file can be opened for writing, and when it is there and
    [yq] is installed, [yq] works on it. *)
Definition can_update (E : Env) (config_file host local_port : string)
    (w : World) : Prop :=
  writable E config_file = true
  ∧ ∀ c, configs w !! config_file = Some c → has_yq E = true →
         yq_works E host local_port c.

Definition with_ss_status (st : string → nat) (E : Env) : Env :=
  {| TUNNEL_MACHINE_NAME := TUNNEL_MACHINE_NAME E;
     CLOUDFLARE_TUNNEL_DOMAIN := CLOUDFLARE_TUNNEL_DOMAIN E;
     CLOUDFLARE_TUNNEL_NAME := CLOUDFLARE_TUNNEL_NAME E; HOME := HOME E;
     has_tailscale := has_tailscale E; has_cloudflared := has_cloudflared E;
     has_yq := has_yq E; jq := jq E; yq := yq E; grep_url := grep_url E;
     regex_match := regex_match E; tail_n := tail_n E;
     ts_HostName := ts_HostName E; ts_BackendState := ts_BackendState E;
     ts_DNSName := ts_DNSName E; hostname_s := hostname_s E;
     ss_listening := ss_listening E; ss_status := st;
     lsof_open := lsof_open E;
     funnel_on := funnel_on E; funnel_off := funnel_off E;
     funnel_reset := funnel_reset E; cf_list_ok := cf_list_ok E;
     cf_tunnel_listed := cf_tunnel_listed E;
     cf_tunnel_create := cf_tunnel_create E; cf_tunnel_id := cf_tunnel_id E;
     cf_route_dns := cf_route_dns E; creds_exists := creds_exists E;
     writable := writable E; collate := collate E;
     quick_log_at := quick_log_at E; cf_run_alive := cf_run_alive E;
     cf_run_log := cf_run_log E |}.

(** The socket table lists port 3000 early in a long output: [grep -q]
    stops reading at its match and [ss] is ended by SIGPIPE.  [lsof] does
    not show the socket, which is another user's. *)
Definition sigpipe_env : Env :=
  with_ss_status (fun p => if String.eqb p "3000" then 141%nat else 0%nat)
    (with_ports (fun p => String.eqb p "3000") (fun _ => false) bare_env).

Definition with_env_names (machine domain : string) (E : Env) : Env :=
  {| TUNNEL_MACHINE_NAME := machine; CLOUDFLARE_TUNNEL_DOMAIN := domain;
     CLOUDFLARE_TUNNEL_NAME := CLOUDFLARE_TUNNEL_NAME E; HOME := HOME E;
     has_tailscale := has_tailscale E; has_cloudflared := has_cloudflared E;
     has_yq := has_yq E; jq := jq E; yq := yq E; grep_url := grep_url E;
     regex_match := regex_match E; tail_n := tail_n E;
     ts_HostName := ts_HostName E; ts_BackendState := ts_BackendState E;
     ts_DNSName := ts_DNSName E; hostname_s := hostname_s E;
     ss_listening := ss_listening E; ss_status := ss_status E;
     lsof_open := lsof_open E;
     funnel_on := funnel_on E; funnel_off := funnel_off E;
     funnel_reset := funnel_reset E; cf_list_ok := cf_list_ok E;
     cf_tunnel_listed := cf_tunnel_listed E;
     cf_tunnel_create := cf_tunnel_create E; cf_tunnel_id := cf_tunnel_id E;
     cf_route_dns := cf_route_dns E; creds_exists := creds_exists E;
     writable := writable E; collate := collate E;
     quick_log_at := quick_log_at E; cf_run_alive := cf_run_alive E;
     cf_run_log := cf_run_log E |}.

(** A name of [n] letters. *)
Fixpoint letters (n : nat) : string :=
  match n with
  | O => ""
  | S n' => String "a" (letters n')
  end.

(** A name of 251 letters: its log [NAME.log] has a file name of 255
    characters, its record [NAME.json] one of 256. *)
Definition long_name : string := letters 251.

(** A record file cut short in the middle of its method. *)
Definition torn_record : string :=
  "{" +:+ q "method" +:+ ":" +:+ dq +:+ "cloudflare_qu".

(** The record of a quick tunnel whose process id is [pid]. *)
Definition quick_world_pid (pid : string) : World :=
  world_with_file "demo.json"
    (quick_record "demo" "3000" "https://calm-river.trycloudflare.com" pid).

(** [jq] reads the four fields that [list_tunnels] shows. *)
Definition readable (E : Env) (text : string) : Prop :=
  (jq E ".name" text).1 = 0%nat ∧ (jq E ".method" text).1 = 0%nat
  ∧ (jq E ".url" text).1 = 0%nat ∧ (jq E ".local_port" text).1 = 0%nat.

(** The five lines that [list_tunnels] prints for one record. *)
Definition record_block (E : Env) (text : string) : list line :=
  [ Echo "";
    Echo (CYAN +:+ (jq E ".name" text).2 +:+ NC);
    Echo ("  Method: " +:+ (jq E ".method" text).2);
    Echo ("  Local:  http://localhost:" +:+ (jq E ".local_port" text).2);
    Echo ("  Public: " +:+ (jq E ".url" text).2) ].

(** A record file cut short. *)
Definition broken_record : string := "{" +:+ q "method" +:+ ":".

(** The six commands of the script. *)
Definition commands : list string :=
  ["detect"; "start"; "stop"; "stop-all"; "list"; "find-port"].

(** The world after [restart_running] has seen running processes: the
    [kill] has been tried on [word] with the effect [f] on the processes,
    and two seconds have passed. *)
Definition restarted (word : string)
    (f : gmap string string → gmap string string) (w : World) : World :=
  {| files := files w; configs := configs w; procs := f (procs w);
     next_pid := next_pid w; clock := clock w + 2;
     trace := trace w ++ [Kill word];
     out := out w ++ [Log "Restarting tunnel to apply new configuration..."] |}.

(** Two processes that serve the tunnel [devbox]. *)
Definition two_tunnels : World :=
  {| files := ∅; configs := ∅;
     procs := {[ "4000" := "cloudflared tunnel --config a.yml run devbox";
                 "4001" := "cloudflared tunnel --config b.yml run devbox" ]};
     next_pid := 4002; clock := 0; trace := []; out := [] |}.

(** A store that holds the record of the funnel [web], and one that holds
    the record of the quick tunnel [demo] with its process and another
    process. *)
Definition funnel_world : World :=
  world_with_file "web.json"
    (tailscale_record "web" "3000" "8443" "https://devbox.tail1234.ts.net:8443"
                      "devbox.tail1234.ts.net").

Definition quick_world : World :=
  {| files := {[ "demo.json" :=
                   quick_record "demo" "3000" "https://calm-river.trycloudflare.com"
                                "4000" ]};
     configs := ∅;
     procs := {[ "4000" := "cloudflared tunnel --url http://localhost:3000";
                 "4001" := "cloudflared tunnel --url http://localhost:8080" ]};
     next_pid := 4002; clock := 0; trace := []; out := [] |}.

(** A configuration that serves two names, and a store that holds one
    configuration. *)
Definition two_rules : Config :=
  {| tunnel := "devbox"; credentials_file := "/home/dev/.cloudflared/7f3a.json";
     ingress := [rule_for "web-devbox.example.com" "3000";
                 rule_for "api-devbox.example.com" "8080"; catch_all] |}.

Definition world_with_config (f : string) (c : Config) : World :=
  {| files := ∅; configs := {[ f := c ]}; procs := ∅; next_pid := 4000;
     clock := 0; trace := []; out := [] |}.

(** * Verification *)

Ltac sh_unfold :=
  unfold errexit, or_true, capture, cat_or_true, log, success, warning, error,
    echo, write_file, rm_f, get_file, get_config, get_procs, exit,
    out_of_fuel, bind, ret, say, emit, sleep, set_files, set_configs,
    set_procs, printed in *.

(** Case analysis on a condition that is not itself a case analysis. *)
Ltac case_inner :=
  match goal with
  | |- context [match ?x with _ => _ end] =>
      lazymatch x with
      | context [match _ with _ => _ end] => fail
      | _ => destruct x eqn:?
      end
  end.

Ltac run_cases :=
  repeat (cbn [files configs procs next_pid clock trace out negb fst snd] in *;
          try case_inner).

Lemma bind_ret_eq {A B} (m : sh A) (k : A → sh B) (w w1 : World) (a : A) :
  m w = (Ret a, w1) → bind m k w = k a w1.
Proof. intros H. unfold bind. now rewrite H. Qed.

(** ** Strings and file names *)

Lemma last_char_app (s : string) (c : ascii) (t : string) :
  last_char (s +:+ String c t) = last_char (String c t).
Proof.
  induction s as [|a s IH]; [done|].
  change (String a s +:+ String c t) with (String a (s +:+ String c t)).
  cbn [last_char]. rewrite IH.
  destruct (s +:+ String c t) eqn:Hs; [|done].
  destruct s; discriminate.
Qed.

Lemma log_file_not_record (n name : string) : n +:+ ".log" ≠ record_file name.
Proof.
  unfold record_file. intros H. apply (f_equal last_char) in H.
  rewrite !last_char_app in H. discriminate.
Qed.

Lemma config_file_not_record (t name : string) :
  t +:+ "-config.yml" ≠ record_file name.
Proof.
  unfold record_file. intros H. apply (f_equal last_char) in H.
  rewrite !last_char_app in H. discriminate.
Qed.

(** ** Port allocation *)

Lemma wrap64_small (z : Z) : - 2 ^ 63 ≤ z < 2 ^ 63 → wrap64 z = z.
Proof. intros H. unfold wrap64. rewrite Z.mod_small; lia. Qed.

Lemma scan_ports_found (E : Env) (fuel : nat) (port max_port p : Z) (w : World) :
  - 2 ^ 63 ≤ port → max_port < 2 ^ 63 →
  port ≤ p < max_port →
  (Z.to_nat (p - port) ≤ fuel)%nat →
  port_free E p = true →
  (∀ q, port ≤ q < p → port_free E q = false) →
  scan_ports E fuel port max_port w
  = (Ret (Some 0%nat), printed (Echo (pretty p)) w).
Proof.
  revert port. induction fuel as [|fuel IH]; intros port Hlo Hhi Hp Hfuel Hfree Hbusy.
  - assert (port = p) as -> by lia.
    cbn [scan_ports]. rewrite (wrap64_small p) by lia.
    destruct (Z.ltb_spec p max_port); [|lia].
    rewrite Hfree. reflexivity.
  - cbn [scan_ports]. rewrite (wrap64_small port) by lia.
    destruct (Z.ltb_spec port max_port); [|lia].
    destruct (decide (port = p)) as [->|Hne].
    + rewrite Hfree. reflexivity.
    + rewrite (Hbusy port) by lia.
      rewrite wrap64_small by lia.
      apply IH; try lia; [done|]. intros q Hq. apply Hbusy. lia.
Qed.

Lemma scan_ports_exhausted (E : Env) (fuel : nat) (port max_port : Z) (w : World) :
  - 2 ^ 63 ≤ port ≤ max_port → max_port < 2 ^ 63 →
  (Z.to_nat (max_port - port) ≤ fuel)%nat →
  (∀ q, port ≤ q < max_port → port_free E q = false) →
  scan_ports E fuel port max_port w = (Ret None, w).
Proof.
  revert port. induction fuel as [|fuel IH]; intros port Hlo Hhi Hfuel Hbusy.
  - cbn [scan_ports]. rewrite (wrap64_small port) by lia.
    destruct (Z.ltb_spec port max_port); [lia|done].
  - cbn [scan_ports]. rewrite (wrap64_small port) by lia.
    destruct (Z.ltb_spec port max_port); [|done].
    rewrite (Hbusy port) by lia. rewrite wrap64_small by lia.
    apply IH; try lia. intros q Hq. apply Hbusy. lia.
Qed.

(** The loop always comes to an end: the fuel of [find_available_port] is
    never used up. *)
Lemma scan_ports_returns (E : Env) (fuel : nat) (port max_port : Z) (w : World) :
  - 2 ^ 63 ≤ port ≤ max_port → max_port < 2 ^ 63 →
  (Z.to_nat (max_port - port) ≤ fuel)%nat →
  ∃ r w', scan_ports E fuel port max_port w = (Ret r, w').
Proof.
  revert port. induction fuel as [|fuel IH]; intros port Hlo Hhi Hfuel.
  - cbn [scan_ports]. rewrite (wrap64_small port) by lia.
    destruct (Z.ltb_spec port max_port); [lia|]. by eexists _, _.
  - cbn [scan_ports]. rewrite (wrap64_small port) by lia.
    destruct (Z.ltb_spec port max_port); [|by eexists _, _].
    destruct (port_free E port); [by eexists _, _|].
    rewrite wrap64_small by lia. apply IH; lia.
Qed.

Lemma find_available_port_returns (E : Env) (base : Z) (w : World) :
  - 2 ^ 63 ≤ base < 2 ^ 63 - 100 →
  ∃ st w', find_available_port E base w = (Ret st, w').
Proof.
  intros Hbase. unfold find_available_port. rewrite wrap64_small by lia.
  destruct (scan_ports_returns E 100 base (base + 100) w) as (r & w' & Hrun);
    [lia ..|].
  erewrite bind_ret_eq by exact Hrun. destruct r; by eexists _, _.
Qed.

(** For a base port whose range does not overflow shell arithmetic,
    [find_available_port] prints the first port of [base, base+100) for
    which the condition of the [if] holds and returns 0; when it holds for
    no port of the range, it prints no port, reports the error and returns
    1, which ends the [find-port] command with status 1. *)
Lemma find_available_port_spec (E : Env) (base : Z) (w : World) :
  - 2 ^ 63 ≤ base < 2 ^ 63 - 100 →
  (∀ p, base ≤ p < base + 100 →
        port_free E p = true →
        (∀ q, base ≤ q < p → port_free E q = false) →
        find_available_port E base w
        = (Ret 0%nat, printed (Echo (pretty p)) w)
        ∧ cmd_find_port E (Some base) w
          = (Ret 0%nat, printed (Echo (pretty p)) w))
  ∧ ((∀ q, base ≤ q < base + 100 → port_free E q = false) →
     let w' := printed (Error ("No available port found in range "
                               +:+ pretty base +:+ "-" +:+ pretty (base + 100)))
                       w in
     find_available_port E base w = (Ret 1%nat, w')
     ∧ cmd_find_port E (Some base) w = (Exit 1, w')).
Proof.
  intros Hbase.
  assert (Hfound : ∀ p, base ≤ p < base + 100 → port_free E p = true →
            (∀ q, base ≤ q < p → port_free E q = false) →
            find_available_port E base w
            = (Ret 0%nat, printed (Echo (pretty p)) w)).
  { intros p Hp Hfree Hbusy. unfold find_available_port.
    rewrite wrap64_small by lia. unfold bind at 1.
    rewrite (scan_ports_found E 100 base (base + 100) p w) by (done || lia).
    reflexivity. }
  assert (Hnone : (∀ q, base ≤ q < base + 100 → port_free E q = false) →
            find_available_port E base w
            = (Ret 1%nat,
               printed (Error ("No available port found in range "
                               +:+ pretty base +:+ "-" +:+ pretty (base + 100)))
                       w)).
  { intros Hbusy. unfold find_available_port.
    rewrite wrap64_small by lia. unfold bind at 1.
    rewrite scan_ports_exhausted by (done || lia).
    reflexivity. }
  split.
  - intros p Hp Hfree Hbusy. split; [by apply Hfound|].
    unfold cmd_find_port, errexit, bind. cbn [default from_option id].
    by rewrite (Hfound p).
  - intros Hbusy w'. split; [by apply Hnone|].
    unfold cmd_find_port, errexit, bind. cbn [default from_option id].
    by rewrite Hnone.
Qed.

(** On [busy_env] the search passes over 3000 and 3001 and prints 3002. *)
Example find_available_port_busy :
  find_available_port busy_env 3000 empty_world
  = (Ret 0%nat, printed (Echo "3002") empty_world).
Proof.
  refine (proj1 (proj1 (find_available_port_spec busy_env 3000 empty_world _)
                       3002 _ _ _)).
  - lia.
  - lia.
  - reflexivity.
  - intros q Hq. assert (q = 3000 ∨ q = 3001) as [-> | ->] by lia; reflexivity.
Qed.

(** The condition of the [if] holds for a port exactly when the pipeline
    with [ss] fails and [lsof] fails; the pipeline fails also when [grep]
    has found the port and [ss] did not exit with status 0. *)
Lemma port_free_cases (E : Env) (port : Z) :
  port_free E port = true
  ↔ (ss_listening E (pretty port) = false ∨ ss_status E (pretty port) ≠ 0%nat)
    ∧ lsof_open E (pretty port) = false.
Proof.
  unfold port_free, ss_grep.
  destruct (ss_listening E (pretty port)), (ss_status E (pretty port)),
    (lsof_open E (pretty port)); cbn; intuition congruence.
Qed.

(** C5, the search run on a machine whose socket table lists port 3000
    while [ss] is ended by SIGPIPE (status 141): under [set -o pipefail]
    the pipeline [ss | grep -q] fails although [grep] has found the port,
    the [if ! ...] takes that for a free port, and [find-port 3000] prints
    3000 and succeeds. *)
Theorem find_port_accepts_listed_port :
  ss_listening sigpipe_env "3000" = true
  ∧ find_available_port sigpipe_env 3000 empty_world
    = (Ret 0%nat, printed (Echo "3000") empty_world)
  ∧ cmd_find_port sigpipe_env (Some 3000) empty_world
    = (Ret 0%nat, printed (Echo "3000") empty_world).
Proof. vm_compute. repeat split; reflexivity. Qed.

(** ** Stopping *)

(** C8.  When the state directory holds no record for [name], [stop_tunnel]
    prints one warning and returns 0, and the files, configurations,
    processes and external commands are what they were; so does the [stop]
    command for a name that is not empty. *)
Theorem stop_tunnel_absent (E : Env) (name : string) (w : World) :
  files w !! record_file name = None →
  let w' := printed (Warning ("No tunnel found with name: " +:+ name)) w in
  stop_tunnel E name w = (Ret 0%nat, w')
  ∧ (is_empty name = false → ∀ rest, cmd_stop E (name :: rest) w = (Ret 0%nat, w'))
  ∧ files w' = files w ∧ configs w' = configs w ∧ procs w' = procs w
  ∧ trace w' = trace w.
Proof.
  intros Hnone w'.
  assert (Hstop : stop_tunnel E name w = (Ret 0%nat, w')).
  { unfold stop_tunnel, w'. sh_unfold. now rewrite Hnone. }
  repeat split; [exact Hstop|].
  intros Hname rest. unfold cmd_stop. cbn [nth]. rewrite Hname.
  unfold errexit, bind at 1. unfold bind at 1. rewrite Hstop. reflexivity.
Qed.

Lemma stop_tunnel_absent_witness :
  files empty_world !! record_file "web" = None
  ∧ stop_tunnel bare_env "web" empty_world
    = (Ret 0%nat, printed (Warning "No tunnel found with name: web") empty_world).
Proof.
  assert (H : files empty_world !! record_file "web" = None) by reflexivity.
  split; [exact H|].
  exact (proj1 (stop_tunnel_absent bare_env "web" empty_world H)).
Defined.

(** C10, as the code has it.  When [jq] reads the method of the stored
    record and it is none of [tailscale], [cloudflare_quick] and
    [cloudflare_named], [stop_tunnel] runs no teardown (no external
    command, no process touched), deletes the record file, reports success
    and returns 0. *)
Theorem stop_tunnel_unknown_method (E : Env) (name text method : string) (w : World) :
  files w !! record_file name = Some text →
  jq E ".method" text = (0%nat, method) →
  method ≠ "tailscale" → method ≠ "cloudflare_quick" →
  method ≠ "cloudflare_named" →
  stop_tunnel E name w = (Ret 0%nat, stopped name w)
  ∧ files (stopped name w) !! record_file name = None
  ∧ trace (stopped name w) = trace w
  ∧ procs (stopped name w) = procs w.
Proof.
  intros Hfile Hjq H1 H2 H3. split; [|split; [|done]].
  - unfold stop_tunnel. sh_unfold. rewrite Hfile, Hjq. cbn.
    apply String.eqb_neq in H1, H2, H3. rewrite H1, H2, H3. reflexivity.
  - cbn. apply lookup_delete_eq.
Qed.

Lemma stop_tunnel_unknown_method_witness :
  stop_tunnel bare_env "web" (world_with_file "web.json" ngrok_record)
  = (Ret 0%nat, stopped "web" (world_with_file "web.json" ngrok_record)).
Proof.
  apply (stop_tunnel_unknown_method bare_env "web" ngrok_record "ngrok");
    [reflexivity | reflexivity | discriminate | discriminate | discriminate].
Defined.

(** It ends the script, with the record in place, when [jq] cannot read the
    method. *)
Lemma stop_tunnel_unreadable (E : Env) (name text : string) (w : World) :
  files w !! record_file name = Some text →
  (jq E ".method" text).1 ≠ 0%nat →
  stop_tunnel E name w = (Exit (jq E ".method" text).1, w).
Proof.
  intros Hfile Hjq. unfold stop_tunnel. sh_unfold. rewrite Hfile.
  destruct (jq E ".method" text) as [[|st] output]; done.
Qed.

(** C10 as stated fails: on a record whose method value is cut short [jq]
    cannot read the file, [method=$(jq ...)] ends the script with the
    status of [jq] under [set -e], before the [case] and the [rm -f], and
    the record is in place as it was; so it is after every further [stop]. *)
Lemma stop_tunnel_torn_record :
  let w := world_with_file "web.json" torn_record in
  files w !! record_file "web" = Some torn_record
  ∧ stop_tunnel bare_env "web" w = (Exit 2, w)
  ∧ cmd_stop bare_env ["web"] w = (Exit 2, w).
Proof. vm_compute. repeat split; reflexivity. Qed.

(** ** Quick tunnel launcher *)

Lemma is_empty_false (s : string) : s ≠ "" → is_empty s = false.
Proof. now destruct s. Qed.

Lemma is_empty_true (s : string) : is_empty s = true → s = "".
Proof. now destruct s. Qed.

(** One poll: only the log changes, and when the process could open its
    log, the log is brought up to date before it is searched. *)
Lemma poll_once (E : Env) (log_file : string) (waited : nat) (w : World) :
  ∃ w1, sync_log E log_file waited w = (Ret tt, w1)
        ∧ polled log_file 0 w w1
        ∧ (writable E log_file = true →
           match files w1 !! log_file with
           | Some text => grep_url E text
           | None => ""
           end = found E waited).
Proof.
  unfold sync_log, found.
  destruct (writable E log_file);
    [destruct (quick_log_at E waited) as [text|]|]; sh_unfold;
    eexists; (split; [reflexivity|]); cbn; unfold polled; cbn.
  - rewrite lookup_insert_eq. repeat split; try done; try lia.
    all: intros f Hf; now rewrite lookup_insert_ne.
  - rewrite lookup_delete_eq. repeat split; try done; try lia.
    all: intros f Hf; now rewrite lookup_delete_ne.
  - repeat split; try done; lia.
Qed.

Lemma polled_step (log_file : string) (n : nat) (w w1 w2 w' : World) :
  polled log_file 0 w w1 →
  sleep 1 w1 = (Ret tt, w2) →
  polled log_file n w2 w' →
  polled log_file (S n) w w'.
Proof.
  unfold polled. intros (?&?&?&?&?&?&Hf1) Hs (?&?&?&?&?&?&Hf2).
  unfold sleep in Hs. injection Hs as <-. cbn in *.
  repeat split; try congruence; [lia|].
  intros f Hf. rewrite Hf2, Hf1; done.
Qed.

Lemma wait_for_url_found (E : Env) (fuel : nat) (log_file : string)
    (waited max_wait k : nat) (w : World) :
  writable E log_file = true →
  (waited ≤ k < max_wait)%nat → (k - waited ≤ fuel)%nat →
  (∀ j, (waited ≤ j < k)%nat → found E j = "") →
  found E k ≠ "" →
  ∃ w', wait_for_url E fuel log_file waited max_wait w = (Ret (found E k), w')
        ∧ polled log_file (k - waited) w w'.
Proof.
  intros Hw. revert waited w.
  induction fuel as [|fuel IH]; intros waited w Hk Hfuel Hnone Hsome.
  - assert (waited = k) as -> by lia.
    cbn [wait_for_url]. destruct (Nat.ltb_spec k max_wait); [|lia].
    destruct (poll_once E log_file k w) as (w1 & Hsync & Hpoll & Hgrep).
    unfold bind at 1. rewrite Hsync. unfold bind at 1, get_file.
    rewrite (Hgrep Hw), (is_empty_false _ Hsome). cbn.
    eexists; split; [reflexivity|]. now rewrite Nat.sub_diag.
  - cbn [wait_for_url]. destruct (Nat.ltb_spec waited max_wait); [|lia].
    destruct (poll_once E log_file waited w) as (w1 & Hsync & Hpoll & Hgrep).
    unfold bind at 1. rewrite Hsync. unfold bind at 1, get_file.
    rewrite (Hgrep Hw).
    destruct (decide (waited = k)) as [->|Hne].
    + rewrite (is_empty_false _ Hsome). cbn.
      eexists; split; [reflexivity|]. now rewrite Nat.sub_diag.
    + rewrite (Hnone waited) by lia. cbn [is_empty negb].
      unfold bind at 1. destruct (sleep 1 w1) as [r w2] eqn:Hsleep.
      assert (r = Ret tt) as -> by (unfold sleep in Hsleep; congruence).
      destruct (IH (S waited) w2) as (w' & Hrun & Hpoll');
        [lia | lia | intros j Hj; apply Hnone; lia | done |].
      rewrite Hrun. eexists; split; [reflexivity|].
      replace (k - waited)%nat with (S (k - S waited)) by lia.
      eapply polled_step; eauto.
Qed.

Lemma wait_for_url_timeout (E : Env) (fuel : nat) (log_file : string)
    (waited max_wait : nat) (w : World) :
  writable E log_file = true →
  (max_wait - waited ≤ fuel)%nat →
  (∀ j, (waited ≤ j < max_wait)%nat → found E j = "") →
  ∃ w', wait_for_url E fuel log_file waited max_wait w = (Ret "", w')
        ∧ polled log_file (max_wait - waited) w w'.
Proof.
  intros Hw. revert waited w.
  induction fuel as [|fuel IH]; intros waited w Hfuel Hnone.
  - cbn [wait_for_url]. destruct (Nat.ltb_spec waited max_wait); [lia|].
    eexists; split; [reflexivity|].
    replace (max_wait - waited)%nat with 0%nat by lia.
    unfold polled. repeat split; done || lia.
  - cbn [wait_for_url]. destruct (Nat.ltb_spec waited max_wait).
    + destruct (poll_once E log_file waited w) as (w1 & Hsync & Hpoll & Hgrep).
      unfold bind at 1. rewrite Hsync. unfold bind at 1, get_file.
      rewrite (Hgrep Hw), (Hnone waited) by lia. cbn [is_empty negb].
      unfold bind at 1. destruct (sleep 1 w1) as [r w2] eqn:Hsleep.
      assert (r = Ret tt) as -> by (unfold sleep in Hsleep; congruence).
      destruct (IH (S waited) w2) as (w' & Hrun & Hpoll');
        [lia | intros j Hj; apply Hnone; lia |].
      rewrite Hrun. eexists; split; [reflexivity|].
      replace (max_wait - waited)%nat with (S (max_wait - S waited)) by lia.
      eapply polled_step; eauto.
    + eexists; split; [reflexivity|].
      replace (max_wait - waited)%nat with 0%nat by lia.
      unfold polled. repeat split; done || lia.
Qed.

Lemma spawn_running (E : Env) (log_file cmdline : string) (w : World) :
  writable E log_file = true →
  spawn E log_file cmdline w
  = (Ret (pretty (next_pid w)),
     {| files := files w; configs := configs w;
        procs := <[pretty (next_pid w) := cmdline]> (procs w);
        next_pid := S (next_pid w); clock := clock w;
        trace := trace w ++ [Spawn (pretty (next_pid w)) cmdline];
        out := out w |}).
Proof. intros Hw. unfold spawn. now rewrite Hw. Qed.

(** C3, as the code has it.  For a name whose log file the spawned process
    can open, the quick launcher searches the log once a second, at most
    30 times.  If the search first succeeds [k] seconds after the spawn
    ([k < 30]) and the record file can be written, the launcher returns 0
    having printed that URL, [k] seconds have passed, the spawned process
    is still running and the record of [name] holds the method, the name,
    the port, the URL and the process id.  If none of the 30 searches
    succeeds the launcher returns 1 after 30 seconds, the spawned process
    has been killed and no record file has changed. *)
Theorem start_cloudflare_quick_poll (E : Env) (local_port name : string) (w : World) :
  let pid := pretty (next_pid w) in
  let cmdline := "cloudflared tunnel --url http://localhost:" +:+ local_port in
  let run := start_cloudflare_quick E local_port name w in
  writable E (name +:+ ".log") = true →
  (∀ k, (k < 30)%nat → found E k ≠ "" →
        (∀ j, (j < k)%nat → found E j = "") →
        writable E (record_file name) = true →
        run.1 = Ret 0%nat
        ∧ clock run.2 = (clock w + k)%nat
        ∧ procs run.2 !! pid = Some cmdline
        ∧ files run.2 !! record_file name
          = Some ("{" +:+ q "method" +:+ ":" +:+ q "cloudflare_quick" +:+ ","
                  +:+ q "name" +:+ ":" +:+ q name +:+ ","
                  +:+ q "local_port" +:+ ":" +:+ local_port +:+ ","
                  +:+ q "url" +:+ ":" +:+ q (found E k) +:+ ","
                  +:+ q "pid" +:+ ":" +:+ pid +:+ "}")
        ∧ trace run.2 = trace w ++ [Spawn pid cmdline]
        ∧ out run.2
          = out w ++ [Log ("Starting Cloudflare quick tunnel for port "
                           +:+ local_port +:+ "...");
                      Success "Cloudflare quick tunnel created!";
                      Echo (found E k)])
  ∧ ((∀ j, (j < 30)%nat → found E j = "") →
     run.1 = Ret 1%nat
     ∧ clock run.2 = (clock w + 30)%nat
     ∧ procs run.2 !! pid = None
     ∧ records_unchanged w run.2
     ∧ trace run.2 = trace w ++ [Spawn pid cmdline; Kill pid]
     ∧ Error "Failed to get tunnel URL" ∈ out run.2).
Proof.
  intros pid cmdline run Hlog. subst run. unfold start_cloudflare_quick.
  erewrite bind_ret_eq by reflexivity.
  erewrite bind_ret_eq by (apply spawn_running; exact Hlog).
  cbn [files configs procs next_pid clock trace out]. fold pid.
  set (log_file := name +:+ ".log") in *.
  match goal with |- context [bind (wait_for_url _ _ _ _ _) _ ?x] =>
    set (w0 := x) end.
  split.
  - intros k Hk Hsome Hnone Hrec.
    destruct (wait_for_url_found E 30 log_file 0 30 k w0 Hlog)
      as (w' & Hrun & Hc & Hp & Hn & Ht & Ho & Hcl & Hf);
      [lia | lia | intros j Hj; apply Hnone; lia | done |].
    erewrite bind_ret_eq by exact Hrun.
    rewrite (is_empty_false _ Hsome). unfold write_file. rewrite Hrec.
    sh_unfold. cbn.
    rewrite Hp, Ht, Ho, Hcl. subst w0. cbn.
    rewrite !lookup_insert_eq, Nat.sub_0_r, <- !app_assoc. done.
  - intros Hnone.
    destruct (wait_for_url_timeout E 30 log_file 0 30 w0 Hlog)
      as (w' & Hrun & Hc & Hp & Hn & Ht & Ho & Hcl & Hf);
      [lia | intros j Hj; apply Hnone; lia |].
    erewrite bind_ret_eq by exact Hrun.
    cbn [is_empty]. unfold or_true, kill.
    sh_unfold. cbn. rewrite Hp. subst w0. cbn.
    rewrite lookup_insert_eq. cbn.
    assert (Hrec : ∀ n, files w' !! record_file n = files w !! record_file n).
    { intros n. rewrite Hf; [done|]. apply not_eq_sym, log_file_not_record. }
    destruct (files w' !! log_file) as [text|] eqn:Hlogf; cbn;
      rewrite ?Hp, ?Ht, ?Ho, ?Hcl; cbn;
      rewrite ?lookup_delete_eq, <- ?app_assoc; cbn;
      (repeat split; [done .. | set_solver]).
Qed.

Lemma start_cloudflare_quick_poll_witness :
  (start_cloudflare_quick slow_env "3000" "demo" empty_world).1 = Ret 0%nat
  ∧ jq_flat ".url" <$> files (start_cloudflare_quick slow_env "3000" "demo"
                                                      empty_world).2 !! "demo.json"
    = Some (0%nat, "https://calm-river.trycloudflare.com")
  ∧ jq_flat ".pid" <$> files (start_cloudflare_quick slow_env "3000" "demo"
                                                      empty_world).2 !! "demo.json"
    = Some (0%nat, "4000")
  ∧ (start_cloudflare_quick bare_env "3000" "demo" empty_world).1 = Ret 1%nat.
Proof.
  destruct (proj1 (start_cloudflare_quick_poll slow_env "3000" "demo"
                     empty_world eq_refl) 3%nat)
    as (H1 & _ & _ & H2 & _).
  - lia.
  - discriminate.
  - intros j Hj.
    assert (j = 0 ∨ j = 1 ∨ j = 2)%nat as [-> | [-> | ->]] by lia; reflexivity.
  - reflexivity.
  - split; [exact H1|]. change (record_file "demo") with "demo.json" in H2.
    rewrite H2. split; [reflexivity|]. split; [reflexivity|].
    refine (proj1 (proj2 (start_cloudflare_quick_poll bare_env "3000" "demo"
                            empty_world eq_refl) _)).
    intros j Hj. reflexivity.
Defined.

(** C3 as stated fails: the quick launcher finds the URL in the fourth
    second, but the record of a name of 251 letters cannot be written (its
    file name would hold 256 characters); the script ends there with status
    1, no record is written and the spawned process is left running. *)
Lemma quick_launch_record_unwritable :
  found slow_env 3 = "https://calm-river.trycloudflare.com"
  ∧ (start_cloudflare_quick slow_env "3000" long_name empty_world).1 = Exit 1
  ∧ procs (start_cloudflare_quick slow_env "3000" long_name empty_world).2
    !! "4000" = Some "cloudflared tunnel --url http://localhost:3000"
  ∧ files (start_cloudflare_quick slow_env "3000" long_name empty_world).2
    !! record_file long_name = None.
Proof. vm_compute. repeat split; reflexivity. Qed.

(** ** The words given to [kill] *)

Lemma is_blank_not_nl (c : ascii) : is_blank c = true → Ascii.eqb c "010" = false.
Proof.
  unfold is_blank. intros H. apply orb_true_iff in H as [H|H];
    apply Ascii.eqb_eq in H; subst; reflexivity.
Qed.

Lemma only_blanks_no_nl (s : string) : only_blanks s = true → has_nl s = false.
Proof.
  induction s as [|c s IH]; [done|]. cbn. intros H.
  apply andb_true_iff in H as [Hc Hs]. rewrite (is_blank_not_nl c Hc). auto.
Qed.

Lemma zeros_no_nl (s : string) : zeros s = true → has_nl s = false.
Proof.
  induction s as [|c s IH]; [done|]. cbn. intros H.
  apply andb_true_iff in H as [Hc Hs]. apply Ascii.eqb_eq in Hc. subst c. cbn.
  apply orb_true_iff in Hs as [Hs|Hs]; auto using only_blanks_no_nl.
Qed.

Lemma has_nl_skip_blanks (s : string) : has_nl (skip_blanks s) = has_nl s.
Proof.
  induction s as [|c s IH]; [done|]. cbn.
  destruct (is_blank c) eqn:Hc; [|done].
  now rewrite (is_blank_not_nl c Hc).
Qed.

(** A word of several lines does not read as 0. *)
Lemma own_group_no_nl (word : string) : own_group word = true → has_nl word = false.
Proof.
  unfold own_group. rewrite <- has_nl_skip_blanks.
  destruct (skip_blanks word) as [|c s]; [done|]. cbn zeta. intros H.
  apply orb_true_iff in H as [H|H]; [by apply zeros_no_nl|].
  apply andb_true_iff in H as [Hc Hs]. apply Ascii.eqb_eq in Hc. subst c.
  cbn. by apply zeros_no_nl.
Qed.

(** Nor does a process id. *)
Lemma is_pid_not_own_group (pid : string) : is_pid pid = true → own_group pid = false.
Proof.
  destruct pid as [|c s]; [done|]. unfold is_pid, own_group. cbn [only_digits].
  intros H. apply andb_true_iff in H as [Hz H].
  apply andb_true_iff in H as [Hd _]. apply negb_true_iff in Hz.
  assert (Hb : is_blank c = false).
  { unfold is_blank. destruct (Ascii.eqb_spec c " ") as [->|_]; [done|].
    destruct (Ascii.eqb_spec c "009") as [->|_]; done. }
  cbn [skip_blanks]. rewrite Hb. cbn [zeros]. rewrite Hz. cbn.
  destruct (Ascii.eqb_spec c "+") as [->|_]; done.
Qed.

Lemma has_nl_app (s t : string) : has_nl (s +:+ t) = has_nl s || has_nl t.
Proof.
  induction s as [|a s IH]; [done|].
  change (String a s +:+ t) with (String a (s +:+ t)). cbn [has_nl].
  rewrite IH. now destruct (Ascii.eqb a "010").
Qed.

Lemma has_nl_join_lines (x y : string) (l : list string) :
  has_nl (join_lines (x :: y :: l)) = true.
Proof.
  cbn [join_lines]. rewrite !has_nl_app. cbn. apply orb_true_r.
Qed.

(** ** The steps of the routed launcher *)

Lemma ensure_tunnel_steps (E : Env) (tunnel_name : string) (w : World) :
  ∃ w1, ensure_tunnel E tunnel_name w
        = (Ret (cf_tunnel_listed E tunnel_name || cf_tunnel_create E tunnel_name),
           w1)
        ∧ same_store w w1 ∧ ∀ e, e ∈ trace w → e ∈ trace w1.
Proof.
  unfold ensure_tunnel, same_store. sh_unfold.
  destruct (cf_tunnel_listed E tunnel_name); cbn;
    [|destruct (cf_tunnel_create E tunnel_name)];
    eexists; (split; [reflexivity|]); cbn; (split; [done|]);
    intros e He; set_unfold; auto.
Qed.

Lemma ensure_dns_route_steps (E : Env) (tunnel_name host : string) (w : World) :
  ∃ w1, ensure_dns_route E tunnel_name host w = (Ret tt, w1)
        ∧ same_store w w1 ∧ trace w1 = trace w ++ [RouteDns tunnel_name host].
Proof.
  unfold ensure_dns_route, same_store. sh_unfold.
  destruct (cf_route_dns E tunnel_name host); cbn;
    eexists; (split; [reflexivity|]); done.
Qed.

(** However the rewriting ends, it has touched the configuration of the
    tunnel and nothing else; it returns, or the script ends in it with a
    non-zero status. *)
Lemma update_config_steps (E : Env)
    (config_file tunnel_name creds_file host local_port : string) (w : World) :
  ∃ r w1, update_config E config_file tunnel_name creds_file host local_port w
          = (r, w1)
          ∧ (r = Ret tt ∨ ∃ st, r = Exit (S st))
          ∧ files w1 = files w ∧ procs w1 = procs w
          ∧ next_pid w1 = next_pid w ∧ trace w1 = trace w
          ∧ ∀ f, f ≠ config_file → configs w1 !! f = configs w !! f.
Proof.
  unfold update_config, write_config. sh_unfold.
  destruct (configs w !! config_file) as [c|]; [destruct (has_yq E)|].
  - destruct (yq E (yq_del_program host) c) as [[|s1] temp]; cbn;
      [|eexists _, _; (split; [reflexivity|]); eauto 10].
    destruct (writable E config_file); cbn;
      [|eexists _, _; (split; [reflexivity|]); eauto 10].
    destruct (yq E (yq_add_program host local_port) temp) as [[|s2] edited];
      cbn; eexists _, _; (split; [reflexivity|]); cbn;
      (split; [eauto|]); repeat split;
      intros f Hf; by rewrite ?lookup_insert_ne.
  - destruct (writable E config_file); cbn;
      eexists _, _; (split; [reflexivity|]); cbn;
      (split; [eauto|]); repeat split;
      intros f Hf; by rewrite ?lookup_insert_ne.
  - destruct (writable E config_file); cbn;
      eexists _, _; (split; [reflexivity|]); cbn;
      (split; [eauto|]); repeat split;
      intros f Hf; by rewrite ?lookup_insert_ne.
Qed.

(** The process can be found among the running ones when it is the only one
    that the pattern matches. *)
Lemma matching_lookup (E : Env) (pattern : string) (ps : gmap string string)
    (pid cmdline : string) :
  (pid, cmdline) ∈ map_to_list (matching E pattern ps) → ps !! pid = Some cmdline.
Proof.
  intros H. apply elem_of_map_to_list in H. unfold matching in H.
  by apply map_lookup_filter_Some in H as [? _].
Qed.

(** The restart always returns: the word given to [kill] is the id of a
    running process, or a word of several lines. *)
Lemma restart_running_steps (E : Env) (tunnel_name : string) (w : World) :
  ∃ w1, restart_running E tunnel_name w = (Ret tt, w1)
        ∧ files w1 = files w ∧ configs w1 = configs w
        ∧ next_pid w1 = next_pid w ∧ procs w1 ⊆ procs w
        ∧ ∀ e, e ∈ trace w → e ∈ trace w1.
Proof.
  unfold restart_running, pgrep_f. sh_unfold. cbn.
  set (m := matching E _ (procs w)).
  destruct (is_empty (join_lines (map_to_list m).*1)) eqn:Hword; cbn;
    [eexists; (split; [reflexivity|]); done|].
  unfold or_true, kill. sh_unfold. cbn.
  destruct (procs w !! join_lines (map_to_list m).*1) eqn:Hrun; cbn.
  - eexists; (split; [reflexivity|]); cbn; repeat split;
      [apply delete_subseteq|]. intros e He. set_unfold. auto.
  - assert (Hnot : own_group (join_lines (map_to_list m).*1) = false).
    { destruct (map_to_list m) as [|[k v] [|[k2 v2] l]] eqn:Hm.
      - done.
      - exfalso. cbn in Hrun.
        assert (Hin : (k, v) ∈ map_to_list m) by (rewrite Hm; left).
        apply matching_lookup in Hin. congruence.
      - destruct (own_group _) eqn:Hg; [|done].
        apply own_group_no_nl in Hg. cbn [fmap list_fmap fst] in Hg.
        by rewrite has_nl_join_lines in Hg. }
    rewrite Hnot. eexists; (split; [reflexivity|]); cbn.
    do 3 (split; [done|]). split; [reflexivity|].
    intros e He. set_unfold. auto.
Qed.

(** After the settle time: the log of the tunnel is the only file written,
    no process has been started, and the process counts as alive only when
    it could open its log. *)
Lemma settle_steps (E : Env) (tunnel_name config_file log_file pid : string)
    (w : World) :
  ∃ alive w1, settle E tunnel_name config_file log_file pid w = (Ret alive, w1)
        ∧ configs w1 = configs w ∧ trace w1 = trace w ∧ out w1 = out w
        ∧ (∀ f, f ≠ log_file → files w1 !! f = files w !! f)
        ∧ (alive = true → procs w1 = procs w)
        ∧ (alive = false → writable E log_file = true → is_Some (files w1 !! log_file))
        ∧ (writable E log_file = true →
           alive = cf_run_alive E tunnel_name (configs w !! config_file)).
Proof.
  unfold settle. sh_unfold. cbn.
  destruct (writable E log_file); cbn;
    [destruct (cf_run_alive E tunnel_name (configs w !! config_file))|];
    eexists _, _; (split; [reflexivity|]); cbn; repeat split; try done.
  all: try (intros f Hf; by rewrite lookup_insert_ne).
  intros _ _. rewrite lookup_insert_eq. eauto.
Qed.

(** ** Launchers end, and a failed launch writes no record *)

Lemma wait_for_url_returns (E : Env) (fuel : nat) (log_file : string)
    (waited max_wait : nat) (w : World) :
  (max_wait - waited ≤ fuel)%nat →
  ∃ url n w', wait_for_url E fuel log_file waited max_wait w = (Ret url, w')
              ∧ polled log_file n w w'.
Proof.
  revert waited w.
  induction fuel as [|fuel IH]; intros waited w Hfuel.
  - cbn [wait_for_url]. destruct (Nat.ltb_spec waited max_wait); [lia|].
    exists "", 0%nat, w. split; [done|]. unfold polled. repeat split; done || lia.
  - cbn [wait_for_url]. destruct (Nat.ltb_spec waited max_wait).
    + destruct (poll_once E log_file waited w) as (w1 & Hsync & Hpoll & _).
      unfold bind at 1. rewrite Hsync. unfold bind at 1, get_file.
      destruct (is_empty _); cbn [negb].
      * unfold bind at 1. destruct (sleep 1 w1) as [r w2] eqn:Hsleep.
        assert (r = Ret tt) as -> by (unfold sleep in Hsleep; congruence).
        destruct (IH (S waited) w2) as (url & n & w' & Hrun & Hpoll'); [lia|].
        rewrite Hrun. exists url, (S n), w'. split; [done|].
        eapply polled_step; eauto.
      * eexists _, 0%nat, w1. done.
    + exists "", 0%nat, w. split; [done|]. unfold polled. repeat split; done || lia.
Qed.

Lemma start_tailscale_funnel_frame (E : Env) (local_port name arg3 : string)
    (w : World) :
  ∃ r w', start_tailscale_funnel E local_port name arg3 w = (r, w')
          ∧ (r = Ret 0%nat
             ∨ ∃ st, st ≠ 0%nat ∧ (r = Ret st ∨ r = Exit st)
                     ∧ records_unchanged w w').
Proof.
  unfold start_tailscale_funnel, write_file, records_unchanged. sh_unfold.
  run_cases; eexists _, _; (split; [reflexivity|]); cbn;
    first [by left | right; exists 1%nat; split; [done|]; split; [eauto|done]].
Qed.

(** What the quick launcher touches, and how it ends. *)
Lemma start_cloudflare_quick_run (E : Env) (local_port name : string) (w : World) :
  ∃ r w', start_cloudflare_quick E local_port name w = (r, w')
          ∧ (∀ f, f ≠ name +:+ ".log" → f ≠ record_file name →
                  files w' !! f = files w !! f)
          ∧ configs w' = configs w
          ∧ (∀ pid, pid ≠ pretty (next_pid w) → procs w' !! pid = procs w !! pid)
          ∧ (r = Ret 0%nat
             ∨ ∃ st, st ≠ 0%nat ∧ (r = Ret st ∨ r = Exit st)
                     ∧ files w' !! record_file name = files w !! record_file name).
Proof.
  unfold start_cloudflare_quick.
  erewrite bind_ret_eq by reflexivity.
  set (log_file := name +:+ ".log").
  match goal with |- context [bind (spawn E log_file ?c) _ ?x] =>
    assert (Hspawn : ∃ w0, spawn E log_file c x = (Ret (pretty (next_pid w)), w0)
              ∧ files w0 = files w ∧ configs w0 = configs w
              ∧ ∀ pid, pid ≠ pretty (next_pid w) → procs w0 !! pid = procs w !! pid)
  end.
  { unfold spawn. destruct (writable E log_file); eexists;
      (split; [reflexivity|]); cbn; repeat split.
    intros pid Hpid. by rewrite lookup_insert_ne. }
  destruct Hspawn as (w0 & Hspawn & Hf0 & Hc0 & Hp0).
  erewrite bind_ret_eq by exact Hspawn.
  destruct (wait_for_url_returns E 30 log_file 0 30 w0)
    as (url & n & w1 & Hrun & Hc & Hp & Hn & Ht & Ho & Hcl & Hf); [lia|].
  erewrite bind_ret_eq by exact Hrun.
  assert (Hfiles : ∀ f, f ≠ log_file → files w1 !! f = files w !! f).
  { intros f Hlog. rewrite Hf, Hf0; done. }
  assert (Hrec : files w1 !! record_file name = files w !! record_file name).
  { apply Hfiles, not_eq_sym, log_file_not_record. }
  destruct (is_empty url).
  - unfold or_true, kill. sh_unfold. cbn.
    run_cases; eexists _, _; (split; [reflexivity|]); cbn; rewrite ?Hp, ?Hc;
      (split; [by intros f H1 H2; apply Hfiles|]); (split; [done|]);
      (split; [by intros pid Hpid; rewrite ?lookup_delete_ne by done; apply Hp0|]);
      (right; eexists; (split; [|split; [eauto|done]]); done).
  - unfold write_file. sh_unfold.
    destruct (writable E (record_file name)); cbn;
      eexists _, _; (split; [reflexivity|]); cbn; rewrite ?Hp, ?Hc;
      (split; [by intros f H1 H2; rewrite ?lookup_insert_ne by done; apply Hfiles|]);
      (split; [done|]); (split; [done|]);
      first [by left | right; exists 1%nat; split; [done|]; split; [eauto|done]].
Qed.

(** What the routed launcher touches, and how it ends. *)
Lemma start_cloudflare_named_run (E : Env) (local_port name : string) (w : World) :
  let tunnel_name := or_default (CLOUDFLARE_TUNNEL_NAME E) (get_machine_name E) in
  ∃ r w', start_cloudflare_named E local_port name w = (r, w')
          ∧ (∀ f, f ≠ tunnel_name +:+ ".log" → f ≠ record_file name →
                  files w' !! f = files w !! f)
          ∧ (∀ f, f ≠ tunnel_name +:+ "-config.yml" →
                  configs w' !! f = configs w !! f)
          ∧ (r = Ret 0%nat
             ∨ ∃ st, st ≠ 0%nat ∧ (r = Ret st ∨ r = Exit st)
                     ∧ files w' !! record_file name = files w !! record_file name).
Proof.
  intros tunnel_name.
  unfold start_cloudflare_named. fold tunnel_name.
  destruct (is_empty (CLOUDFLARE_TUNNEL_DOMAIN E)).
  { sh_unfold. eexists _, _; (split; [reflexivity|]); cbn.
    repeat split. right. exists 1%nat. eauto. }
  erewrite bind_ret_eq by reflexivity.
  match goal with |- context [bind (ensure_tunnel E tunnel_name) _ ?W] =>
    destruct (ensure_tunnel_steps E tunnel_name W)
      as (w1 & Hrun1 & (Hf1 & Hc1 & _) & _) end.
  erewrite bind_ret_eq by exact Hrun1. clear Hrun1.
  cbn [files configs] in Hf1, Hc1.
  destruct (_ || _); cbn [negb].
  2:{ eexists _, _; (split; [reflexivity|]). rewrite Hf1, Hc1.
      repeat split. right. exists 1%nat. eauto. }
  destruct (is_empty (cf_tunnel_id E tunnel_name)).
  { sh_unfold. eexists _, _; (split; [reflexivity|]); cbn. rewrite Hf1, Hc1.
    repeat split. right. exists 1%nat. eauto. }
  match goal with |- context [bind (ensure_dns_route E tunnel_name ?h) _ w1] =>
    destruct (ensure_dns_route_steps E tunnel_name h w1)
      as (w2 & Hrun2 & (Hf2 & Hc2 & _) & _) end.
  erewrite bind_ret_eq by exact Hrun2. clear Hrun2.
  destruct (creds_exists E _); cbn [negb].
  2:{ sh_unfold. eexists _, _; (split; [reflexivity|]); cbn.
      rewrite Hf2, Hc2, Hf1, Hc1.
      repeat split. right. exists 1%nat. eauto. }
  match goal with |- context [bind (update_config E ?cf ?t ?cr ?h ?p) _ w2] =>
    destruct (update_config_steps E cf t cr h p w2)
      as (r3 & w3 & Hrun3 & Hr3 & Hf3 & _ & _ & _ & Hc3) end.
  assert (Hconf3 : ∀ f, f ≠ tunnel_name +:+ "-config.yml" →
                        configs w3 !! f = configs w !! f).
  { intros f Hf. rewrite Hc3, Hc2, Hc1; done. }
  assert (Hfiles3 : files w3 = files w) by (by rewrite Hf3, Hf2, Hf1).
  destruct Hr3 as [->|[st ->]].
  2:{ unfold bind at 1. rewrite Hrun3.
      eexists _, _; (split; [reflexivity|]). rewrite Hfiles3.
      repeat split; [done|]. right. exists (S st). eauto. }
  erewrite bind_ret_eq by exact Hrun3. clear Hrun3.
  destruct (restart_running_steps E tunnel_name w3)
    as (w4 & Hrun4 & Hf4 & Hc4 & _).
  erewrite bind_ret_eq by exact Hrun4. clear Hrun4.
  match goal with |- context [bind (spawn E ?lf ?c) _ w4] =>
    assert (Hspawn : ∃ w5, spawn E lf c w4 = (Ret (pretty (next_pid w4)), w5)
              ∧ files w5 = files w4 ∧ configs w5 = configs w4)
  end.
  { unfold spawn. destruct (writable E _); eexists; (split; [reflexivity|]); done. }
  destruct Hspawn as (w5 & Hspawn & Hf5 & Hc5).
  erewrite bind_ret_eq by exact Hspawn. clear Hspawn.
  match goal with |- context [bind (settle E tunnel_name ?cf ?lf ?p) _ w5] =>
    destruct (settle_steps E tunnel_name cf lf p w5)
      as (alive & w6 & Hrun6 & Hc6 & _ & _ & Hf6 & _) end.
  erewrite bind_ret_eq by exact Hrun6. clear Hrun6.
  assert (Hfiles : ∀ f, f ≠ tunnel_name +:+ ".log" →
                        files w6 !! f = files w !! f).
  { intros f Hf. rewrite Hf6, Hf5, Hf4, Hfiles3; done. }
  assert (Hconf : ∀ f, f ≠ tunnel_name +:+ "-config.yml" →
                       configs w6 !! f = configs w !! f).
  { intros f Hf. rewrite Hc6, Hc5, Hc4. by apply Hconf3. }
  assert (Hrec : files w6 !! record_file name = files w !! record_file name).
  { apply Hfiles, not_eq_sym, log_file_not_record. }
  destruct alive; cbn [negb].
  - unfold write_file. sh_unfold.
    destruct (writable E (record_file name)); cbn;
      eexists _, _; (split; [reflexivity|]); cbn;
      (split; [by intros f H1 H2; rewrite ?lookup_insert_ne by done; apply Hfiles|]);
      (split; [done|]);
      first [by left | right; exists 1%nat; split; [done|]; split; [eauto|done]].
  - sh_unfold. cbn.
    destruct (files w6 !! (tunnel_name +:+ ".log")); cbn;
      eexists _, _; (split; [reflexivity|]); cbn;
      (split; [by intros f H1 H2; apply Hfiles|]); (split; [done|]);
      (right; exists 1%nat; split; [done|]; split; eauto).
Qed.

Lemma start_cloudflare_quick_frame (E : Env) (local_port name : string) (w : World) :
  ∃ r w', start_cloudflare_quick E local_port name w = (r, w')
          ∧ (r = Ret 0%nat
             ∨ ∃ st, st ≠ 0%nat ∧ (r = Ret st ∨ r = Exit st)
                     ∧ records_unchanged w w').
Proof.
  destruct (start_cloudflare_quick_run E local_port name w)
    as (r & w' & Hrun & Hfiles & _ & _ & Hr).
  exists r, w'. split; [done|]. destruct Hr as [?|(st & ? & ? & Hrec)]; [by left|].
  right. exists st. repeat split; try done. intros n.
  destruct (decide (record_file n = record_file name)) as [->|Hne]; [done|].
  apply Hfiles; [apply not_eq_sym, log_file_not_record|done].
Qed.

Lemma start_cloudflare_named_frame (E : Env) (local_port name : string) (w : World) :
  ∃ r w', start_cloudflare_named E local_port name w = (r, w')
          ∧ (r = Ret 0%nat
             ∨ ∃ st, st ≠ 0%nat ∧ (r = Ret st ∨ r = Exit st)
                     ∧ records_unchanged w w').
Proof.
  destruct (start_cloudflare_named_run E local_port name w)
    as (r & w' & Hrun & Hfiles & _ & Hr).
  exists r, w'. split; [done|]. destruct Hr as [?|(st & ? & ? & Hrec)]; [by left|].
  right. exists st. repeat split; try done. intros n.
  destruct (decide (record_file n = record_file name)) as [->|Hne]; [done|].
  apply Hfiles; [apply not_eq_sym, log_file_not_record|done].
Qed.

(** ** The orchestrator when the launcher fails *)

Lemma cmd_start_prepare_frame (E : Env) (args : list string) (w w1 : World)
    (r : outcome (string * string * string)) :
  cmd_start_prepare E args w = (r, w1) →
  files w1 = files w ∧ configs w1 = configs w ∧ procs w1 = procs w
  ∧ trace w1 = trace w.
Proof.
  unfold cmd_start_prepare.
  destruct (parse_options _ _ _ _) as [[port name] method].
  sh_unfold. run_cases; intros [= <- <-]; done.
Qed.

Lemma launcher_frame (E : Env) (method port name : string)
    (start : string → string → sh nat) (w : World) :
  launcher E method = Some start →
  ∃ r w', start port name w = (r, w')
          ∧ (r = Ret 0%nat
             ∨ ∃ st, st ≠ 0%nat ∧ (r = Ret st ∨ r = Exit st)
                     ∧ records_unchanged w w').
Proof.
  unfold launcher. intros H.
  repeat case_match; simplify_eq;
    auto using start_tailscale_funnel_frame, start_cloudflare_quick_frame,
      start_cloudflare_named_frame.
Qed.

(** C6, as the code has it.  When the launcher that [cmd_start] dispatches
    to fails, it has returned a non-zero status, or the script has ended
    inside it with one; either way the script ends with exactly that
    status, in exactly the world the launcher left (nothing is printed or
    done after it), and no record file has been created or changed. *)
Theorem cmd_start_launcher_failure (E : Env) (args : list string)
    (port name method : string) (start : string → string → sh nat)
    (r : outcome nat) (w w1 w2 : World) :
  cmd_start_prepare E args w = (Ret (port, name, method), w1) →
  launcher E method = Some start →
  start port name w1 = (r, w2) →
  r ≠ Ret 0%nat →
  ∃ st, (r = Ret st ∨ r = Exit st) ∧ st ≠ 0%nat
        ∧ cmd_start E args w = (Exit st, w2)
        ∧ records_unchanged w w2.
Proof.
  intros Hprep Hl Hrun Hfail.
  destruct (launcher_frame E method port name start w1 Hl)
    as (r' & w' & Hrun' & Hr).
  rewrite Hrun in Hrun'. injection Hrun' as <- <-.
  destruct Hr as [?|(st & Hst & Hr & Hrec)]; [done|].
  exists st. repeat split; [done|done| |].
  - unfold cmd_start. erewrite bind_ret_eq by exact Hprep. cbn.
    rewrite Hl. unfold errexit.
    unfold bind at 1. unfold bind at 1. rewrite Hrun.
    destruct Hr as [-> | ->]; [|done].
    destruct st; [done|reflexivity].
  - intros n. rewrite (Hrec n).
    destruct (cmd_start_prepare_frame _ _ _ _ _ Hprep) as (-> & _). done.
Qed.

Lemma cmd_start_launcher_failure_witness :
  cmd_start (named_env false false true) ["3000"; "web"; "--method=cloudflare"]
            empty_world
  = (Exit 1,
     (start_cloudflare_named (named_env false false true) "3000" "web"
                             empty_world).2).
Proof.
  destruct (cmd_start_launcher_failure (named_env false false true)
              ["3000"; "web"; "--method=cloudflare"] "3000" "web" "cloudflare"
              (start_cloudflare_named (named_env false false true))
              (Ret 1%nat)
              empty_world empty_world
              (start_cloudflare_named (named_env false false true) "3000" "web"
                                      empty_world).2)
    as (st & Hst & _ & Hrun & _);
    [reflexivity | reflexivity | reflexivity | discriminate |].
  destruct Hst as [Hst|Hst]; [|discriminate Hst].
  injection Hst as <-. exact Hrun.
Defined.

(** C6 as stated fails: the routed launcher has rewritten the routing
    configuration and the log before it finds that the process died. *)
Lemma cmd_start_failure_changes_state :
  let run := cmd_start (named_env false true false)
                       ["3000"; "web"; "--method=cloudflare"] empty_world in
  run.1 = Exit 1
  ∧ files run.2 !! record_file "web" = None
  ∧ configs empty_world !! "devbox-config.yml" = None
  ∧ configs run.2 !! "devbox-config.yml"
    = Some {| tunnel := "devbox";
              credentials_file := "/home/dev/.cloudflared/7f3a.json";
              ingress := [rule_for "web-devbox.example.com" "3000"; catch_all] |}
  ∧ files empty_world !! "devbox.log" = None
  ∧ files run.2 !! "devbox.log" = Some "ERR failed to connect".
Proof. vm_compute. repeat split; reflexivity. Qed.

(** ** The order of the routed launcher's steps *)

(** C9, as the code has it.  The DNS route is requested before the
    credentials file is looked for: when the launcher reaches the
    credentials check and the file is absent, it returns 1 with the
    credentials error, the DNS route request is the last external command
    it ran, and it has written no file or configuration and started no
    process. *)
Theorem named_launcher_missing_credentials (E : Env) (local_port name : string)
    (w : World) :
  let machine_name := get_machine_name E in
  let tunnel_name := or_default (CLOUDFLARE_TUNNEL_NAME E) machine_name in
  let host := name +:+ "-" +:+ machine_name +:+ "." +:+ CLOUDFLARE_TUNNEL_DOMAIN E in
  let creds_file := CLOUDFLARED_CONFIG_DIR E +:+ "/"
                    +:+ cf_tunnel_id E tunnel_name +:+ ".json" in
  let run := start_cloudflare_named E local_port name w in
  is_empty (CLOUDFLARE_TUNNEL_DOMAIN E) = false →
  cf_tunnel_listed E tunnel_name || cf_tunnel_create E tunnel_name = true →
  is_empty (cf_tunnel_id E tunnel_name) = false →
  creds_exists E creds_file = false →
  run.1 = Ret 1%nat
  ∧ last (trace run.2) = Some (RouteDns tunnel_name host)
  ∧ last (out run.2) = Some (Error ("Credentials file not found: " +:+ creds_file))
  ∧ files run.2 = files w ∧ configs run.2 = configs w ∧ procs run.2 = procs w.
Proof.
  intros machine_name tunnel_name host creds_file run Hdomain Htunnel Hid Hcreds.
  subst run. unfold start_cloudflare_named, ensure_tunnel, ensure_dns_route.
  fold machine_name. fold tunnel_name. rewrite Hdomain. fold host.
  fold creds_file. rewrite Hid. sh_unfold.
  apply orb_true_iff in Htunnel.
  destruct (cf_tunnel_listed E tunnel_name) eqn:Hlisted; cbn.
  - rewrite Hcreds. destruct (cf_route_dns E tunnel_name host); cbn;
      rewrite !last_snoc; done.
  - destruct Htunnel as [?|Hcreate]; [done|]. rewrite Hcreate. cbn.
    rewrite Hcreds. destruct (cf_route_dns E tunnel_name host); cbn;
      rewrite !last_snoc; done.
Qed.

Lemma named_launcher_missing_credentials_witness :
  (start_cloudflare_named (named_env false false true) "3000" "web" empty_world).1
  = Ret 1%nat
  ∧ last (trace (start_cloudflare_named (named_env false false true) "3000"
                                        "web" empty_world).2)
    = Some (RouteDns "devbox" "web-devbox.example.com").
Proof.
  destruct (named_launcher_missing_credentials (named_env false false true)
              "3000" "web" empty_world)
    as (Hret & Htrace & _); [reflexivity ..|].
  split; [exact Hret | exact Htrace].
Defined.

(** C9 as stated fails: with the credentials file absent the launcher has
    already asked for the DNS route when it gives up. *)
Lemma dns_route_before_credentials :
  let run := start_cloudflare_named (named_env false false true) "3000" "web"
                                    empty_world in
  run.1 = Ret 1%nat
  ∧ trace run.2 = [RouteDns "devbox" "web-devbox.example.com"]
  ∧ out run.2
    = [Log "Starting Cloudflare named tunnel for port 3000 -> web-devbox.example.com...";
       Error "Credentials file not found: /home/dev/.cloudflared/7f3a.json"].
Proof. vm_compute. repeat split; reflexivity. Qed.

(** ** The routing configuration *)

Lemma filter_other_hostname (host : string) (l : list Rule) :
  filter (λ r, hostname r = Some host) (filter (λ r, hostname r ≠ Some host) l)
  = [].
Proof.
  induction l as [|r l IH]; [done|].
  rewrite (filter_cons (λ r, hostname r ≠ Some host)).
  destruct (decide (hostname r ≠ Some host)) as [Hne|]; [|done].
  rewrite filter_cons. destruct (decide (hostname r = Some host)); [done|].
  exact IH.
Qed.

(** What the rewriting writes when it can: the file of a new tunnel, the
    file as [yq] edits it, or the file rebuilt without [yq]. *)
Lemma update_config_ok (E : Env)
    (config_file tunnel_name creds_file host local_port : string) (w : World) :
  can_update E config_file host local_port w →
  update_config E config_file tunnel_name creds_file host local_port w
  = (Ret tt,
     {| files := files w;
        configs :=
          <[config_file :=
              match configs w !! config_file with
              | Some c =>
                  if has_yq E
                  then yq_prepend_rule (rule_for host local_port)
                         (yq_del_hostname host c)
                  else {| tunnel := tunnel_name; credentials_file := creds_file;
                          ingress := [rule_for host local_port] |}
              | None =>
                  {| tunnel := tunnel_name; credentials_file := creds_file;
                     ingress := [rule_for host local_port; catch_all] |}
              end]> (configs w);
        procs := procs w; next_pid := next_pid w; clock := clock w;
        trace := trace w; out := out w |}).
Proof.
  intros [Hw Hyq]. unfold update_config, write_config. sh_unfold. rewrite Hw.
  destruct (configs w !! config_file) as [c|] eqn:Hc; [|done].
  destruct (has_yq E) eqn:Hhas; [|done].
  destruct (Hyq c eq_refl eq_refl) as [Hdel Hadd].
  rewrite Hdel. cbn. rewrite Hadd. cbn. now rewrite insert_insert_eq.
Qed.

(** Whatever branch rewrites the configuration, the new file names [host]
    in exactly one rule, the one for [local_port]. *)
Lemma update_config_one_rule (E : Env)
    (config_file tunnel_name creds_file host local_port : string) (w : World) :
  can_update E config_file host local_port w →
  ∃ c w', update_config E config_file tunnel_name creds_file host local_port w
          = (Ret tt, w')
          ∧ configs w' !! config_file = Some c
          ∧ rules_for host c = [rule_for host local_port].
Proof.
  intros Hcan. rewrite (update_config_ok _ _ _ _ _ _ _ Hcan).
  eexists _, _. split; [reflexivity|]. cbn.
  split; [apply lookup_insert_eq|]. unfold rules_for.
  destruct (configs w !! config_file) as [c|]; [destruct (has_yq E)|]; cbn.
  - destruct (decide (Some host = Some host)); [|done].
    now rewrite filter_other_hostname.
  - destruct (decide (Some host = Some host)); done.
  - destruct (decide (Some host = Some host)); [|done].
    destruct (decide (None = Some host)); done.
Qed.

(** The catch-all rule ends the new file when the file is created, and
    when [yq] edits a file that it ended. *)
Lemma update_config_catch_all (E : Env)
    (config_file tunnel_name creds_file host local_port : string)
    (w w' : World) (c' : Config) :
  can_update E config_file host local_port w →
  update_config E config_file tunnel_name creds_file host local_port w
  = (Ret tt, w') →
  configs w' !! config_file = Some c' →
  match configs w !! config_file with
  | None => True
  | Some c => has_yq E = true ∧ last (ingress c) = Some catch_all
  end →
  last (ingress c') = Some catch_all.
Proof.
  intros Hcan. rewrite (update_config_ok _ _ _ _ _ _ _ Hcan).
  intros [= <-]. cbn. rewrite lookup_insert_eq. intros [= <-].
  destruct (configs w !! config_file) as [c|] eqn:Hc; [|done].
  intros [-> Hlast]. cbn.
  assert (Hin : last (filter (λ r, hostname r ≠ Some host) (ingress c))
                = Some catch_all).
  { destruct (ingress c) as [|r0 l] using rev_ind; [done|].
    rewrite last_snoc in Hlast. injection Hlast as ->.
    rewrite filter_app, filter_cons. cbn.
    destruct (decide (None ≠ Some host)) as [_|Habs];
      [now rewrite last_snoc | exfalso; apply Habs; discriminate]. }
  destruct (filter _ (ingress c)); [done|]. exact Hin.
Qed.

(** Without [yq] an existing file is replaced by one that holds the rule of
    [host] and nothing else. *)
Lemma update_config_rebuilt (E : Env)
    (config_file tunnel_name creds_file host local_port : string) (w : World)
    (c : Config) :
  configs w !! config_file = Some c → has_yq E = false →
  writable E config_file = true →
  ∃ w', update_config E config_file tunnel_name creds_file host local_port w
        = (Ret tt, w')
        ∧ configs w' !! config_file
          = Some {| tunnel := tunnel_name; credentials_file := creds_file;
                    ingress := [rule_for host local_port] |}.
Proof.
  intros Hc Hyq Hw. unfold update_config, write_config. sh_unfold.
  rewrite Hc, Hyq, Hw.
  eexists; split; [reflexivity|]. apply lookup_insert_eq.
Qed.

(** C2, the launcher run on a restart: the name [web] is started twice in
    succession on a machine without [yq].  Both launches
    succeed; the second one rewrites the file with the rule for [web] alone,
    so the ingress list is no longer ended by the catch-all rule. *)
Theorem routed_restart_without_yq :
  let E := named_env false true true in
  let once := start_cloudflare_named E "3000" "web" empty_world in
  let twice := start_cloudflare_named E "3000" "web" once.2 in
  once.1 = Ret 0%nat
  ∧ configs once.2 !! "devbox-config.yml"
    = Some {| tunnel := "devbox";
              credentials_file := "/home/dev/.cloudflared/7f3a.json";
              ingress := [rule_for "web-devbox.example.com" "3000"; catch_all] |}
  ∧ twice.1 = Ret 0%nat
  ∧ configs twice.2 !! "devbox-config.yml"
    = Some {| tunnel := "devbox";
              credentials_file := "/home/dev/.cloudflared/7f3a.json";
              ingress := [rule_for "web-devbox.example.com" "3000"] |}.
Proof. vm_compute. repeat split; reflexivity. Qed.

(** ** Stopping one routed name *)

(** [stop_tunnel] never writes a routing configuration. *)
Lemma stop_tunnel_configs (E : Env) (name : string) (w w' : World)
    (r : outcome nat) :
  stop_tunnel E name w = (r, w') → configs w' = configs w.
Proof.
  unfold stop_tunnel, tailscale_funnel_off, kill. sh_unfold.
  run_cases; intros [= <- <-]; done.
Qed.

(** For a routed record it also leaves the processes alone and runs no
    external command. *)
Lemma stop_tunnel_named_frame (E : Env) (name text : string) (w w' : World)
    (r : outcome nat) :
  files w !! record_file name = Some text →
  jq E ".method" text = (0%nat, "cloudflare_named") →
  stop_tunnel E name w = (r, w') →
  procs w' = procs w ∧ trace w' = trace w ∧ configs w' = configs w.
Proof.
  intros Hfile Hjq. unfold stop_tunnel. sh_unfold. rewrite Hfile, Hjq. cbn.
  run_cases; intros [= <- <-]; done.
Qed.

(** C4, the stopper run on two routed names served by one process: after
    [stop web] the record of [web] is gone, the process still runs and the
    rule of [api] is in place, but the rule of [web] has not been removed
    from the routing configuration. *)
Theorem stop_named_keeps_ingress_rule :
  let E := named_env true true true in
  let web := start_cloudflare_named E "3000" "web" empty_world in
  let api := start_cloudflare_named E "8080" "api" web.2 in
  let after := stop_tunnel E "web" api.2 in
  web.1 = Ret 0%nat ∧ api.1 = Ret 0%nat ∧ after.1 = Ret 0%nat
  ∧ files after.2 !! record_file "web" = None
  ∧ procs after.2 = procs api.2
  ∧ configs after.2 !! "devbox-config.yml"
    = Some {| tunnel := "devbox";
              credentials_file := "/home/dev/.cloudflared/7f3a.json";
              ingress := [rule_for "api-devbox.example.com" "8080";
                          rule_for "web-devbox.example.com" "3000";
                          catch_all] |}.
Proof. vm_compute. repeat split; reflexivity. Qed.

(** ** Start followed by stop *)

(** Whenever [stop_tunnel] returns, it returns 0 and the record of [name]
    is gone. *)
Lemma stop_tunnel_returned (E : Env) (name : string) (w w' : World) (st : nat) :
  stop_tunnel E name w = (Ret st, w') →
  st = 0%nat ∧ files w' !! record_file name = None.
Proof.
  unfold stop_tunnel, tailscale_funnel_off, kill. sh_unfold.
  run_cases; intros [= <- <-]; cbn; (split; [done|]);
    done || apply lookup_delete_eq.
Qed.

(** Otherwise the script has ended with a non-zero status and the record in
    place: one of the [jq] calls has failed, before any teardown; or the
    process id of a quick tunnel reads as 0 and names no running process,
    and the signal of [kill] has ended the script itself. *)
Lemma stop_tunnel_dichotomy (E : Env) (name text : string) (w w' : World)
    (r : outcome nat) :
  files w !! record_file name = Some text →
  stop_tunnel E name w = (r, w') →
  (r = Ret 0%nat ∧ files w' !! record_file name = None)
  ∨ (∃ st, r = Exit (S st) ∧ files w' = files w ∧ procs w' = procs w
           ∧ trace w' = trace w)
  ∨ ((jq E ".method" text).2 = "cloudflare_quick"
     ∧ own_group (jq E ".pid" text).2 = true
     ∧ r = Exit 143 ∧ files w' = files w ∧ procs w' = procs w
     ∧ trace w' = trace w ++ [Kill (jq E ".pid" text).2]).
Proof.
  intros Hfile. unfold stop_tunnel, tailscale_funnel_off, kill. sh_unfold.
  rewrite Hfile.
  run_cases; intros [= <- <-]; cbn;
    solve [ left; split; [done|apply lookup_delete_eq]
          | right; left; eauto
          | right; right; repeat split; try done; by apply String.eqb_eq ].
Qed.

(** It returns as soon as [jq] can read the record, and the process id of
    a quick tunnel is one. *)
Lemma stop_tunnel_readable (E : Env) (name text : string) (w : World) :
  files w !! record_file name = Some text →
  (∀ filter, filter ∈ [".method"; ".funnel_port"; ".pid"; ".tunnel_name";
                       ".hostname"] → (jq E filter text).1 = 0%nat) →
  ((jq E ".method" text).2 = "cloudflare_quick" →
   is_pid (jq E ".pid" text).2 = true) →
  ∃ w', stop_tunnel E name w = (Ret 0%nat, w')
        ∧ files w' !! record_file name = None.
Proof.
  intros Hfile Hjq Hpid. unfold stop_tunnel, tailscale_funnel_off, kill.
  sh_unfold. rewrite Hfile.
  rewrite (Hjq ".method"), (Hjq ".funnel_port"), (Hjq ".pid"),
    (Hjq ".tunnel_name"), (Hjq ".hostname") by set_solver.
  cbn. destruct (String.eqb _ "tailscale"); cbn.
  { eexists; split; [reflexivity|]. cbn. apply lookup_delete_eq. }
  destruct (String.eqb _ "cloudflare_quick") eqn:Hq; cbn.
  { apply String.eqb_eq in Hq. rewrite (is_pid_not_own_group _ (Hpid Hq)).
    destruct (procs w !! _); cbn; eexists; (split; [reflexivity|]); cbn;
      apply lookup_delete_eq. }
  destruct (String.eqb _ "cloudflare_named"); cbn;
    eexists; (split; [reflexivity|]); cbn; apply lookup_delete_eq.
Qed.

(** C1, the two commands run on a name that holds a double quote.  The
    quick launcher succeeds and writes the record with the name pasted
    between quotes; [jq] cannot read that text, so [stop] ends with the
    status of [jq] before it reaches [rm], and the record is still there
    (and the process still runs). *)
Theorem start_stop_quoted_name :
  let name := "a" +:+ dq +:+ "b" in
  let started := start_cloudflare_quick slow_env "3000" name empty_world in
  let stopped := stop_tunnel slow_env name started.2 in
  started.1 = Ret 0%nat
  ∧ stopped.1 = Exit 2
  ∧ files stopped.2 !! record_file name
    = Some (quick_record name "3000" "https://calm-river.trycloudflare.com" "4000")
  ∧ procs stopped.2 !! "4000"
    = Some "cloudflared tunnel --url http://localhost:3000".
Proof. vm_compute. repeat split; reflexivity. Qed.

(** On a plain name the same two commands leave no record. *)
Example start_stop_plain_name :
  let started := start_cloudflare_quick slow_env "3000" "demo" empty_world in
  let stopped := stop_tunnel slow_env "demo" started.2 in
  started.1 = Ret 0%nat ∧ stopped.1 = Ret 0%nat
  ∧ files stopped.2 !! record_file "demo" = None
  ∧ procs stopped.2 !! "4000" = None.
Proof. vm_compute. repeat split; reflexivity. Qed.

(** [jq] reads what the quick launcher writes for a plain name, so [stop]
    removes the record. *)
Example stop_tunnel_readable_demo :
  ∃ w', stop_tunnel bare_env "demo" quick_world = (Ret 0%nat, w')
        ∧ files w' !! record_file "demo" = None.
Proof.
  apply (stop_tunnel_readable bare_env "demo" _ quick_world eq_refl).
  - intros f Hf. repeat (apply elem_of_cons in Hf as [->|Hf]; [reflexivity|]).
    by apply elem_of_nil in Hf.
  - reflexivity.
Qed.

(** ** Stopping everything *)

Lemma has_suffix_app (suf s : string) : has_suffix suf (s +:+ suf) = true.
Proof.
  induction s as [|a s IH].
  - change ("" +:+ suf) with suf. destruct suf; cbn; [done|].
    now rewrite Ascii.eqb_refl, String.eqb_refl.
  - change (String a s +:+ suf) with (String a (s +:+ suf)).
    cbn [has_suffix]. rewrite IH. now destruct (String.eqb _ _).
Qed.

Lemma has_slash_app (s t : string) :
  has_slash (s +:+ t) = has_slash s || has_slash t.
Proof.
  induction s as [|a s IH]; [done|].
  change (String a s +:+ t) with (String a (s +:+ t)). cbn [has_slash].
  rewrite IH. now destruct (Ascii.eqb a "/").
Qed.

(** The pattern matches the record of every name that has no slash and
    begins with a character other than a dot. *)
Lemma glob_json_record (c : ascii) (rest : string) :
  c ≠ "."%char → has_slash (String c rest) = false →
  glob_json (record_file (String c rest)) = true.
Proof.
  intros Hdot Hslash. unfold record_file, glob_json.
  rewrite has_slash_app, Hslash, has_suffix_app.
  change (String c rest +:+ ".json") with (String c (rest +:+ ".json")).
  cbn. apply Ascii.eqb_neq in Hdot. now rewrite Hdot.
Qed.

(** It does not match the record of a name that begins with a dot. *)
Lemma glob_json_hidden (rest : string) :
  glob_json (record_file (String "." rest)) = false.
Proof. reflexivity. Qed.

(** Whatever the teardown commands answer, [stop_all_tunnels] returns 0,
    no file that the pattern matches is left, and every other file is as it
    was. *)
Lemma stop_all_tunnels_spec (E : Env) (w : World) :
  ∃ w', stop_all_tunnels E w = (Ret 0%nat, w')
        ∧ (∀ f, glob_json f = true → files w' !! f = None)
        ∧ (∀ f, glob_json f = false → files w' !! f = files w !! f)
        ∧ configs w' = configs w.
Proof.
  unfold stop_all_tunnels, tailscale_funnel_reset, pkill_f. sh_unfold.
  run_cases; eexists; (split; [reflexivity|]); cbn; repeat split.
  all: intros f Hf.
  all: try (apply map_lookup_filter_None; right; intros v _; cbn; congruence).
  all: destruct (files w !! f) as [v|] eqn:Hv;
    [apply map_lookup_filter_Some; done
    |apply map_lookup_filter_None; left; done].
Qed.

(** C7, the reset run on a store that holds the record of the name [.x]:
    the shell pattern [*.json] does not match a name that begins with a
    dot, so [stop_all_tunnels] returns 0 and the record is still there. *)
Theorem stop_all_keeps_hidden_record :
  let started := start_cloudflare_quick slow_env "3000" ".x" empty_world in
  let reset := stop_all_tunnels slow_env started.2 in
  started.1 = Ret 0%nat
  ∧ reset.1 = Ret 0%nat
  ∧ procs reset.2 = ∅
  ∧ files reset.2 !! record_file ".x"
    = Some (quick_record ".x" "3000" "https://calm-river.trycloudflare.com" "4000").
Proof. vm_compute. repeat split; reflexivity. Qed.

(** * More of the script *)

(** ** Detection *)

Lemma strip_nl_empty (s : string) : is_empty (strip_nl s) = only_nl s.
Proof.
  induction s as [|c s IH]; [done|]. cbn.
  destruct (Ascii.eqb c "010"); cbn; [|done].
  rewrite <- IH. now destruct (is_empty (strip_nl s)).
Qed.

(** [$(echo "$s")] is empty exactly when [echo] does not print the word. *)
Lemma echoed_empty (s : string) : is_empty (echoed s) = negb (prints s).
Proof.
  unfold echoed, prints. destruct (is_echo_option s); cbn; [done|].
  rewrite strip_nl_empty. now destruct (only_nl s).
Qed.

Lemma recommended_cases (E : Env) :
  recommended E
  = if named_ready E then "cloudflare_named"
    else if funnel_ready E then "tailscale"
    else "cloudflare_quick".
Proof.
  unfold recommended, named_ready, funnel_ready, check_cloudflare,
    check_tailscale, get_cloudflare_domain. rewrite echoed_empty, negb_involutive.
  destruct (has_cloudflared E), (cf_list_ok E),
    (prints (CLOUDFLARE_TUNNEL_DOMAIN E)), (has_tailscale E); cbn; try done.
  all: destruct (String.eqb (ts_BackendState E) "Running") eqn:Hrun; cbn;
    try done.
  all: destruct (String.eqb (ts_BackendState E) "NeedsLogin"); done.
Qed.

(** X1.  The recommended method is [cloudflare_named] exactly when
    cloudflared is installed and authenticated and [echo] prints the domain
    (the variable is no option word of [echo] and holds more than line
    breaks), whatever the state of tailscale; otherwise it is [tailscale]
    exactly when tailscale is installed and running; otherwise it is
    [cloudflare_quick]. *)
Theorem recommended_priority (E : Env) :
  (recommended E = "cloudflare_named" ↔ named_ready E = true)
  ∧ (recommended E = "tailscale"
     ↔ named_ready E = false ∧ funnel_ready E = true)
  ∧ (recommended E = "cloudflare_quick"
     ↔ named_ready E = false ∧ funnel_ready E = false).
Proof.
  rewrite recommended_cases.
  destruct (named_ready E), (funnel_ready E); repeat split; intros; try done;
    destruct_and?; done.
Qed.

(** With the domain [-n] the routed tunnel is not recommended, although
    the routed launcher itself would take that domain. *)
Example recommended_option_domain :
  recommended (with_env_names "" "-n" (named_env true true true))
  = "cloudflare_quick"
  ∧ is_empty (CLOUDFLARE_TUNNEL_DOMAIN
                (with_env_names "" "-n" (named_env true true true))) = false.
Proof. split; reflexivity. Qed.

(** X3.  The machine name is not empty when [echo] prints the name it is
    given (the override if there is one, else the name that tailscale
    gives) and [hostname -s] does not succeed with an empty answer; it is
    empty when there is an override that [echo] does not print, such as
    [-n]. *)
Theorem get_machine_name_not_empty (E : Env) :
  ((is_empty (TUNNEL_MACHINE_NAME E) = false →
    prints (TUNNEL_MACHINE_NAME E) = true) →
   (is_empty (TUNNEL_MACHINE_NAME E) = true → has_tailscale E = true →
    is_empty (ts_HostName E) = false → prints (ts_HostName E) = true) →
   hostname_s E ≠ Some "" →
   is_empty (get_machine_name E) = false)
  ∧ (is_empty (TUNNEL_MACHINE_NAME E) = false →
     prints (TUNNEL_MACHINE_NAME E) = false →
     get_machine_name E = "").
Proof.
  unfold get_machine_name. split.
  - intros Hname Hts Hhost.
    destruct (is_empty (TUNNEL_MACHINE_NAME E)) eqn:H1; cbn.
    + destruct (has_tailscale E); cbn.
      * destruct (is_empty (ts_HostName E)) eqn:H2; cbn.
        -- destruct (hostname_s E) as [[|]|]; done.
        -- rewrite echoed_empty, Hts; done.
      * destruct (hostname_s E) as [[|]|]; done.
    + rewrite echoed_empty, Hname; done.
  - intros -> Hno. cbn. apply is_empty_true. rewrite echoed_empty, Hno. done.
Qed.

Lemma get_machine_name_not_empty_witness :
  is_empty (get_machine_name bare_env) = false
  ∧ get_machine_name (with_env_names "-n" "" bare_env) = "".
Proof.
  split.
  - apply (proj1 (get_machine_name_not_empty bare_env)); discriminate.
  - apply (proj2 (get_machine_name_not_empty (with_env_names "-n" "" bare_env)));
      reflexivity.
Defined.

(** ** The arguments of [start] *)

Lemma parse_options_filled (args : list string) (port name method : string) :
  is_empty port = false → is_empty name = false →
  parse_options args port name method
  = (port, name,
     foldl (λ method a, if String.prefix "--method=" a then after_first_eq a
                        else method) method args).
Proof.
  intros Hport Hname. revert method.
  induction args as [|a rest IH]; intros method; [done|].
  cbn [parse_options foldl]. destruct (String.prefix "--method=" a).
  - apply IH.
  - rewrite Hport, Hname. apply IH.
Qed.

(** X4.  When [start] is given two or more arguments and the first two are
    not empty, the first is the port and the second is the name, even when
    one of them is an option; further plain arguments are ignored, and the
    method is the value of the last [--method=] option of the command
    line. *)
Theorem parse_options_positional (a0 a1 : string) (rest : list string) :
  is_empty a0 = false → is_empty a1 = false →
  parse_options (a0 :: a1 :: rest) a0 a1 "" = (a0, a1, last_method (a0 :: a1 :: rest)).
Proof. intros H0 H1. now apply parse_options_filled. Qed.

Lemma parse_options_positional_witness :
  parse_options ["3000"; "web"; "--method=tailscale"; "extra"; "--method=quick"]
                "3000" "web" ""
  = ("3000", "web", "quick").
Proof.
  exact (parse_options_positional "3000" "web"
           ["--method=tailscale"; "extra"; "--method=quick"] eq_refl eq_refl).
Defined.

(** X5.  Given the port alone, [start] names the tunnel after the port
    itself: the option loop stores the first argument as the name too, so
    the default [app-PORT] is not used.  The method is then the one [jq]
    reads in the detection report. *)
Theorem cmd_start_port_only (E : Env) (port report method : string) (w : World) :
  is_empty port = false →
  String.prefix "--method=" port = false →
  cmd_detect E = (0%nat, report) →
  jq E ".recommended" (echo_text report) = (0%nat, method) →
  (cmd_start_prepare E [port] w).1 = Ret (port, port, method).
Proof.
  intros Hport Hopt Hdetect Hjq. unfold cmd_start_prepare.
  cbn [nth parse_options]. rewrite Hopt, Hport. cbn [is_empty parse_options].
  rewrite Hport. unfold or_default. rewrite Hport. cbn [is_empty].
  rewrite Hdetect. sh_unfold. cbn. rewrite Hjq. cbn.
  destruct (ss_grep E port); done.
Qed.

Lemma cmd_start_port_only_witness :
  (cmd_start_prepare report_env ["3000"] empty_world).1
  = Ret ("3000", "3000", "cloudflare_quick").
Proof.
  exact (cmd_start_port_only report_env "3000"
           (detect_json report_env +:+ nl) "cloudflare_quick" empty_world
           eq_refl eq_refl eq_refl eq_refl).
Defined.

(** X2.  Without a [--method] option, and when [jq] reads in the report the
    recommendation that the detection has put there, [start] dispatches to
    a launcher, never to the "Unknown method" branch: to the routed
    launcher when the routed tunnel is ready, else to the funnel launcher
    on port 443 when tailscale is ready, else to the quick launcher. *)
Theorem recommended_launcher (E : Env) (args : list string)
    (port name report : string) (w : World) :
  let start := if named_ready E then start_cloudflare_named E
               else if funnel_ready E
                    then fun port name => start_tailscale_funnel E port name ""
                    else start_cloudflare_quick E in
  parse_options args (nth 0 args "") (nth 1 args "") "" = (port, name, "") →
  is_empty port = false →
  cmd_detect E = (0%nat, report) →
  jq E ".recommended" (echo_text report) = (0%nat, recommended E) →
  launcher E (recommended E) = Some start
  ∧ ∃ w1, cmd_start_prepare E args w
          = (Ret (port, or_default name ("app-" +:+ port), recommended E), w1)
          ∧ cmd_start E args w
            = (errexit (start port (or_default name ("app-" +:+ port))) ;;
               ret 0%nat) w1.
Proof.
  intros start Hparse Hport Hdetect Hjq.
  assert (Hl : launcher E (recommended E) = Some start).
  { subst start. rewrite recommended_cases.
    destruct (named_ready E); [done|]. destruct (funnel_ready E); done. }
  split; [exact Hl|].
  assert (Hprep : ∃ w1, cmd_start_prepare E args w
            = (Ret (port, or_default name ("app-" +:+ port), recommended E), w1)).
  { unfold cmd_start_prepare. rewrite Hparse, Hport. cbn [is_empty].
    rewrite Hdetect. sh_unfold. cbn. rewrite Hjq. cbn.
    destruct (ss_grep E port); cbn; eauto. }
  destruct Hprep as (w1 & Hprep). exists w1. split; [exact Hprep|].
  unfold cmd_start. erewrite bind_ret_eq by exact Hprep. cbn. now rewrite Hl.
Qed.

Lemma recommended_launcher_witness :
  ∃ w1, cmd_start report_env ["3000"] empty_world
        = (errexit (start_cloudflare_quick report_env "3000" "3000") ;;
           ret 0%nat) w1.
Proof.
  destruct (recommended_launcher report_env ["3000"] "3000" "3000"
              (detect_json report_env +:+ nl) empty_world
              eq_refl eq_refl eq_refl eq_refl) as (_ & w1 & _ & Hrun).
  exists w1. exact Hrun.
Defined.

(** X6.  A method that is none of the five accepted words ends [start] with
    status 1 after the two messages, before any launcher runs: no file,
    configuration or process is touched and no external command is run. *)
Theorem cmd_start_unknown_method (E : Env) (args : list string)
    (port name method : string) (w w1 : World) :
  cmd_start_prepare E args w = (Ret (port, name, method), w1) →
  launcher E method = None →
  let w' := printed (Echo "Available methods: tailscale, cloudflare, cloudflare_quick")
              (printed (Error ("Unknown method: " +:+ method)) w1) in
  cmd_start E args w = (Exit 1, w')
  ∧ files w' = files w ∧ configs w' = configs w ∧ procs w' = procs w
  ∧ trace w' = trace w.
Proof.
  intros Hprep Hl w'. split.
  - unfold cmd_start. erewrite bind_ret_eq by exact Hprep. cbn. now rewrite Hl.
  - destruct (cmd_start_prepare_frame _ _ _ _ _ Hprep) as (? & ? & ? & ?).
    done.
Qed.

Lemma cmd_start_unknown_method_witness :
  cmd_start bare_env ["3000"; "web"; "--method=ngrok"] empty_world
  = (Exit 1,
     printed (Echo "Available methods: tailscale, cloudflare, cloudflare_quick")
       (printed (Error "Unknown method: ngrok")
          (printed (Echo "Make sure your dev server is running first")
             (printed (Warning "Nothing is listening on port 3000") empty_world)))).
Proof.
  exact (proj1 (cmd_start_unknown_method bare_env
                  ["3000"; "web"; "--method=ngrok"] "3000" "web" "ngrok"
                  empty_world _ eq_refl eq_refl)).
Defined.

(** ** Listing *)

Lemma with_out_with_out (l1 l2 : list line) (w : World) :
  with_out l2 (with_out l1 w) = with_out (l1 ++ l2) w.
Proof. unfold with_out. cbn. now rewrite app_assoc. Qed.

Lemma with_out_nil (w : World) : with_out [] w = w.
Proof. destruct w. unfold with_out. cbn. now rewrite app_nil_r. Qed.

(** The names the pattern matches are the matching keys of the directory. *)
Lemma elem_of_glob_matches (E : Env) (fs : gmap string string) (f : string) :
  f ∈ merge_sort (λ a b, collate E a b)
        (filter (λ f, glob_json f = true) (map_to_list fs).*1)
  ↔ glob_json f = true ∧ is_Some (fs !! f).
Proof.
  rewrite merge_sort_Permutation, list_elem_of_filter, list_elem_of_fmap.
  split.
  - intros (Hglob & [k v] & -> & Hin). split; [done|].
    apply elem_of_map_to_list in Hin. eauto.
  - intros (Hglob & v & Hv). split; [done|].
    exists (f, v). split; [done|]. now apply elem_of_map_to_list.
Qed.

Lemma elem_of_glob_expand (E : Env) (fs : gmap string string) (f : string) :
  (∃ g, glob_json g = true ∧ is_Some (fs !! g)) →
  f ∈ glob_expand E fs ↔ glob_json f = true ∧ is_Some (fs !! f).
Proof.
  intros (g & Hg). apply (elem_of_glob_matches E) in Hg.
  unfold glob_expand. rewrite <- (elem_of_glob_matches E).
  destruct (merge_sort _ _); [|done]. now apply elem_of_nil in Hg.
Qed.

Lemma glob_expand_none (E : Env) (fs : gmap string string) :
  (∀ f, glob_json f = true → fs !! f = None) →
  glob_expand E fs = ["*.json"].
Proof.
  intros Hnone. unfold glob_expand.
  destruct (merge_sort _ _) as [|f l] eqn:Hsort; [done|].
  assert (Hin : f ∈ f :: l) by left. rewrite <- Hsort in Hin.
  apply elem_of_glob_matches in Hin as (Hglob & v & Hv).
  rewrite (Hnone f Hglob) in Hv. discriminate.
Qed.

Lemma list_records_frame (E : Env) (state_files : list string) (found : bool)
    (w w' : World) (r : outcome bool) :
  list_records E state_files found w = (r, w') →
  files w' = files w ∧ configs w' = configs w ∧ procs w' = procs w
  ∧ trace w' = trace w ∧ clock w' = clock w.
Proof.
  revert found w. induction state_files as [|f rest IH]; intros found w.
  - cbn. intros [= <- <-]. done.
  - cbn [list_records]. sh_unfold.
    destruct (files w !! f) as [text|]; [|apply IH].
    destruct (jq E ".name" text) as [[|?] ?]; cbn; [|by intros [= <- <-]].
    destruct (jq E ".method" text) as [[|?] ?]; cbn; [|by intros [= <- <-]].
    destruct (jq E ".url" text) as [[|?] ?]; cbn; [|by intros [= <- <-]].
    destruct (jq E ".local_port" text) as [[|?] ?]; cbn; [|by intros [= <- <-]].
    intros Hrun. apply IH in Hrun. cbn in Hrun. done.
Qed.

(** X7.  [list_tunnels] only reads and prints: whatever the records hold and
    however it ends, the files, configurations and processes are what they
    were and no external command has been run. *)
Theorem list_tunnels_read_only (E : Env) (w w' : World) (r : outcome nat) :
  list_tunnels E w = (r, w') →
  files w' = files w ∧ configs w' = configs w ∧ procs w' = procs w
  ∧ trace w' = trace w.
Proof.
  unfold list_tunnels. sh_unfold. cbn.
  match goal with |- context [list_records E ?fs false ?w0] =>
    destruct (list_records E fs false w0) as [r0 w0'] eqn:Hrun end.
  apply list_records_frame in Hrun. cbn in Hrun.
  destruct Hrun as (? & ? & ? & ? & ?).
  destruct r0 as [[|]| |]; cbn; intros [= <- <-]; done.
Qed.

Lemma list_tunnels_read_only_witness :
  files (list_tunnels bare_env (world_with_file "web.json" ngrok_record)).2
  = files (world_with_file "web.json" ngrok_record).
Proof.
  exact (proj1 (list_tunnels_read_only bare_env
                  (world_with_file "web.json" ngrok_record) _ _
                  (surjective_pairing _))).
Defined.

Lemma list_tunnels_no_match (E : Env) (w : World) :
  (∀ f, glob_json f = true → files w !! f = None) →
  list_tunnels E w
  = (Ret 0%nat,
     with_out [Echo ""; Echo "Active Tunnels"; Echo "==============";
               Echo ""; Echo "No active tunnels"; Echo ""] w).
Proof.
  intros Hnone. unfold list_tunnels. sh_unfold. cbn.
  rewrite (glob_expand_none _ _ Hnone). cbn. rewrite (Hnone "*.json") by done.
  cbn. unfold with_out. now rewrite <- !app_assoc.
Qed.

(** X8.  When no file of the state directory matches [*.json] (records of
    names that begin with a dot do not match), [list_tunnels] prints the
    heading and "No active tunnels" and returns 0. *)
Theorem list_tunnels_empty (E : Env) (w : World) :
  (∀ f, glob_json f = true → files w !! f = None) →
  list_tunnels E w
  = (Ret 0%nat,
     with_out [Echo ""; Echo "Active Tunnels"; Echo "==============";
               Echo ""; Echo "No active tunnels"; Echo ""] w).
Proof. apply list_tunnels_no_match. Qed.

Lemma list_tunnels_empty_witness :
  list_tunnels bare_env (world_with_file ".x.json" ngrok_record)
  = (Ret 0%nat,
     with_out [Echo ""; Echo "Active Tunnels"; Echo "==============";
               Echo ""; Echo "No active tunnels"; Echo ""]
              (world_with_file ".x.json" ngrok_record)).
Proof.
  apply list_tunnels_empty. intros f Hglob.
  apply lookup_singleton_None. intros <-. discriminate.
Defined.

Lemma list_records_readable (E : Env) (state_files : list string) (found : bool)
    (w : World) :
  (∀ f text, f ∈ state_files → files w !! f = Some text → readable E text) →
  list_records E state_files found w
  = (Ret (found || existsb (λ f, bool_decide (is_Some (files w !! f))) state_files),
     with_out (flat_map (λ f, from_option (record_block E) [] (files w !! f))
                        state_files) w).
Proof.
  revert found w. induction state_files as [|f rest IH]; intros found w Hread.
  - cbn. now rewrite orb_false_r, with_out_nil.
  - cbn [list_records existsb flat_map]. sh_unfold.
    destruct (files w !! f) as [text|] eqn:Hf; cbn.
    + destruct (Hread f text) as (H1 & H2 & H3 & H4); [left|done|].
      destruct (jq E ".name" text) as [s1 o1], (jq E ".method" text) as [s2 o2],
        (jq E ".url" text) as [s3 o3], (jq E ".local_port" text) as [s4 o4].
      cbn in *. subst. cbn.
      rewrite IH.
      * cbn. rewrite orb_true_r. f_equal.
        unfold with_out. cbn. now rewrite <- !app_assoc.
      * intros g t Hg. cbn. apply Hread. now right.
    + rewrite IH; [done|].
      intros g t Hg. apply Hread. now right.
Qed.

(** X9.  When [jq] can read every file that matches [*.json],
    [list_tunnels] returns 0 having printed the heading, then for each
    matching file, in the order of the expansion (the order in which the
    locale sorts the names), the five lines made of
    its name, method, local port and URL as [jq] reads them, and a closing
    empty line; the files listed are exactly the files of the directory
    that match the pattern. *)
Theorem list_tunnels_lists (E : Env) (w : World) :
  (∀ f text, glob_json f = true → files w !! f = Some text → readable E text) →
  (∃ f, glob_json f = true ∧ is_Some (files w !! f)) →
  list_tunnels E w
  = (Ret 0%nat,
     with_out ([Echo ""; Echo "Active Tunnels"; Echo "=============="]
               ++ flat_map (λ f, from_option (record_block E) [] (files w !! f))
                           (glob_expand E (files w))
               ++ [Echo ""]) w)
  ∧ ∀ f, f ∈ glob_expand E (files w) ↔ glob_json f = true ∧ is_Some (files w !! f).
Proof.
  intros Hread Hsome. split; [|intros f; now apply elem_of_glob_expand].
  unfold list_tunnels.
  erewrite bind_ret_eq by reflexivity.
  erewrite bind_ret_eq by reflexivity.
  erewrite bind_ret_eq by reflexivity.
  erewrite bind_ret_eq by reflexivity.
  cbn [files configs procs next_pid clock trace out].
  erewrite bind_ret_eq.
  2:{ apply list_records_readable. cbn. intros f text Hin Hf.
      apply (elem_of_glob_expand _ _ _ Hsome) in Hin as [Hglob _]. eauto. }
  cbn [files].
  assert (Hfound : existsb (λ f, bool_decide (is_Some (files w !! f)))
                           (glob_expand E (files w)) = true).
  { destruct Hsome as (g & Hg). apply existsb_exists. exists g. split.
    - apply list_elem_of_In. apply elem_of_glob_expand; eauto.
    - apply bool_decide_eq_true. apply Hg. }
  rewrite Hfound. cbn. sh_unfold. cbn. unfold with_out. cbn.
  now rewrite <- !app_assoc.
Qed.

Lemma list_tunnels_lists_witness :
  list_tunnels bare_env (world_with_file "web.json" ngrok_record)
  = (Ret 0%nat,
     with_out [Echo ""; Echo "Active Tunnels"; Echo "==============";
               Echo ""; Echo (CYAN +:+ "web" +:+ NC); Echo "  Method: ngrok";
               Echo "  Local:  http://localhost:null"; Echo "  Public: null";
               Echo ""]
              (world_with_file "web.json" ngrok_record)).
Proof.
  refine (proj1 (list_tunnels_lists bare_env
                   (world_with_file "web.json" ngrok_record) _ _)).
  - intros f text _ Hf. cbn [world_with_file files] in Hf.
    apply lookup_singleton_Some in Hf as [_ <-].
    repeat split; reflexivity.
  - exists "web.json". split; [reflexivity|]. eexists. reflexivity.
Defined.

Lemma list_records_unreadable (E : Env) (state_files : list string) (found : bool)
    (w : World) (f text : string) :
  f ∈ state_files → files w !! f = Some text → ¬ readable E text →
  ∃ st w', list_records E state_files found w = (Exit (S st), w').
Proof.
  revert found w. induction state_files as [|g rest IH];
    intros found w Hin Hf Hbad; [by apply elem_of_nil in Hin|].
  cbn [list_records]. sh_unfold.
  destruct (files w !! g) as [text'|] eqn:Hg; cbn.
  - destruct (jq E ".name" text') as [[|?] ?] eqn:J1; cbn; [|by eexists _, _].
    destruct (jq E ".method" text') as [[|?] ?] eqn:J2; cbn; [|by eexists _, _].
    destruct (jq E ".url" text') as [[|?] ?] eqn:J3; cbn; [|by eexists _, _].
    destruct (jq E ".local_port" text') as [[|?] ?] eqn:J4; cbn;
      [|by eexists _, _].
    apply elem_of_cons in Hin as [->|Hin].
    + exfalso. apply Hbad. rewrite Hf in Hg. injection Hg as ->.
      unfold readable. now rewrite J1, J2, J3, J4.
    + apply IH; done.
  - apply elem_of_cons in Hin as [->|Hin]; [congruence|].
    apply IH; done.
Qed.

(** X10.  One unreadable record stops the listing: when [jq] fails on a
    field of a file that matches [*.json], [list_tunnels] ends the script
    with a non-zero status instead of listing the other records; the files
    are untouched. *)
Theorem list_tunnels_unreadable (E : Env) (w : World) (f text : string) :
  glob_json f = true → files w !! f = Some text → ¬ readable E text →
  ∃ st w', list_tunnels E w = (Exit (S st), w') ∧ files w' = files w.
Proof.
  intros Hglob Hf Hbad.
  unfold list_tunnels.
  erewrite bind_ret_eq by reflexivity.
  erewrite bind_ret_eq by reflexivity.
  erewrite bind_ret_eq by reflexivity.
  erewrite bind_ret_eq by reflexivity.
  cbn [files configs procs next_pid clock trace out].
  match goal with |- context [bind (list_records E ?fs false) _ ?w0] =>
    destruct (list_records_unreadable E fs false w0 f text) as (st & w1 & Hl)
  end; [|done|done|].
  { apply elem_of_glob_expand; eauto. }
  unfold bind at 1. rewrite Hl. exists st, w1. split; [done|].
  apply list_records_frame in Hl as (Hfiles & _). exact Hfiles.
Qed.

Lemma list_tunnels_unreadable_witness :
  ∃ st w', list_tunnels bare_env (world_with_file "web.json" broken_record)
           = (Exit (S st), w')
           ∧ files w' = files (world_with_file "web.json" broken_record).
Proof.
  apply (list_tunnels_unreadable bare_env _ "web.json" broken_record);
    [reflexivity | reflexivity |].
  intros (H & _). discriminate H.
Defined.

(** ** The entry point and the funnel ports *)

Lemma echo_all_out (ls : list string) (w : World) :
  echo_all ls w = (Ret tt, with_out (Echo <$> ls) w).
Proof.
  revert w. induction ls as [|l rest IH]; intros w.
  - cbn. now rewrite with_out_nil.
  - cbn [echo_all fmap list_fmap]. erewrite bind_ret_eq by reflexivity.
    rewrite IH. f_equal. unfold with_out. cbn. now rewrite <- app_assoc.
Qed.

(** X11.  A first word that is not one of the six commands, or no word at
    all, makes the script print its usage text and return 0; nothing else
    happens, whatever the handler of [find-port] is. *)
Theorem main_unknown_command (find_port_words : list string → sh nat) (E : Env)
    (args : list string) (w : World) :
  nth 0 args "" ∉ commands →
  main find_port_words E args w = (Ret 0%nat, with_out (Echo <$> usage) w).
Proof.
  intros Hcmd. unfold main.
  repeat match goal with
  | |- context [String.eqb (nth 0 args "") ?c] =>
      replace (String.eqb (nth 0 args "") c) with false
        by (symmetry; apply String.eqb_neq; intros Heq; apply Hcmd;
            rewrite Heq; unfold commands; set_solver)
  end.
  erewrite bind_ret_eq by apply echo_all_out. reflexivity.
Qed.

Lemma main_unknown_command_witness :
  main (fun _ => ret 0%nat) bare_env [] empty_world
  = (Ret 0%nat, with_out (Echo <$> usage) empty_world)
  ∧ main (fun _ => ret 0%nat) bare_env ["status"; "web"] empty_world
    = (Ret 0%nat, with_out (Echo <$> usage) empty_world).
Proof.
  split; apply main_unknown_command; cbn; unfold commands;
    intros H; repeat (apply elem_of_cons in H as [H|H]; [discriminate|]);
    by apply elem_of_nil in H.
Defined.

(** X12.  Without a tailscale name the port list is the text [[]].  With
    one, the ports handed to the JSON printer are never none: they are
    exactly the ports among 443, 8443 and 10000, in that order, that no
    funnel uses, or all three when every one of them is in use. *)
Theorem available_ports_spec (funnel_configured : string → string → bool)
    (json_array : list string → string) (E : Env) :
  (is_empty (ts_DNSName E) = true →
   get_available_tailscale_ports funnel_configured json_array E = "[]")
  ∧ (is_empty (ts_DNSName E) = false →
     ∃ ports,
       get_available_tailscale_ports funnel_configured json_array E
       = json_array ports
       ∧ ports ≠ []
       ∧ sublist ports ["443"; "8443"; "10000"]
       ∧ ∀ p, p ∈ ports
              ↔ p ∈ ["443"; "8443"; "10000"]
                ∧ (funnel_configured (ts_DNSName E) p = false
                   ∨ ∀ q, q ∈ ["443"; "8443"; "10000"] →
                          funnel_configured (ts_DNSName E) q = true)).
Proof.
  unfold get_available_tailscale_ports. split; intros Hhost; rewrite Hhost;
    [done|].
  set (every := ["443"; "8443"; "10000"]).
  destruct (filter _ every) as [|x l] eqn:Hfree.
  - assert (Hall : ∀ q, q ∈ every → funnel_configured (ts_DNSName E) q = true).
    { intros q Hq. destruct (funnel_configured (ts_DNSName E) q) eqn:Hc; [done|].
      assert (Hin : q ∈ filter (λ port, funnel_configured (ts_DNSName E) port = false)
                               every) by (apply list_elem_of_filter; done).
      rewrite Hfree in Hin. by apply elem_of_nil in Hin. }
    exists every. repeat split; [done|done|tauto|auto|tauto].
  - exists (x :: l). split; [done|]. split; [done|]. split.
    + rewrite <- Hfree. apply sublist_filter.
    + intros p. rewrite <- Hfree, list_elem_of_filter. split.
      * intros [Hp Hin]. auto.
      * intros [Hin [Hp|Hall]]; [done|]. exfalso.
        assert (Hx : x ∈ filter (λ port, funnel_configured (ts_DNSName E) port = false)
                                every) by (rewrite Hfree; left).
        apply list_elem_of_filter in Hx as [Hx Hxin].
        rewrite (Hall x Hxin) in Hx. discriminate.
Qed.

Lemma available_ports_spec_witness :
  get_available_tailscale_ports (fun _ port => String.eqb port "443")
                                join_lines funnel_env
  = join_lines ["8443"; "10000"]
  ∧ get_available_tailscale_ports (fun _ _ => true) join_lines funnel_env
    = join_lines ["443"; "8443"; "10000"]
  ∧ get_available_tailscale_ports (fun _ _ => true) join_lines bare_env = "[]".
Proof.
  split; [|split].
  - destruct (proj2 (available_ports_spec (fun _ port => String.eqb port "443")
                       join_lines funnel_env) eq_refl) as (ports & _).
    reflexivity.
  - destruct (proj2 (available_ports_spec (fun _ _ => true) join_lines
                       funnel_env) eq_refl) as (ports & _).
    reflexivity.
  - exact (proj1 (available_ports_spec (fun _ _ => true) join_lines bare_env)
                 eq_refl).
Defined.

(** ** The funnel launcher *)

(** X13.  The funnel launcher gives up, without running the funnel command,
    when tailscale has no name for the machine; otherwise it runs the
    command once, on port 443 unless a third argument names another port,
    and fails with no file written when the command fails.  When the
    command succeeds and the record file can be written, it writes the
    record of [name] (method, name, ports, URL and host) and prints the
    URL, which carries the funnel port only when that port is not 443;
    when the record file cannot be written the script ends there with
    status 1, the funnel switched on and no file written. *)
Theorem start_tailscale_funnel_spec (E : Env) (local_port name arg3 : string)
    (w : World) :
  let funnel_port := or_default arg3 "443" in
  let ts_host := ts_DNSName E in
  let url := if String.eqb funnel_port "443" then "https://" +:+ ts_host
             else ("https://" +:+ ts_host) +:+ ":" +:+ funnel_port in
  let run := start_tailscale_funnel E local_port name arg3 w in
  (is_empty ts_host = true →
   run.1 = Ret 1%nat ∧ trace run.2 = trace w ∧ files run.2 = files w)
  ∧ (is_empty ts_host = false → funnel_on E funnel_port local_port = false →
     run.1 = Ret 1%nat
     ∧ trace run.2 = trace w ++ [FunnelOn funnel_port local_port]
     ∧ files run.2 = files w)
  ∧ (is_empty ts_host = false → funnel_on E funnel_port local_port = true →
     writable E (record_file name) = true →
     run.1 = Ret 0%nat
     ∧ trace run.2 = trace w ++ [FunnelOn funnel_port local_port]
     ∧ files run.2
       = <[record_file name :=
             "{" +:+ q "method" +:+ ":" +:+ q "tailscale" +:+ ","
             +:+ q "name" +:+ ":" +:+ q name +:+ ","
             +:+ q "local_port" +:+ ":" +:+ local_port +:+ ","
             +:+ q "funnel_port" +:+ ":" +:+ funnel_port +:+ ","
             +:+ q "url" +:+ ":" +:+ q url +:+ ","
             +:+ q "ts_host" +:+ ":" +:+ q ts_host +:+ "}"]> (files w)
     ∧ last (out run.2) = Some (Echo url))
  ∧ (is_empty ts_host = false → funnel_on E funnel_port local_port = true →
     writable E (record_file name) = false →
     run.1 = Exit 1
     ∧ trace run.2 = trace w ++ [FunnelOn funnel_port local_port]
     ∧ files run.2 = files w).
Proof.
  intros funnel_port ts_host url run. subst run url.
  unfold start_tailscale_funnel, write_file. fold funnel_port. fold ts_host.
  sh_unfold.
  split; [|split; [|split]]; intros Hhost; rewrite Hhost; [done| | |];
    intros Hon; rewrite Hon; cbn; [done| |];
    intros Hw; rewrite Hw; cbn; [|done].
  destruct (String.eqb funnel_port "443"); cbn; now rewrite last_snoc.
Qed.

Lemma start_tailscale_funnel_spec_witness :
  (start_tailscale_funnel funnel_env "3000" "web" "8443" empty_world).1 = Ret 0%nat
  ∧ jq_flat ".url" <$> files (start_tailscale_funnel funnel_env "3000" "web" "8443"
                                                     empty_world).2 !! "web.json"
    = Some (0%nat, "https://devbox.tail1234.ts.net:8443")
  ∧ jq_flat ".funnel_port" <$> files (start_tailscale_funnel funnel_env "3000" "web"
                                        "8443" empty_world).2 !! "web.json"
    = Some (0%nat, "8443")
  ∧ (start_tailscale_funnel funnel_env "3000" "a/b" "" empty_world).1 = Exit 1
  ∧ (start_tailscale_funnel bare_env "3000" "web" "" empty_world).1 = Ret 1%nat.
Proof.
  destruct (proj1 (proj2 (proj2 (start_tailscale_funnel_spec funnel_env "3000"
                                   "web" "8443" empty_world)))
              eq_refl eq_refl eq_refl)
    as (H1 & _ & H2 & _).
  destruct (proj2 (proj2 (proj2 (start_tailscale_funnel_spec funnel_env "3000"
                                   "a/b" "" empty_world)))
              eq_refl eq_refl eq_refl) as (H3 & _).
  destruct (proj1 (start_tailscale_funnel_spec bare_env "3000" "web" ""
                     empty_world) eq_refl) as (H4 & _).
  split; [exact H1|]. rewrite H2. split; [reflexivity|]. split; [reflexivity|].
  exact (conj H3 H4).
Defined.

(** ** The routed launcher *)

(** X14.  Without [CLOUDFLARE_TUNNEL_DOMAIN] the routed launcher prints its
    two error lines and returns 1 at once: no cloudflared command has been
    run and nothing has been written or started. *)
Theorem start_cloudflare_named_no_domain (E : Env) (local_port name : string)
    (w : World) :
  is_empty (CLOUDFLARE_TUNNEL_DOMAIN E) = true →
  start_cloudflare_named E local_port name w
  = (Ret 1%nat,
     with_out
       [Error "CLOUDFLARE_TUNNEL_DOMAIN environment variable is required for named tunnels";
        Error "Set it to your Cloudflare domain, e.g.: export CLOUDFLARE_TUNNEL_DOMAIN=yourdomain.com"]
       w).
Proof.
  intros Hdomain. unfold start_cloudflare_named. rewrite Hdomain.
  sh_unfold. cbn. unfold with_out. now rewrite <- app_assoc.
Qed.

Lemma start_cloudflare_named_no_domain_witness :
  start_cloudflare_named bare_env "3000" "web" empty_world
  = (Ret 1%nat,
     with_out
       [Error "CLOUDFLARE_TUNNEL_DOMAIN environment variable is required for named tunnels";
        Error "Set it to your Cloudflare domain, e.g.: export CLOUDFLARE_TUNNEL_DOMAIN=yourdomain.com"]
       empty_world).
Proof. exact (start_cloudflare_named_no_domain bare_env "3000" "web" empty_world eq_refl). Defined.




(** ** Restarting a running tunnel *)

(** X16.  Before the routed launcher starts its process: when no running
    process matches the tunnel's pattern nothing is done; when exactly one
    matches, that process is killed and two seconds pass. *)
Theorem restart_running_one (E : Env) (tunnel_name : string) (w : World) :
  let pattern := "cloudflared.*tunnel.*run.*" +:+ tunnel_name in
  (matching E pattern (procs w) = ∅ →
   restart_running E tunnel_name w = (Ret tt, w))
  ∧ (∀ pid cmdline,
       matching E pattern (procs w) = {[ pid := cmdline ]} →
       is_empty pid = false →
       restart_running E tunnel_name w = (Ret tt, restarted pid (delete pid) w)).
Proof.
  intros pattern. unfold restart_running, pgrep_f, or_true, kill. fold pattern.
  split.
  - intros Hnone. sh_unfold. rewrite Hnone, map_to_list_empty. cbn.
    now destruct w.
  - intros pid cmdline Hone Hpid. sh_unfold.
    rewrite Hone, map_to_list_singleton. cbn. rewrite Hpid. cbn.
    assert (Hrun : procs w !! pid = Some cmdline).
    { assert (H : matching E pattern (procs w) !! pid = Some cmdline)
        by (rewrite Hone; apply lookup_singleton_eq).
      unfold matching in H. by apply map_lookup_filter_Some in H as [? _]. }
    rewrite Hrun. reflexivity.
Qed.

Lemma restart_running_one_witness :
  restart_running (named_env true true true) "devbox"
    (world_with_proc "4000" "cloudflared tunnel --config /home/dev/.subcode/tunnels/devbox-config.yml run devbox")
  = (Ret tt,
     restarted "4000" (delete "4000")
       (world_with_proc "4000" "cloudflared tunnel --config /home/dev/.subcode/tunnels/devbox-config.yml run devbox")).
Proof.
  apply (proj2 (restart_running_one (named_env true true true) "devbox" _)
               "4000" "cloudflared tunnel --config /home/dev/.subcode/tunnels/devbox-config.yml run devbox");
    [|reflexivity].
  apply map_eq. intros k. unfold matching.
  destruct (decide (k = "4000")) as [->|Hk].
  - reflexivity.
  - rewrite lookup_singleton_ne by done.
    apply map_lookup_filter_None. left. by apply lookup_singleton_ne.
Defined.

(** X17.  When two or more running processes match, [kill] is given their
    ids as one word of several lines, which is the id of no process (an id
    holds no line break): none of them is killed, and the launcher goes on
    after its two seconds to start one more. *)
Theorem restart_running_several (E : Env) (tunnel_name : string) (w : World) :
  let pattern := "cloudflared.*tunnel.*run.*" +:+ tunnel_name in
  let word := join_lines (map_to_list (matching E pattern (procs w))).*1 in
  (∀ pid, is_Some (procs w !! pid) → has_nl pid = false) →
  (2 ≤ size (matching E pattern (procs w)))%nat →
  restart_running E tunnel_name w = (Ret tt, restarted word id w).
Proof.
  intros pattern word Hids Hsize.
  assert (Hnl : has_nl word = true).
  { subst word. rewrite <- length_map_to_list in Hsize.
    destruct (map_to_list (matching E pattern (procs w))) as [|[x ?] [|[y ?] l]];
      cbn in Hsize; [lia|lia|]. apply has_nl_join_lines. }
  assert (Hword : is_empty word = false) by (destruct word; done).
  assert (Hnone : procs w !! word = None).
  { destruct (procs w !! word) eqn:Hw; [|done].
    rewrite Hids in Hnl by eauto. discriminate. }
  assert (Hnot : own_group word = false).
  { destruct (own_group word) eqn:Hg; [|done].
    apply own_group_no_nl in Hg. congruence. }
  unfold restart_running, pgrep_f, or_true, kill. fold pattern. sh_unfold.
  fold word. rewrite Hword. cbn. rewrite Hnone, Hnot. reflexivity.
Qed.

Lemma restart_running_several_witness :
  procs (restart_running (named_env true true true) "devbox" two_tunnels).2
  = procs two_tunnels.
Proof.
  rewrite (restart_running_several (named_env true true true) "devbox"
             two_tunnels).
  - reflexivity.
  - intros pid [cmd Hpid]. cbn [two_tunnels procs] in Hpid.
    apply lookup_insert_Some in Hpid as [[<- _]|[_ Hpid]]; [reflexivity|].
    apply lookup_singleton_Some in Hpid as [<- _]. reflexivity.
  - vm_compute. lia.
Defined.

(** ** Stopping a funnel and a quick tunnel *)

(** X18.  For a funnel record [stop_tunnel] turns the funnel off on the
    port the record holds, and deletes the record and returns 0 whether or
    not that command succeeds; it touches no process. *)
Theorem stop_tunnel_funnel (E : Env) (name text funnel_port : string) (w : World) :
  files w !! record_file name = Some text →
  jq E ".method" text = (0%nat, "tailscale") →
  jq E ".funnel_port" text = (0%nat, funnel_port) →
  let run := stop_tunnel E name w in
  run.1 = Ret 0%nat
  ∧ files run.2 = delete (record_file name) (files w)
  ∧ trace run.2 = trace w ++ [FunnelOff funnel_port]
  ∧ procs run.2 = procs w
  ∧ last (out run.2) = Some (Success ("Tunnel '" +:+ name +:+ "' stopped")).
Proof.
  intros Hfile Hmethod Hport run. subst run.
  unfold stop_tunnel, tailscale_funnel_off. sh_unfold.
  rewrite Hfile, Hmethod. cbn. rewrite Hport. cbn. now rewrite last_snoc.
Qed.

Lemma stop_tunnel_funnel_witness :
  (stop_tunnel bare_env "web" funnel_world).1 = Ret 0%nat
  ∧ files (stop_tunnel bare_env "web" funnel_world).2
    = delete (record_file "web") (files funnel_world)
  ∧ trace (stop_tunnel bare_env "web" funnel_world).2 = [FunnelOff "8443"].
Proof.
  destruct (stop_tunnel_funnel bare_env "web" _ "8443" funnel_world
              eq_refl eq_refl eq_refl) as (H1 & H2 & H3 & _).
  exact (conj H1 (conj H2 H3)).
Defined.

(** X19.  For a quick-tunnel record whose process id is one (a decimal
    number without sign, blank or leading zero, as the launcher wrote it),
    [stop_tunnel] kills the process of that id and no other, and deletes
    the record and returns 0 whether or not that process still runs.  When
    the id reads as 0 instead (and is the id of no running process), the
    signal goes to the process group of the script itself: the script ends
    there with status 143 and the record is in place. *)
Theorem stop_tunnel_quick (E : Env) (name text pid : string) (w : World) :
  files w !! record_file name = Some text →
  jq E ".method" text = (0%nat, "cloudflare_quick") →
  jq E ".pid" text = (0%nat, pid) →
  let run := stop_tunnel E name w in
  (is_pid pid = true →
   run.1 = Ret 0%nat
   ∧ files run.2 = delete (record_file name) (files w)
   ∧ procs run.2 = delete pid (procs w)
   ∧ trace run.2 = trace w ++ [Kill pid]
   ∧ last (out run.2) = Some (Success ("Tunnel '" +:+ name +:+ "' stopped")))
  ∧ (own_group pid = true → procs w !! pid = None →
     run.1 = Exit 143
     ∧ files run.2 = files w
     ∧ procs run.2 = procs w
     ∧ trace run.2 = trace w ++ [Kill pid]).
Proof.
  intros Hfile Hmethod Hpid run. subst run.
  unfold stop_tunnel, kill. sh_unfold.
  rewrite Hfile, Hmethod. cbn. rewrite Hpid. cbn. split.
  - intros Hid. rewrite (is_pid_not_own_group _ Hid).
    destruct (procs w !! pid) eqn:Hrun; cbn; rewrite last_snoc;
      repeat split; try done.
    symmetry. by apply delete_id.
  - intros Hg Hnone. rewrite Hnone, Hg. done.
Qed.

Lemma stop_tunnel_quick_witness :
  (stop_tunnel bare_env "demo" quick_world).1 = Ret 0%nat
  ∧ procs (stop_tunnel bare_env "demo" quick_world).2
    = delete "4000" (procs quick_world)
  ∧ procs (stop_tunnel bare_env "demo" quick_world).2 !! "4001"
    = Some "cloudflared tunnel --url http://localhost:8080"
  ∧ (stop_tunnel bare_env "demo" (quick_world_pid "0")).1 = Exit 143
  ∧ files (stop_tunnel bare_env "demo" (quick_world_pid "0")).2
    = files (quick_world_pid "0").
Proof.
  destruct (proj1 (stop_tunnel_quick bare_env "demo" _ "4000" quick_world
                     eq_refl eq_refl eq_refl) eq_refl) as (H1 & _ & H3 & _).
  destruct (proj2 (stop_tunnel_quick bare_env "demo" _ "0" (quick_world_pid "0")
                     eq_refl eq_refl eq_refl) eq_refl eq_refl) as (H4 & H5 & _).
  split; [exact H1|]. split; [exact H3|]. split; [rewrite H3; reflexivity|].
  exact (conj H4 H5).
Defined.

(** X20.  Stopping twice: once [stop_tunnel] has returned, a second
    [stop_tunnel] of the same name only prints the warning and returns 0. *)
Theorem stop_tunnel_twice (E : Env) (name : string) (w w1 : World) (st : nat) :
  stop_tunnel E name w = (Ret st, w1) →
  stop_tunnel E name w1
  = (Ret 0%nat, printed (Warning ("No tunnel found with name: " +:+ name)) w1).
Proof.
  intros Hrun. apply stop_tunnel_returned in Hrun as [_ Hgone].
  unfold stop_tunnel. sh_unfold. now rewrite Hgone.
Qed.

Lemma stop_tunnel_twice_witness :
  stop_tunnel bare_env "demo" (stop_tunnel bare_env "demo" quick_world).2
  = (Ret 0%nat,
     printed (Warning "No tunnel found with name: demo")
             (stop_tunnel bare_env "demo" quick_world).2).
Proof.
  exact (stop_tunnel_twice bare_env "demo" quick_world
           (stop_tunnel bare_env "demo" quick_world).2 0 eq_refl).
Defined.

(** X21.  However [stop_tunnel] ends, every file other than the record of
    [name] is as it was, no routing configuration has changed, and no
    process has been started. *)
Theorem stop_tunnel_frame (E : Env) (name : string) (w w' : World)
    (r : outcome nat) :
  stop_tunnel E name w = (r, w') →
  (∀ f, f ≠ record_file name → files w' !! f = files w !! f)
  ∧ configs w' = configs w
  ∧ procs w' ⊆ procs w.
Proof.
  unfold stop_tunnel, tailscale_funnel_off, kill. sh_unfold.
  run_cases; intros [= <- <-]; cbn; repeat split; try done.
  all: first [ by intros f Hf; rewrite lookup_delete_ne | apply delete_subseteq ].
Qed.

Lemma stop_tunnel_frame_witness :
  configs (stop_tunnel bare_env "demo" quick_world).2 = configs quick_world
  ∧ procs (stop_tunnel bare_env "demo" quick_world).2 ⊆ procs quick_world.
Proof.
  exact (proj2 (stop_tunnel_frame bare_env "demo" quick_world _ _
                  (surjective_pairing _))).
Defined.

(** X22.  [stop_tunnel] on a stored record, the process id of a quick
    tunnel being one, is all or nothing: either it returns 0 and the record
    is gone, or one of its [jq] calls failed and the script has ended with
    that non-zero status before any teardown, with every file and process
    as it was and no command run. *)
Theorem stop_tunnel_all_or_nothing (E : Env) (name text : string) (w : World) :
  files w !! record_file name = Some text →
  ((jq E ".method" text).2 = "cloudflare_quick" →
   is_pid (jq E ".pid" text).2 = true) →
  let run := stop_tunnel E name w in
  (run.1 = Ret 0%nat ∧ files run.2 !! record_file name = None)
  ∨ (∃ st, run.1 = Exit (S st) ∧ files run.2 = files w
           ∧ procs run.2 = procs w ∧ trace run.2 = trace w).
Proof.
  intros Hfile Hpid run.
  destruct (stop_tunnel_dichotomy E name text w run.2 run.1 Hfile
              (surjective_pairing _)) as [H|[H|(Hm & Hg & _)]]; [by left|by right|].
  rewrite (is_pid_not_own_group _ (Hpid Hm)) in Hg. discriminate.
Qed.

Lemma stop_tunnel_all_or_nothing_witness :
  ((stop_tunnel bare_env "web" (world_with_file "web.json" broken_record)).1
   = Ret 0%nat
   ∧ files (stop_tunnel bare_env "web"
              (world_with_file "web.json" broken_record)).2
     !! record_file "web" = None)
  ∨ (∃ st,
       (stop_tunnel bare_env "web" (world_with_file "web.json" broken_record)).1
       = Exit (S st)
       ∧ files (stop_tunnel bare_env "web"
                  (world_with_file "web.json" broken_record)).2
         = files (world_with_file "web.json" broken_record)
       ∧ procs (stop_tunnel bare_env "web"
                  (world_with_file "web.json" broken_record)).2
         = procs (world_with_file "web.json" broken_record)
       ∧ trace (stop_tunnel bare_env "web"
                  (world_with_file "web.json" broken_record)).2
         = trace (world_with_file "web.json" broken_record)).
Proof.
  apply (stop_tunnel_all_or_nothing bare_env "web" broken_record
           (world_with_file "web.json" broken_record) eq_refl).
  discriminate.
Defined.

(** ** Stopping everything *)

(** X23.  [stop_all_tunnels] returns 0 whatever the funnel reset and the
    [pkill] answer.  Afterwards no file that [*.json] matches is left, so
    the record of every name that has no slash and does not begin with a
    dot is gone; every other file and every routing configuration is as it
    was. *)
Theorem stop_all_tunnels_clears (E : Env) (w : World) :
  let run := stop_all_tunnels E w in
  run.1 = Ret 0%nat
  ∧ (∀ f, glob_json f = true → files run.2 !! f = None)
  ∧ (∀ c rest, c ≠ "."%char → has_slash (String c rest) = false →
               files run.2 !! record_file (String c rest) = None)
  ∧ (∀ f, glob_json f = false → files run.2 !! f = files w !! f)
  ∧ configs run.2 = configs w.
Proof.
  intros run. subst run.
  destruct (stop_all_tunnels_spec E w) as (w' & -> & Hgone & Hkept & Hconf).
  cbn. repeat split; try done.
  intros c rest Hdot Hslash. apply Hgone. by apply glob_json_record.
Qed.

(** X24.  After [stop_all_tunnels] the running processes are exactly those
    that ran before and whose command line does not match
    [cloudflared tunnel]; the two teardown commands have been run once
    each, in this order. *)
Theorem stop_all_tunnels_processes (E : Env) (w : World) :
  let run := stop_all_tunnels E w in
  (∀ pid cmdline,
     procs run.2 !! pid = Some cmdline
     ↔ procs w !! pid = Some cmdline
       ∧ regex_match E "cloudflared tunnel" cmdline ≠ true)
  ∧ trace run.2 = trace w ++ [FunnelReset; Pkill "cloudflared tunnel"].
Proof.
  intros run. subst run.
  unfold stop_all_tunnels, tailscale_funnel_reset, pkill_f. sh_unfold.
  cbn. destruct (decide (matching E "cloudflared tunnel" (procs w) = ∅))
    as [Hnone|Hsome]; cbn; (split; [|by rewrite <- app_assoc]).
  - intros pid cmdline. split; [|by intros [? _]].
    intros Hpid. split; [done|]. intros Hmatch.
    assert (H : matching E "cloudflared tunnel" (procs w) !! pid = Some cmdline)
      by (apply map_lookup_filter_Some; done).
    rewrite Hnone in H. discriminate.
  - intros pid cmdline. apply map_lookup_filter_Some.
Qed.

(** X25.  After [stop_all_tunnels], [list_tunnels] finds nothing to list:
    it prints "No active tunnels" and returns 0. *)
Theorem list_after_stop_all (E : Env) (w : World) :
  let reset := (stop_all_tunnels E w).2 in
  list_tunnels E reset
  = (Ret 0%nat,
     with_out [Echo ""; Echo "Active Tunnels"; Echo "==============";
               Echo ""; Echo "No active tunnels"; Echo ""] reset).
Proof.
  intros reset. apply list_tunnels_no_match. subst reset.
  destruct (stop_all_tunnels_spec E w) as (w' & -> & Hgone & _). exact Hgone.
Qed.

(** ** Rewriting the routing configuration *)



(** X27.  The edit of an existing configuration with [yq].  When both
    [yq] commands work and the file can be written, the new file keeps the
    tunnel name and the credentials file, and holds the new rule followed
    by every rule of another host and the rules without a host, in their
    order.  When the first [yq] command fails the script ends with its
    status and the file is as it was; when the second fails the script
    ends with its status and the file is left empty, for the redirection
    has emptied it before [yq] ran. *)
Theorem update_config_yq_keeps_others (E : Env)
    (config_file tunnel_name creds_file host local_port : string) (w : World)
    (c : Config) :
  configs w !! config_file = Some c → has_yq E = true →
  let run := update_config E config_file tunnel_name creds_file host local_port w in
  (writable E config_file = true → yq_works E host local_port c →
   run.1 = Ret tt
   ∧ ∃ c', configs run.2 !! config_file = Some c'
           ∧ tunnel c' = tunnel c ∧ credentials_file c' = credentials_file c
           ∧ ingress c'
             = {| hostname := Some host;
                  service := "http://localhost:" +:+ local_port |}
               :: filter (λ r, hostname r ≠ Some host) (ingress c)
           ∧ ∀ other, other ≠ host → rules_for other c' = rules_for other c)
  ∧ (∀ st, (yq E (yq_del_program host) c).1 = S st →
           run.1 = Exit (S st) ∧ configs run.2 = configs w)
  ∧ (∀ temp st, yq E (yq_del_program host) c = (0%nat, temp) →
                writable E config_file = true →
                (yq E (yq_add_program host local_port) temp).1 = S st →
                run.1 = Exit (S st)
                ∧ configs run.2 !! config_file = Some empty_config).
Proof.
  intros Hc Hyq run. subst run. split; [|split].
  - intros Hw Hworks.
    rewrite update_config_ok
      by (split; [done|]; intros c0 Hc0 _; by simplify_eq).
    cbn. rewrite Hc, Hyq. split; [done|].
    eexists. split; [apply lookup_insert_eq|]. cbn. repeat split.
    intros other Hother. unfold rules_for. cbn.
    destruct (decide (Some host = Some other)) as [[= ->]|_]; [done|].
    apply list_filter_filter_l. intros r Ho. rewrite Ho. congruence.
  - intros st Hst. unfold update_config. sh_unfold. rewrite Hc, Hyq, Hst. done.
  - intros temp st Hdel Hw Hst. unfold update_config, write_config. sh_unfold.
    rewrite Hc, Hyq, Hdel. cbn. rewrite Hw. cbn. rewrite Hst. cbn.
    split; [done|]. apply lookup_insert_eq.
Qed.

Lemma update_config_yq_keeps_others_witness :
  ∃ c', configs (update_config (named_env true true true) "devbox-config.yml"
                   "devbox" "creds.json" "web-devbox.example.com" "5173"
                   (world_with_config "devbox-config.yml" two_rules)).2
        !! "devbox-config.yml" = Some c'
        ∧ ingress c'
          = [{| hostname := Some "web-devbox.example.com";
                service := "http://localhost:5173" |};
             {| hostname := Some "api-devbox.example.com";
                service := "http://localhost:8080" |};
             {| hostname := None; service := "http_status:404" |}].
Proof.
  destruct (proj1 (update_config_yq_keeps_others (named_env true true true)
                     "devbox-config.yml" "devbox" "creds.json"
                     "web-devbox.example.com" "5173"
                     (world_with_config "devbox-config.yml" two_rules) two_rules
                     eq_refl eq_refl) eq_refl (conj eq_refl eq_refl))
    as (_ & c' & Hc' & _ & _ & Hingress & _).
  exists c'. split; [exact Hc'|]. rewrite Hingress. reflexivity.
Defined.

(** A host that holds a double quote: the stand-in for [yq] cannot read
    the program, as [yq] cannot, and the script ends with the
    configuration as it was. *)
Example update_config_quoted_host :
  let run := update_config (named_env true true true) "devbox-config.yml"
               "devbox" "creds.json" ("a" +:+ dq +:+ "b-devbox.example.com")
               "5173" (world_with_config "devbox-config.yml" two_rules) in
  run.1 = Exit 1 ∧ configs run.2 !! "devbox-config.yml" = Some two_rules.
Proof. vm_compute. split; reflexivity. Qed.

(** X28.  When the rewriting can be done, the catch-all rule ends the
    rewritten configuration when the file is new, and when [yq] edits a
    file that the catch-all rule ended. *)
Theorem update_config_keeps_catch_all (E : Env)
    (config_file tunnel_name creds_file host local_port : string) (w : World) :
  can_update E config_file host local_port w →
  match configs w !! config_file with
  | None => True
  | Some c => has_yq E = true ∧ last (ingress c) = Some catch_all
  end →
  (λ c, last (ingress c)) <$>
    (configs (update_config E config_file tunnel_name creds_file host
                            local_port w).2 !! config_file)
  = Some (Some {| hostname := None; service := "http_status:404" |}).
Proof.
  intros Hcan Hold.
  destruct (update_config_one_rule E config_file tunnel_name creds_file host
              local_port w Hcan) as (c & w' & Hrun & Hc & _).
  rewrite Hrun. cbn. rewrite Hc. cbn. f_equal.
  eapply update_config_catch_all; eauto.
Qed.

Lemma update_config_keeps_catch_all_witness :
  (λ c, last (ingress c)) <$>
    (configs (update_config (named_env true true true) "devbox-config.yml"
                "devbox" "creds.json" "web-devbox.example.com" "5173"
                (world_with_config "devbox-config.yml" two_rules)).2
     !! "devbox-config.yml")
  = Some (Some {| hostname := None; service := "http_status:404" |}).
Proof.
  apply update_config_keeps_catch_all.
  - split; [reflexivity|]. intros c Hc _.
    cbn [world_with_config configs] in Hc.
    apply lookup_singleton_Some in Hc as [_ <-]. split; reflexivity.
  - cbn. split; reflexivity.
Defined.

(** ** What a launcher touches *)

(** X29.  However the quick launcher ends, the only files it has written
    are the log and the record of its own name; the files of other names,
    the routing configurations and the other processes are as they were. *)
Theorem start_cloudflare_quick_own_files (E : Env) (local_port name : string)
    (w w' : World) (r : outcome nat) :
  start_cloudflare_quick E local_port name w = (r, w') →
  (∀ f, f ≠ name +:+ ".log" → f ≠ record_file name →
        files w' !! f = files w !! f)
  ∧ configs w' = configs w
  ∧ (∀ pid, pid ≠ pretty (next_pid w) → procs w' !! pid = procs w !! pid).
Proof.
  intros Hrun.
  destruct (start_cloudflare_quick_run E local_port name w)
    as (r0 & w0 & Hrun0 & Hfiles & Hconf & Hprocs & _).
  rewrite Hrun in Hrun0. injection Hrun0 as <- <-. done.
Qed.

Lemma start_cloudflare_quick_own_files_witness :
  configs (start_cloudflare_quick slow_env "3000" "web" quick_world).2
  = configs quick_world
  ∧ files (start_cloudflare_quick slow_env "3000" "web" quick_world).2
    !! "demo.json" = files quick_world !! "demo.json".
Proof.
  destruct (start_cloudflare_quick_own_files slow_env "3000" "web" quick_world
              _ _ (surjective_pairing _)) as (Hfiles & Hconf & _).
  split; [exact Hconf|]. apply Hfiles; discriminate.
Defined.

(** X30.  However the routed launcher ends, the only files it has written
    are the log of its tunnel and the record of its name, and the only
    routing configuration it has written is the one of its tunnel. *)
Theorem start_cloudflare_named_own_files (E : Env) (local_port name : string)
    (w w' : World) (r : outcome nat) :
  let tunnel_name := or_default (CLOUDFLARE_TUNNEL_NAME E) (get_machine_name E) in
  start_cloudflare_named E local_port name w = (r, w') →
  (∀ f, f ≠ tunnel_name +:+ ".log" → f ≠ record_file name →
        files w' !! f = files w !! f)
  ∧ (∀ f, f ≠ tunnel_name +:+ "-config.yml" → configs w' !! f = configs w !! f).
Proof.
  intros tunnel_name Hrun.
  destruct (start_cloudflare_named_run E local_port name w)
    as (r0 & w0 & Hrun0 & Hfiles & Hconf & _).
  rewrite Hrun in Hrun0. injection Hrun0 as <- <-. done.
Qed.

Lemma start_cloudflare_named_own_files_witness :
  files (start_cloudflare_named (named_env true true true) "3000" "web"
                                quick_world).2 !! "demo.json"
  = files quick_world !! "demo.json".
Proof.
  destruct (start_cloudflare_named_own_files (named_env true true true) "3000"
              "web" quick_world _ _ (surjective_pairing _)) as (Hfiles & _).
  apply Hfiles; discriminate.
Defined.
